(** * openCEM multi-year simulation: a shallow embedding of [cemo/multi.py]
    and [cemo/jsonify.py], and the properties of its configuration
    validation, template generation, sequential solve and result merge. *)

From Stdlib Require Import ZArith QArith Qround Qabs Qpower Lqa String Ascii
  List Lia.
From stdpp Require Import base option list strings gmap pretty sorting.

Set Warnings "-register-all".
Open Scope Z_scope.
Open Scope string_scope.

(** ** Python values and builtins used by the sources *)
Module Py.

(** Exceptions, by the class the interpreter or the source raises. *)
Inductive exn : Type :=
| ValueError (msg : string)
| Exception (msg : string)
| KeyError (key : string)
| IndexError
| FileNotFoundError (msg : string)
| OSError (msg : string)
| OverflowError (msg : string)
| External (who : string).

Inductive result (A : Type) : Type :=
| Ok (a : A)
| Raise (e : exn).
Arguments Ok {A} a.
Arguments Raise {A} e.

Definition bind {A B} (r : result A) (k : A -> result B) : result B :=
  match r with
  | Ok a => k a
  | Raise e => Raise e
  end.

Definition raises {A} (r : result A) : Prop :=
  match r with Ok _ => False | Raise _ => True end.

Definition succeeds {A} (r : result A) : Prop :=
  match r with Ok _ => True | Raise _ => False end.

Definition Qltb (x y : Q) : bool := negb (Qle_bool y x).

(** A Python float is a double.  A finite double is represented by the
    rational it denotes, minus zero apart; the other doubles are the two
    infinities and not-a-number, which [float] and [json.loads] read (from
    [inf], [nan], [Infinity], [NaN] and the like). *)
Inductive pyfloat : Type :=
| Finite (q : Q)
| NegZero
| Infinity (negative : bool)
| NaN.

Coercion Finite : Q >-> pyfloat.

(** A JSON/Python number: [int] and [float] print differently, so the two
    are kept apart. *)
Inductive num : Type :=
| PyInt (z : Z)
| PyFloat (x : pyfloat).

(** The value of a number on the extended real line; not-a-number has
    none. *)
Inductive ereal : Type :=
| MinusInf
| Real (q : Q)
| PlusInf.

Definition float_val (x : pyfloat) : option ereal :=
  match x with
  | Finite q => Some (Real q)
  | NegZero => Some (Real 0)
  | Infinity true => Some MinusInf
  | Infinity false => Some PlusInf
  | NaN => None
  end.

Definition num_val (n : num) : option ereal :=
  match n with
  | PyInt z => Some (Real (inject_Z z))
  | PyFloat x => float_val x
  end.

Definition ereal_ltb (a b : ereal) : bool :=
  match a, b with
  | MinusInf, MinusInf => false
  | MinusInf, _ => true
  | _, MinusInf => false
  | PlusInf, _ => false
  | _, PlusInf => true
  | Real p, Real q => Qltb p q
  end.

Definition is_nan (n : num) : bool :=
  match n with PyFloat NaN => true | _ => false end.

(** [x < y] on numbers ([y > x] is the same comparison): an [int] and a
    [float] are compared by their exact values, and a comparison with
    not-a-number is false. *)
Definition num_ltb (x y : num) : bool :=
  match num_val x, num_val y with
  | Some a, Some b => ereal_ltb a b
  | _, _ => false
  end.

(** The line feed and the double quote, as one-character strings. *)
Definition nl : string := String "010"%char EmptyString.
Definition dq : string := String "034"%char EmptyString.


(** [str(i)] on an [int]. *)
Definition str_int (z : Z) : string := pretty z.

(** [sep.join(l)]. *)
Definition join (sep : string) (l : list string) : string :=
  String.concat sep l.

(** [l.index(x)]: position of the first occurrence; [ValueError] when
    [x] is not in the list. *)
Fixpoint index (x : Z) (l : list Z) : option nat :=
  match l with
  | [] => None
  | y :: l' => if Z.eqb y x then Some O else option_map S (index x l')
  end.

(** [l[i - 1]] for an index [i] obtained from [index]: Python counts a
    negative subscript from the end, so [l[-1]] is the last element. *)
Definition item_before (l : list Z) (i : nat) : option Z :=
  match i with
  | O => last l
  | S j => l !! j
  end.

(** [max(l)] and [min(l)] of a non-empty list. *)
Definition max_list (x : Z) (l : list Z) : Z := fold_left Z.max l x.
Definition min_list (x : Z) (l : list Z) : Z := fold_left Z.min l x.

(** [sorted(l)] on integers. *)
Definition sorted (l : list Z) : list Z := merge_sort Z.le l.

(** [s.startswith(p)]. *)
Fixpoint startswith (p s : string) : bool :=
  match p, s with
  | EmptyString, _ => true
  | String a p', String b s' => if Ascii.eqb a b then startswith p' s' else false
  | String _ _, EmptyString => false
  end.

(** [s.replace(old, new)] for a non-empty [old]: every occurrence, scanning
    from the left, occurrences not overlapping.  [skip] counts the
    characters of a matched occurrence still to be passed over. *)
Fixpoint replace_from (old new s : string) (skip : nat) : string :=
  match s with
  | EmptyString => EmptyString
  | String c s' =>
      match skip with
      | S k => replace_from old new s' k
      | O =>
          if startswith old s
          then new +:+ replace_from old new s' (String.length old - 1)
          else String c (replace_from old new s' O)
      end
  end.

Definition replace (old new s : string) : string := replace_from old new s O.

(** Iterating over a text file: the lines, each with its line end. *)
Fixpoint lines_from (acc : string) (s : string) : list string :=
  match s with
  | EmptyString => match acc with EmptyString => [] | _ => [String.rev acc] end
  | String c s' =>
      if Ascii.eqb c "010"%char
      then String.rev (String c acc) :: lines_from EmptyString s'
      else lines_from (String c acc) s'
  end.

Definition readlines (s : string) : list string := lines_from EmptyString s.

(** What reading in text mode makes of the line ends of a file (universal
    newlines): a carriage return followed by a line feed, and any other
    carriage return, is read as a line feed. *)
Fixpoint universal_newlines (s : string) : string :=
  match s with
  | EmptyString => EmptyString
  | String c s' =>
      if Ascii.eqb c "013"%char
      then
        match s' with
        | String c' s'' =>
            if Ascii.eqb c' "010"%char
            then String "010"%char (universal_newlines s'')
            else String "010"%char (universal_newlines s')
        | EmptyString => String "010"%char EmptyString
        end
      else String c (universal_newlines s')
  end.

End Py.
Export Py.

#[global] Instance result_ret : MRet result := fun A a => Ok a.
#[global] Instance result_bind : MBind result := fun A B k r => Py.bind r k.

(** JSON values.  An object keeps its keys in insertion order, as a Python
    [dict] does. *)
Inductive json : Type :=
| JNull
| JBool (b : bool)
| JNum (n : num)
| JStr (s : string)
| JArr (l : list json)
| JObj (o : list (string * json)).

(** [d[k]] and [k in d] on a dict kept as an association list. *)
Fixpoint dict_get {V} (k : string) (d : list (string * V)) : option V :=
  match d with
  | [] => None
  | (k', v) :: d' => if String.eqb k' k then Some v else dict_get k d'
  end.

(** [d[k] = v]: an existing key keeps its position, a new key goes last. *)
Fixpoint dict_set {V} (k : string) (v : V) (d : list (string * V))
  : list (string * V) :=
  match d with
  | [] => [(k, v)]
  | (k', v') :: d' =>
      if String.eqb k' k then (k', v) :: d' else (k', v') :: dict_set k v d'
  end.

(** [d.update(e)]. *)
Definition dict_update {V} (d e : list (string * V)) : list (string * V) :=
  fold_left (fun acc kv => dict_set kv.1 kv.2 acc) e d.

Definition dict_keys {V} (d : list (string * V)) : list string := map fst d.

(** [dict(pairs)] with integer keys. *)
Fixpoint zdict_set {V} (k : Z) (v : V) (d : list (Z * V)) : list (Z * V) :=
  match d with
  | [] => [(k, v)]
  | (k', v') :: d' =>
      if Z.eqb k' k then (k', v) :: d' else (k', v') :: zdict_set k v d'
  end.

Definition zdict {V} (pairs : list (Z * V)) : list (Z * V) :=
  fold_left (fun acc kv => zdict_set kv.1 kv.2 acc) pairs [].

(** The file system: a file holds text, or the value [json.dump] wrote,
    which is the value [json.load] reads back. *)
Inductive file : Type :=
| FText (s : string)
| FJson (j : json).

Abbreviation fs := (gmap string file).

(** Round half to even, to an integer. *)
Definition round_half_even (y : Q) : Z :=
  let f := Qfloor y in
  match ((y - inject_Z f) ?= (1 # 2))%Q with
  | Lt => f
  | Gt => f + 1
  | Eq => if Z.even f then f else f + 1
  end.

(** Powers of two, as rationals. *)
Definition pow2 (e : Z) : Q := Qpower 2 e.

(** The double nearest to a rational, ties to even, as the conversion of a
    decimal to a float returns it.  A double has 53 significant bits, and
    the exponent [e] of its last bit runs from -1074 to 971: for a rational
    of magnitude [a] with [2^k <= a < 2^(k+1)] it is [k - 52], and -1074
    for the subnormal ones; [k] is read off the integer part of
    [a * 2^1100].  A rational that rounds to [2^1024] or above has no
    double. *)
Definition nearest_double (q : Q) : option Q :=
  let a := Qabs q in
  let e := Z.max (Z.log2 (Qfloor (a * pow2 1100)) - 1100 - 52) (-1074) in
  let m := round_half_even (a / pow2 e) in
  let v := (inject_Z m * pow2 e)%Q in
  if Qle_bool (pow2 1024) v then None
  else Some (Qred (if Qltb q 0 then - v else v)).

(** [round(x, 2)] on a float: the decimal with two places nearest to the
    exact value of [x], ties to even, then the double nearest to this
    decimal; a result that is zero keeps the sign of [x]; zeros, infinities
    and not-a-number round to themselves. *)
Definition py_round2 (x : pyfloat) : result pyfloat :=
  match x with
  | Finite q =>
      let n := round_half_even (q * 100) in
      if Z.eqb n 0 then Ok (if Qltb q 0 then NegZero else Finite 0)
      else
        match nearest_double (n # 100) with
        | Some d => Ok (Finite d)
        | None =>
            Raise (OverflowError "rounded value too large to represent")
        end
  | _ => Ok x
  end.

(** [round(x, 2)] on a number: an [int] is returned as it is. *)
Definition round2 (x : num) : result num :=
  match x with
  | PyInt z => Ok (PyInt z)
  | PyFloat x => y ← py_round2 x; Ok (PyFloat y)
  end.

(** ** cemo/multi.py: module-level functions *)

(** The double that the literal [1e-6] denotes. *)
Definition lit_1e_6 : Q := (4722366482869645 # 4722366482869645213696)%Q.

(** [roundup(cap)]. *)
Definition roundup (cap : num) : result num :=
  if num_ltb (PyFloat (- lit_1e_6)%Q) cap && num_ltb cap (PyInt 0)
  then Ok (PyInt 0)
  else round2 cap.

(** A technology set: zone -> technologies, a [dict] in insertion order. *)
Definition techset : Type := list (Z * list Z).

Definition str_tuple (p : Z * Z) : string :=
  "(" +:+ str_int p.1 +:+ ", " +:+ str_int p.2 +:+ ")".

Definition techset_pairs (t : techset) : list (Z * Z) :=
  flat_map (fun zl => map (pair zl.1) zl.2) t.

(** [sqllist(techset)]. *)
Definition sqllist (t : techset) : string :=
  let out := techset_pairs t in
  let out := match out with [] => [(99, 99)] | _ => out end in
  "(" +:+ join ", " (map str_tuple out) +:+ ")".

(** [dclist(techset)]. *)
Definition dclist (t : techset) : string :=
  fold_left
    (fun out p => out +:+ str_int p.1 +:+ " " +:+ str_int p.2 +:+ nl)
    (techset_pairs t) EmptyString.

(** ** Data read from the scenario file and the override tables *)

(** The scenario file as [configparser] and [json.loads] deliver it; [None]
    is an absent option. *)
Record scenario_file : Type := {
  f_Name : option string;
  f_Years : option (list Z);
  f_nem_ret_ratio : option (list num);
  f_nem_ret_gwh : option (list num);
  f_region_ret_ratio : option (list (Z * list num));
  f_emitlimit : option (list num);
  f_nem_disp_ratio : option (list num);
  f_nem_re_disp_ratio : option (list num);
  f_discountrate : option string;
  f_cost_emit : option (list num);
  f_Description : option string;
  f_Template : option string;
  f_custom_costs : option string;
  f_exogenous_capacity : option string;
  f_cluster : option bool;
  f_cluster_sets : option Z;
  f_regions : option (list Z);
  f_zones : option (list Z);
  f_all_tech : option (list Z);
  f_all_tech_per_zone : option (list (Z * list Z))
}.

(** Custom-cost table: columns [name, tech, zone] and one column per year;
    an empty cell is absent from [cr_cells]. *)
Record cost_row : Type := {
  cr_name : string;
  cr_tech : Z;
  cr_zone : Z;
  cr_cells : list (string * num)
}.

Record cost_table : Type := {
  ct_columns : list string;
  ct_rows : list cost_row
}.

(** Exogenous-capacity table: columns [name, tech, zone, year, value]. *)
Record exo_row : Type := {
  er_name : string;
  er_tech : Z;
  er_zone : Z;
  er_year : Z;
  er_value : num
}.

(** [cemo.const]: the identifier tables of the model. *)
Record Const : Type := {
  REGION : list Z;
  ZONE : list Z;
  TECH_TYPE : list Z;
  FUEL_TECH : list Z;
  COMMIT_TECH : list Z;
  RE_GEN_TECH : list Z;
  DISP_GEN_TECH : list Z;
  RE_DISP_GEN_TECH : list Z;
  HYB_TECH : list Z;
  GEN_TECH : list Z;
  STOR_TECH : list Z;
  RETIRE_TECH : list Z;
  NOBUILD_TECH : list Z
}.

Record model_options : Type := {
  opt_nem_ret_ratio : bool;
  opt_nem_ret_gwh : bool;
  opt_region_ret_ratio : bool;
  opt_emitlimit : bool;
  opt_nem_disp_ratio : bool;
  opt_nem_re_disp_ratio : bool
}.

(** ** The libraries the sources call: the interpreter's float conversions,
    configparser, pandas, pyomo and the solver, and the modules of the
    repository they import ([cemo.const], [cemo.model], [cemo.cluster],
    [cemo.rules]). *)
Class Libs : Type := {
  const : Const;
  (** [float(s)] and [str(x)] on a float *)
  float_of_string : string -> option pyfloat;
  str_float : pyfloat -> string;
  (** [configparser] and [json.loads] over the text of a scenario file *)
  parse_config : string -> result scenario_file;
  (** [json.dumps] and [json.loads] *)
  json_dumps : json -> string;
  json_loads : string -> result json;
  (** [pd.read_csv(path, skipinitialspace=True)] on the two tables, and
      [pd.read_csv(path).to_dict(orient='records')] *)
  read_csv_costs : string -> result cost_table;
  read_csv_capacity : string -> result (list exo_row);
  csv_records : string -> result json;
  (** [DataFrame.to_string(header=False, index=False, ...)] over the selected
      columns: tech and year (with the two formatters), zone, tech and year
      (with the three formatters), zone, tech and value (no formatter) *)
  to_string_tech : list (Z * num) -> string;
  to_string_zonetech : list (Z * Z * num) -> string;
  to_string_capacity : list (Z * Z * num) -> string;
  (** pyomo: a model instance and its components *)
  instance : Type;
  create_instance : Z -> model_options -> string -> fs -> result instance;
  run_cluster :
    instance -> Z -> string -> model_options -> string -> bool -> fs ->
    result (list (string * num));
  opt_solve : string -> bool -> instance -> result instance;
  inst_zones : instance -> list Z;
  tech_per_zone : instance -> string -> Z -> list Z;
  set_var : instance -> string -> Z * Z -> num -> result instance;
  fix_var : instance -> string -> instance;
  has_component : instance -> string -> bool;
  set_members : instance -> string -> list json;
  indexed_set : instance -> string -> list (json * list json);
  param_items : instance -> string -> list (json * json);
  param_value : instance -> string -> json;
  var_items : instance -> string -> list (json * json);
  dual_items : instance -> string -> list (json * json);
  str_index : json -> string;
  objective_less_shadow : instance -> json;
  cost_capital : instance -> Z -> json
}.

(** ** cemo/multi.py: class SolveTemplate *)

Record SolveTemplate : Type := {
  cfgfile : string;
  Name : string;
  Years : list Z;
  nem_ret_ratio : option (list num);
  nem_ret_gwh : option (list num);
  region_ret_ratio : option (list (Z * list num));
  emitlimit : option (list num);
  nem_disp_ratio : option (list num);
  nem_re_disp_ratio : option (list num);
  options : model_options;
  discountrate : string;
  cost_emit : option (list num);
  description : option string;
  Template : string;
  custom_costs : option string;
  exogenous_capacity : option string;
  cluster : option bool;
  cluster_max_d : Z;
  regions : list Z;
  zones : list Z;
  all_tech : list Z;
  all_tech_per_zone : techset;
  tmpdir : string;
  solver : string;
  log : bool;
  fueltech : techset;
  committech : techset;
  regentech : techset;
  dispgentech : techset;
  redispgentech : techset;
  hybtech : techset;
  gentech : techset;
  stortech : techset;
  retiretech : techset
}.

(** *** The validating setters *)

(** [any(x < 0 for x in data)] and [any(x > 1 for x in data)] *)
Definition any_negative (data : list num) : bool :=
  existsb (fun x => num_ltb x (PyInt 0)) data.

Definition any_above_one (data : list num) : bool :=
  existsb (fun x => num_ltb (PyInt 1) x) data.

Definition same_length {A B} (data : list A) (years : list B) : bool :=
  Nat.eqb (length data) (length years).

(** [Years.setter] *)
Definition set_Years (y : list Z) : result (list Z) :=
  match y with
  | [] => Raise (ValueError "max() arg is an empty sequence")
  | x :: l =>
      if Z.ltb 2050 (max_list x l)
      then Raise (ValueError "openCEM-Years: Last full year of data is fy2050")
      else if Z.ltb (min_list x l) 2018
      then Raise (Exception "openCEM-Years: No historical data available")
      else Ok (sorted y)
  end.

(** [cost_emit.setter] *)
Definition set_cost_emit (years : list Z) (data : option (list num))
  : result (option (list num)) :=
  match data with
  | Some d =>
      if negb (same_length d years)
      then Raise (ValueError "openCEM-cost_emit: List length does not match Years list")
      else if any_negative d
      then Raise (ValueError "openCEM-cost_emit: Value must be greater than 0")
      else Ok data
  | None => Ok data
  end.

(** [nem_ret_ratio.setter] *)
Definition set_nem_ret_ratio (years : list Z) (data : option (list num))
  : result (option (list num)) :=
  match data with
  | Some d =>
      if negb (same_length d years)
      then Raise (ValueError "openCEM-nem_ret_ratio: List length does not match Years list")
      else if any_negative d || any_above_one d
      then Raise (ValueError "openCEM-nem_ret_ratio: List element(s) outside range [0,1]")
      else Ok data
  | None => Ok data
  end.

(** [nem_ret_gwh.setter] *)
Definition set_nem_ret_gwh (years : list Z) (data : option (list num))
  : result (option (list num)) :=
  match data with
  | Some d =>
      if negb (same_length d years)
      then Raise (ValueError "openCEM-nem_ret_gwh: List length does not match Years list")
      else if any_negative d
      then Raise (ValueError "openCEM-nem_ret_gwh: List element(s) outside range [0,1]")
      else Ok data
  | None => Ok data
  end.

(** The loop of [region_ret_ratio.setter] over the regions of the dict. *)
Fixpoint check_regions (years : list Z) (data : list (Z * list num))
  : result unit :=
  match data with
  | [] => Ok tt
  | (d, series) :: rest =>
      if negb (same_length series years)
      then Raise (ValueError ("openCEM-region_ret_ratio: List " +:+ str_int d
                              +:+ " length does not match Years list"))
      else if any_negative series || any_above_one series
      then Raise (ValueError ("openCEM-region_ret_ratio: Element(s) in list "
                              +:+ str_int d +:+ " outside range [0,1]"))
      else check_regions years rest
  end.

(** [region_ret_ratio.setter] *)
Definition set_region_ret_ratio (years : list Z)
  (data : option (list (Z * list num))) : result (option (list (Z * list num))) :=
  match data with
  | Some d => _ ← check_regions years d; Ok data
  | None => Ok data
  end.

(** [emitlimit.setter] *)
Definition set_emitlimit (years : list Z) (data : option (list num))
  : result (option (list num)) :=
  match data with
  | Some d =>
      if negb (same_length d years)
      then Raise (ValueError "openCEM-emitlimit: List %s length does not match Years list")
      else if any_negative d
      then Raise (ValueError "openCEM-emitlimit: Element(s) in list must be positive")
      else Ok data
  | None => Ok data
  end.

(** [nem_disp_ratio.setter] *)
Definition set_nem_disp_ratio (years : list Z) (data : option (list num))
  : result (option (list num)) :=
  match data with
  | Some d =>
      if negb (same_length d years)
      then Raise (ValueError "openCEM-nem_disp_ratio: List %s length does not match Years list")
      else if any_negative d || any_above_one d
      then Raise (ValueError "openCEM-nem_disp_ratio: Element(s) in list must be between 0 and 1")
      else Ok data
  | None => Ok data
  end.

(** [nem_re_disp_ratio.setter] *)
Definition set_nem_re_disp_ratio (years : list Z) (data : option (list num))
  : result (option (list num)) :=
  match data with
  | Some d =>
      if negb (same_length d years)
      then Raise (ValueError "openCEM-nem_re_disp_ratio: List %s length does not match Years list")
      else if any_negative d || any_above_one d
      then Raise (ValueError "openCEM-nem_re_disp_ratio: Element(s) in list must be between 0 and 1")
      else Ok data
  | None => Ok data
  end.

(** [os.path.isfile(a)] *)
Definition isfile (files : fs) (a : string) : bool :=
  match files !! a with Some _ => true | None => false end.

(** [Template.setter] *)
Definition set_Template (files : fs) (a : string) : result string :=
  if negb (isfile files a)
  then Raise (OSError "openCEM-Template: File not found")
  else Ok a.

(** [custom_costs.setter] *)
Definition set_custom_costs (files : fs) (a : option string)
  : result (option string) :=
  match a with
  | Some p =>
      if negb (isfile files p)
      then Raise (OSError "openCEM-custom_costs: File not found")
      else Ok a
  | None => Ok a
  end.

(** [exogenous_capacity.setter] *)
Definition set_exogenous_capacity (files : fs) (a : option string)
  : result (option string) :=
  match a with
  | Some p =>
      if negb (isfile files p)
      then Raise (OSError "openCEM-exogenous_capacity: File not found")
      else Ok a
  | None => Ok a
  end.

(** [config[section][key]] for a key the constructor reads unguarded. *)
Definition required {A} (key : string) (o : option A) : result A :=
  match o with Some v => Ok v | None => Raise (KeyError key) end.

(** [True if x is not None else False] *)
Definition is_not_none {A} (o : option A) : bool :=
  match o with Some _ => true | None => false end.

(** One comprehension of [tracetechs]: per zone, the technologies of the
    zone that are in the category. *)
Definition trace (category : list Z) (per_zone : techset) : techset :=
  (fun zl => (zl.1, filter (fun j => j ∈ category) zl.2)) <$> per_zone.

Section Construction.
Context `{L : Libs}.

(** [discountrate.setter]: [float(data) < 0 or float(data) > 1] *)
Definition set_discountrate (data : string) : result string :=
  match float_of_string data with
  | None => Raise (ValueError "could not convert string to float")
  | Some x =>
      if num_ltb (PyFloat x) (PyInt 0) || num_ltb (PyInt 1) (PyFloat x)
      then Raise (ValueError "openCEM-discountrate: Value must be between 0 and 1")
      else Ok data
  end.

(** The text a file holds, as a library that opens the path itself gets
    it. *)
Definition file_text (files : fs) (path : string) : result string :=
  match files !! path with
  | Some (FText s) => Ok s
  | Some (FJson j) => Ok (json_dumps j)
  | None => Raise (FileNotFoundError path)
  end.

(** [open(path)] and [open(path, 'rt')], read: the text of the file with
    its line ends read as line feeds.  (Writing in text mode stores the
    text as it is, as on a POSIX system.) *)
Definition read_text (files : fs) (path : string) : result string :=
  text ← file_text files path;
  Ok (universal_newlines text).

(** [SolveTemplate.__init__(cfgfile, solver, log, tmpdir)] *)
Definition init (files : fs) (cfgfile_ solver_ : string) (log_ : bool)
  (tmpdir_ : string) : result SolveTemplate :=
  text ← match files !! cfgfile_ with
         | Some _ => read_text files cfgfile_
         | None => Raise (FileNotFoundError "openCEM Scenario config file not found")
         end;
  config ← parse_config text;
  name ← required "Name" (f_Name config);
  y ← required "Years" (f_Years config);
  years ← set_Years y;
  ret_ratio ← set_nem_ret_ratio years (f_nem_ret_ratio config);
  ret_gwh ← set_nem_ret_gwh years (f_nem_ret_gwh config);
  region_ret ← set_region_ret_ratio years (zdict <$> f_region_ret_ratio config);
  limit ← set_emitlimit years (f_emitlimit config);
  disp_ratio ← set_nem_disp_ratio years (f_nem_disp_ratio config);
  re_disp_ratio ← set_nem_re_disp_ratio years (f_nem_re_disp_ratio config);
  let opts := {|
    opt_nem_ret_ratio := is_not_none ret_ratio;
    opt_nem_ret_gwh := is_not_none ret_gwh;
    opt_region_ret_ratio := is_not_none region_ret;
    opt_emitlimit := is_not_none limit;
    opt_nem_disp_ratio := is_not_none disp_ratio;
    opt_nem_re_disp_ratio := is_not_none re_disp_ratio |} in
  rate ← required "discountrate" (f_discountrate config);
  rate ← set_discountrate rate;
  emit ← set_cost_emit years (f_cost_emit config);
  template ← required "Template" (f_Template config);
  template ← set_Template files template;
  costs ← set_custom_costs files (f_custom_costs config);
  exo ← set_exogenous_capacity files (f_exogenous_capacity config);
  sets ← required "cluster_sets" (f_cluster_sets config);
  per_zone ← required "all_tech_per_zone" (f_all_tech_per_zone config);
  let per_zone := zdict per_zone in
  Ok {|
    cfgfile := cfgfile_;
    Name := name;
    Years := years;
    nem_ret_ratio := ret_ratio;
    nem_ret_gwh := ret_gwh;
    region_ret_ratio := region_ret;
    emitlimit := limit;
    nem_disp_ratio := disp_ratio;
    nem_re_disp_ratio := re_disp_ratio;
    options := opts;
    discountrate := rate;
    cost_emit := emit;
    description := f_Description config;
    Template := template;
    custom_costs := costs;
    exogenous_capacity := exo;
    cluster := f_cluster config;
    cluster_max_d := sets;
    regions := default (REGION const) (f_regions config);
    zones := default (ZONE const) (f_zones config);
    all_tech := default (TECH_TYPE const) (f_all_tech config);
    all_tech_per_zone := per_zone;
    tmpdir := tmpdir_;
    solver := solver_;
    log := log_;
    fueltech := trace (FUEL_TECH const) per_zone;
    committech := trace (COMMIT_TECH const) per_zone;
    regentech := trace (RE_GEN_TECH const) per_zone;
    dispgentech := trace (DISP_GEN_TECH const) per_zone;
    redispgentech := trace (RE_DISP_GEN_TECH const) per_zone;
    hybtech := trace (HYB_TECH const) per_zone;
    gentech := trace (GEN_TECH const) per_zone;
    stortech := trace (STOR_TECH const) per_zone;
    retiretech := trace (RETIRE_TECH const) per_zone
  |}.

End Construction.

(** *** Template generation *)

(** [str(datetime.datetime(year, ...))]: the year on four digits, then the
    rest of the timestamp; the constructor refuses years outside 1..9999. *)
Definition zfill4 (s : string) : string :=
  String.substring 0 (4 - String.length s) "0000" +:+ s.

Definition str_datetime (year : Z) (rest : string) : result string :=
  if Z.leb 1 year && Z.leb year 9999
  then Ok (zfill4 (str_int year) +:+ rest)
  else Raise (ValueError "year is out of range").

(** [self.Years.index(year)] *)
Definition year_index (c : SolveTemplate) (year : Z) : result nat :=
  match index year (Years c) with
  | Some i => Ok i
  | None => Raise (ValueError "is not in list")
  end.

(** [self.Years[self.Years.index(year) - 1]] *)
Definition year_before (c : SolveTemplate) (i : nat) : result Z :=
  match item_before (Years c) i with
  | Some y => Ok y
  | None => Raise IndexError
  end.

(** [data[i]] *)
Definition subscript {A} (data : list A) (i : nat) : result A :=
  match data !! i with
  | Some x => Ok x
  | None => Raise IndexError
  end.

(** One of the three database queries of the first year's clause. *)
Definition initial_capacity_query (column techs : string) : string :=
  "load " +:+ dq +:+ "opencem.ckvu5hxg6w5z.ap-southeast-1.rds.amazonaws.com"
  +:+ dq +:+ " database=opencem_input
user=select password=select_password using=pymysql
query=" +:+ dq
  +:+ "select ntndp_zone_id as zones, technology_type_id as all_tech, sum(reg_cap) as "
  +:+ column +:+ "
from capacity
where (ntndp_zone_id,technology_type_id) in
" +:+ techs +:+ "
and commissioning_year is NULL
group by zones,all_tech;" +:+ dq +:+ " : [zones,all_tech] " +:+ column +:+ ";
".

(** The path of the carry-forward artifact of a year. *)
Definition gen_cap_op_path (c : SolveTemplate) (y : Z) : string :=
  tmpdir c +:+ "gen_cap_op" +:+ str_int y +:+ ".json".

(** [carryforwardcap(year)] *)
Definition carryforwardcap (c : SolveTemplate) (year : Z) : result string :=
  i ← year_index c year;
  match i with
  | S _ =>
      prevyear ← year_before c i;
      Ok ("load '" +:+ gen_cap_op_path c prevyear
          +:+ "' : [zones,all_tech] gen_cap_initial stor_cap_initial hyb_cap_initial;")
  | O =>
      Ok ("#operating capacity for all technilogies and regions
" +:+ initial_capacity_query "gen_cap_initial" (sqllist (gentech c)) +:+ "
# operating capacity for all technilogies and regions
" +:+ initial_capacity_query "stor_cap_initial" (sqllist (stortech c)) +:+ "
# operating capacity for all technilogies and regions
" +:+ initial_capacity_query "hyb_cap_initial" (sqllist (hybtech c)))
  end.

(** [carry_forward_cap_costs(year)] *)
Definition carry_forward_cap_costs (c : SolveTemplate) (year : Z)
  : result string :=
  i ← year_index c year;
  match i with
  | S _ =>
      prevyear ← year_before c i;
      Ok ("#Carry forward annualised capital costs
" +:+ "load '" +:+ gen_cap_op_path c prevyear +:+ "' : cost_cap_carry_forward;
")
  | O => Ok EmptyString
  end.

Inductive row_shape : Type := zonetech | tech.

Definition cost_keywords : list (string * row_shape) :=
  [("cost_gen_build", zonetech); ("cost_hyb_build", zonetech);
   ("cost_stor_build", zonetech); ("cost_fuel", zonetech);
   ("cost_gen_fom", tech); ("cost_gen_vom", tech);
   ("cost_hyb_fom", tech); ("cost_hyb_vom", tech);
   ("cost_stor_fom", tech); ("cost_stor_vom", tech)].

Definition exo_keywords : list string :=
  ["gen_cap_exo"; "stor_cap_exo"; "hyb_cap_exo"; "ret_gen_cap_exo"].

(** The rows of the cost table kept for a keyword and a year column, each
    with its value in that column; [dropna] discards the rows whose value
    there is missing or not-a-number. *)
Definition select_costs (c : SolveTemplate) (key year : string)
  (costs : cost_table) : list (cost_row * num) :=
  if bool_decide (year ∈ ct_columns costs)
  then
    omap (fun r =>
            if String.eqb (cr_name r) key
               && bool_decide (cr_tech r ∈ all_tech c)
               && bool_decide (cr_zone r ∈ zones c)
            then
              match dict_get year (cr_cells r) with
              | Some v => if is_nan v then None else Some (r, v)
              | None => None
              end
            else None)
      (ct_rows costs)
  else [].

(** The rows of the capacity table kept for a keyword. *)
Definition select_capacity (c : SolveTemplate) (prevyear year : Z)
  (key : string) (capacity : list exo_row) : list exo_row :=
  filter (fun r =>
            Z.ltb prevyear (er_year r) && Z.leb (er_year r) year
            && String.eqb (er_name r) key
            && bool_decide (er_tech r ∈ all_tech c)
            && bool_decide (er_zone r ∈ zones c) = true)
    capacity.

Section Templates.
Context `{L : Libs}.

(** [str(x)] on a number. *)
Definition str_num (n : num) : string :=
  match n with PyInt z => str_int z | PyFloat q => str_float q end.

Definition cost_block (c : SolveTemplate) (year : string) (costs : cost_table)
  (kw : string * row_shape) : string :=
  match select_costs c kw.1 year costs with
  | [] => EmptyString
  | cost =>
      "#Custom cost entry for " +:+ kw.1 +:+ nl
      +:+ "param " +:+ kw.1 +:+ ":=" +:+ nl
      +:+ match kw.2 with
          | tech => to_string_tech ((fun rv => (cr_tech rv.1, rv.2)) <$> cost)
          | zonetech =>
              to_string_zonetech
                ((fun rv => (cr_zone rv.1, cr_tech rv.1, rv.2)) <$> cost)
          end
      +:+ nl +:+ ";" +:+ nl
  end.

(** [produce_custom_costs(y)] *)
Definition produce_custom_costs (c : SolveTemplate) (y : Z) (files : fs)
  : result string :=
  let year := str_int y in
  match custom_costs c with
  | Some path =>
      text ← file_text files path;
      costs ← read_csv_costs text;
      Ok (fold_left (fun out kw => out +:+ cost_block c year costs kw)
            cost_keywords nl)
  | None => Ok nl
  end.

Definition capacity_block (c : SolveTemplate) (prevyear year : Z)
  (capacity : list exo_row) (key : string) : string :=
  match select_capacity c prevyear year key capacity with
  | [] => EmptyString
  | cap =>
      "#Exogenous capacity entry " +:+ key +:+ nl
      +:+ "param " +:+ key +:+ ":=" +:+ nl
      +:+ to_string_capacity
            ((fun r => (er_zone r, er_tech r, er_value r)) <$> cap)
      +:+ nl +:+ ";" +:+ nl
  end.

(** [produce_exogenous_capacity(year)] *)
Definition produce_exogenous_capacity (c : SolveTemplate) (year : Z)
  (files : fs) : result string :=
  match exogenous_capacity c with
  | Some path =>
      text ← file_text files path;
      capacity ← read_csv_capacity text;
      i ← year_index c year;
      prevyear ← year_before c i;
      Ok (fold_left
            (fun out key => out +:+ capacity_block c prevyear year capacity key)
            exo_keywords nl)
  | None => Ok nl
  end.

(** A policy parameter of [generateyeartemplate]: nothing when the series
    is absent or empty, else the text before the value, the value at the
    index of the year, and the end of the statement. *)
Definition policy_clause (c : SolveTemplate) (year : Z)
  (series : option (list num)) (before : string) : result string :=
  match series with
  | Some ((_ :: _) as data) =>
      i ← year_index c year;
      x ← subscript data i;
      Ok (before +:+ str_num x +:+ ";" +:+ nl)
  | _ => Ok EmptyString
  end.

(** The generator expression of the regional clause. *)
Fixpoint region_items (c : SolveTemplate) (year : Z)
  (data : list (Z * list num)) : result (list string) :=
  match data with
  | [] => Ok []
  | (i, series) :: rest =>
      k ← year_index c year;
      x ← subscript series k;
      items ← region_items c year rest;
      Ok ((str_int i +:+ " " +:+ str_num x) :: items)
  end.

Definition region_clause (c : SolveTemplate) (year : Z) : result string :=
  match region_ret_ratio c with
  | Some ((_ :: _) as data) =>
      items ← region_items c year data;
      Ok (nl +:+ " #Regional based RET" +:+ nl
          +:+ "param region_ret_ratio := " +:+ join " " items +:+ ";" +:+ nl)
  | _ => Ok EmptyString
  end.

Definition words (l : list Z) : string := join " " (str_int <$> l).

Definition listed (category : list Z) (c : SolveTemplate) : string :=
  join ", " (str_int <$> filter (fun i => i ∈ all_tech c) category).

(** The placeholder tokens and their values, in the order the source
    replaces them. *)
Definition substitutions (c : SolveTemplate) (year prevyear : Z)
  (opcap0 drange : string) : list (string * string) :=
  [("[regions]", words (regions c));
   ("[zones]", words (zones c));
   ("[alltech]", words (all_tech c));
   ("XXXX", str_int year);
   ("WWWW", str_int prevyear);
   ("[gentech]", dclist (gentech c));
   ("[gentechdb]", sqllist (gentech c));
   ("[gentechlist]", listed (GEN_TECH const) c);
   ("[stortech]", dclist (stortech c));
   ("[stortechdb]", sqllist (stortech c));
   ("[stortechlist]", listed (STOR_TECH const) c);
   ("[hybtech]", dclist (hybtech c));
   ("[hybtechdb]", sqllist (hybtech c));
   ("[hybtechlist]", listed (HYB_TECH const) c);
   ("[retiretech]", dclist (retiretech c));
   ("[retiretechdb]", sqllist (retiretech c));
   ("[retiretechset]", words (RETIRE_TECH const));
   ("[fueltech]", dclist (fueltech c));
   ("[fueltechdb]", sqllist (fueltech c));
   ("[fueltechset]", words (FUEL_TECH const));
   ("[committech]", dclist (committech c));
   ("[regentech]", dclist (regentech c));
   ("[dispgentech]", dclist (dispgentech c));
   ("[redispgentech]", dclist (redispgentech c));
   ("[stortechset]", words (STOR_TECH const));
   ("[hybtechset]", words (HYB_TECH const));
   ("[nobuildset]", words (NOBUILD_TECH const));
   ("[carryforwardcap]", opcap0);
   ("[timerange]", drange)].

Definition substitute (subst : list (string * string)) (line : string)
  : string :=
  fold_left (fun line tv => replace tv.1 tv.2 line) subst line.

(** The texts [generateyeartemplate] puts before the value of each
    parameter. *)
Definition fcr_text (c : SolveTemplate) : string :=
  nl +:+ "#Discount rate for project" +:+ nl
  +:+ "param all_tech_discount_rate := " +:+ discountrate c +:+ ";" +:+ nl.
Definition cost_emit_text : string :=
  "#Cost of emissions $/Mhw" +:+ nl +:+ "param cost_emit:= ".
Definition nem_ret_ratio_text : string :=
  nl +:+ " # NEM wide RET" +:+ nl +:+ "param nem_ret_ratio :=".
Definition nem_ret_gwh_text : string :=
  nl +:+ " # NEM wide RET" +:+ nl +:+ "param nem_ret_gwh :=".
Definition emitlimit_text : string :=
  nl +:+ " #NEM wide emission limit (in GT)" +:+ nl
  +:+ "param nem_year_emit_limit := ".
Definition nem_disp_ratio_text : string :=
  nl +:+ " #NEM wide minimum generation ratio from dispatchable tech" +:+ nl
  +:+ "param nem_disp_ratio := ".
Definition nem_re_disp_ratio_text : string :=
  nl +:+ " #NEM wide minimum generation ratio from dispatchable tech" +:+ nl
  +:+ "param nem_re_disp_ratio := ".

(** The name of the file [generateyeartemplate] writes. *)
Definition dcfName (c : SolveTemplate) (year : Z) : string :=
  tmpdir c +:+ "Sim" +:+ str_int year +:+ ".dat".

(** The text [generateyeartemplate(year, test)] writes. *)
Definition year_template_text (c : SolveTemplate) (year : Z) (test : bool)
  (files : fs) : result string :=
  date1 ← str_datetime (year - 1) "-07-01 00:00:00";
  let strd1 := "'" +:+ date1 +:+ "'" in
  date2 ← str_datetime year "-06-30 23:00:00";
  date2 ← (if test then str_datetime (year - 1) "-07-03 23:00:00" else Ok date2);
  let strd2 := "'" +:+ date2 +:+ "'" in
  let drange := "BETWEEN " +:+ strd1 +:+ " AND " +:+ strd2 in
  let fcr := fcr_text c in
  opcap0 ← carryforwardcap c year;
  carry_fwd_cap ← carry_forward_cap_costs c year;
  custom ← produce_custom_costs c year files;
  exogenous ← produce_exogenous_capacity c year files;
  cemit ← policy_clause c year (cost_emit c) cost_emit_text;
  ret_ratio ← policy_clause c year (nem_ret_ratio c) nem_ret_ratio_text;
  ret_gwh ← policy_clause c year (nem_ret_gwh c) nem_ret_gwh_text;
  region ← region_clause c year;
  limit ← policy_clause c year (emitlimit c) emitlimit_text;
  disp ← policy_clause c year (nem_disp_ratio c) nem_disp_ratio_text;
  re_disp ← policy_clause c year (nem_re_disp_ratio c) nem_re_disp_ratio_text;
  i ← year_index c year;
  prevyear ← match i with O => Ok 2017 | S _ => year_before c i end;
  fin ← read_text files (Template c);
  let body :=
    String.concat EmptyString
      (substitute (substitutions c year prevyear opcap0 drange)
         <$> readlines fin) in
  Ok (body +:+ custom +:+ exogenous +:+ fcr +:+ cemit +:+ carry_fwd_cap
      +:+ ret_ratio +:+ ret_gwh +:+ region +:+ limit +:+ disp +:+ re_disp).

(** [generateyeartemplate(year, test)]: writes the file, returns its name. *)
Definition generateyeartemplate (c : SolveTemplate) (year : Z) (test : bool)
  (files : fs) : result (string * fs) :=
  text ← year_template_text c year test files;
  Ok (dcfName c year, <[dcfName c year := FText text]> files).

End Templates.

(** ** cemo/jsonify.py *)

(** A component of a model instance is named after the attribute that holds
    it, so [inst.regions.name] is ["regions"]. *)
Definition simple_sets : list string :=
  ["regions"; "zones"; "all_tech"; "fuel_gen_tech"; "retire_gen_tech";
   "nobuild_gen_tech"; "hyb_tech"; "stor_tech"; "t"; "zones_in_regions";
   "gen_tech_in_zones"; "fuel_gen_tech_in_zones"; "retire_gen_tech_in_zones";
   "hyb_tech_in_zones"; "stor_tech_in_zones"; "region_intercons"].

Definition complex_sets : list string :=
  ["zones_per_region"; "gen_tech_per_zone"; "fuel_gen_tech_per_zone";
   "retire_gen_tech_per_zone"; "hyb_tech_per_zone"; "stor_tech_per_zone";
   "intercon_per_region"].

Definition complex_params : list string :=
  ["cost_gen_build"; "cost_stor_build"; "cost_hyb_build"; "cost_fuel";
   "fuel_heat_rate"; "intercon_prop_factor"; "gen_cap_factor";
   "hyb_cap_factor"; "gen_build_limit"; "gen_cap_initial";
   "stor_cap_initial"; "hyb_cap_initial"; "gen_cap_exo"; "stor_cap_exo";
   "hyb_cap_exo"; "ret_gen_cap_exo"; "region_net_demand";
   "intercon_trans_limit"].

Definition scalar_key_params : list string :=
  ["cost_gen_fom"; "cost_gen_vom"; "cost_stor_fom"; "cost_stor_vom";
   "cost_hyb_fom"; "cost_hyb_vom"; "all_tech_lifetime"; "fixed_charge_rate";
   "cost_retire"; "stor_rt_eff"; "stor_charge_hours"; "hyb_col_mult";
   "hyb_charge_hours"; "fuel_emit_rate"; "cost_cap_carry_forward"].

Definition scalar_params : list string :=
  ["cost_unserved"; "cost_emit"; "cost_trans"; "all_tech_discount_rate";
   "year_correction_factor"].

Definition variables : list string :=
  ["gen_cap_new"; "gen_cap_op"; "stor_cap_new"; "stor_cap_op"; "hyb_cap_new";
   "hyb_cap_op"; "gen_cap_ret"; "gen_cap_ret_neg"; "gen_cap_exo_neg";
   "gen_disp"; "stor_disp"; "stor_charge"; "hyb_disp"; "hyb_charge";
   "stor_level"; "hyb_level"; "unserved"; "surplus"; "intercon_disp"].

(** A dict display [{k1: v1, ...}]: later keys overwrite earlier ones. *)
Definition dict_of {V} (items : list (string * V)) : list (string * V) :=
  dict_update [] items.

Definition index_value (kv : json * json) : json :=
  JObj [("index", kv.1); ("value", kv.2)].

Section Jsonify.
Context `{L : Libs}.

Definition fill_complex_set (inst : instance) (name : string) : json :=
  JObj (dict_of ((fun kv => (str_index kv.1, JArr kv.2))
                   <$> indexed_set inst name)).

Definition fill_complex_param (inst : instance) (name : string) : json :=
  JArr (index_value <$> param_items inst name).

Definition fill_scalar_key_param (inst : instance) (name : string) : json :=
  JObj (dict_of ((fun kv => (str_index kv.1, kv.2)) <$> param_items inst name)).

Definition fill_complex_var (inst : instance) (name : string) : json :=
  JArr (index_value <$> var_items inst name).

Definition fill_dual_suffix (inst : instance) (name : string) : json :=
  JArr (index_value <$> dual_items inst name).

(** The conditional extensions of [out['params']], in source order. *)
Definition optional_params (inst : instance) : list (string * json) :=
  (if has_component inst "nem_year_emit_limit"
   then [("nem_year_emit_limit", param_value inst "nem_year_emit_limit")]
   else [])
  ++ (if has_component inst "nem_ret_ratio"
      then [("nem_ret_ratio", param_value inst "nem_ret_ratio")] else [])
  ++ (if has_component inst "nem_ret_gwh"
      then [("nem_ret_gwh", param_value inst "nem_ret_gwh")] else [])
  ++ (if has_component inst "region_ret_ratio"
      then [("region_ret_ratio", fill_scalar_key_param inst "region_ret_ratio")]
      else [])
  ++ (if has_component inst "nem_disp_ratio"
      then [("nem_disp_ratio", param_value inst "nem_disp_ratio")] else [])
  ++ (if has_component inst "nem_re_disp_ratio"
      then [("nem_re_disp_ratio", param_value inst "nem_re_disp_ratio")]
      else []).

(** [jsonify(inst)] *)
Definition jsonify (inst : instance) : list (string * json) :=
  let sets :=
    dict_of (((fun n => (n, JArr (set_members inst n))) <$> simple_sets)
             ++ ((fun n => (n, fill_complex_set inst n)) <$> complex_sets)) in
  let params :=
    dict_of (((fun n => (n, fill_complex_param inst n)) <$> complex_params)
             ++ ((fun n => (n, fill_scalar_key_param inst n))
                   <$> scalar_key_params)
             ++ ((fun n => (n, param_value inst n)) <$> scalar_params)) in
  let vars := dict_of ((fun n => (n, fill_complex_var inst n)) <$> variables) in
  let out :=
    dict_of [("sets", JObj sets);
             ("params", JObj params);
             ("vars", JObj vars);
             ("duals", JObj (dict_of [("srmc", fill_dual_suffix inst "ldbal")]));
             ("objective_value", objective_less_shadow inst)] in
  dict_set "params" (JObj (dict_update params (optional_params inst))) out.

(** [json_carry_forward_cap(inst)] *)
Definition json_carry_forward_cap (inst : instance) : list (string * json) :=
  dict_of
    [("gen_cap_initial", fill_complex_var inst "gen_cap_op");
     ("stor_cap_initial", fill_complex_var inst "stor_cap_op");
     ("hyb_cap_initial", fill_complex_var inst "hyb_cap_op");
     ("cost_cap_carry_forward",
      JArr ((fun z => JObj [("index", JNum (PyInt z));
                            ("value", cost_capital inst z)])
              <$> inst_zones inst))].

End Jsonify.

(** ** cemo/multi.py: the clustered capacities and the simulation *)

(** [for x in l: st = body(st, x)], stopping at the first exception. *)
Fixpoint for_each {A S} (body : S -> A -> result S) (l : list A) (st : S)
  : result S :=
  match l with
  | [] => Ok st
  | x :: l' => st' ← body st x; for_each body l' st'
  end.

(** [s.split(".")[0]] *)
Fixpoint before_dot (s : string) : string :=
  match s with
  | EmptyString => EmptyString
  | String c s' =>
      if Ascii.eqb c "."%char then EmptyString else String c (before_dot s')
  end.

Section Simulation.
Context `{L : Libs}.

(** One assignment of [setinstancecapacity]:
    [instance.var[z, n] = roundup(data[var + '[z,n]']['solution'])]. *)
Definition assign_capacity (data : list (string * num)) (var : string) (z : Z)
  (inst : instance) (n : Z) : result instance :=
  let key := str_int z +:+ "," +:+ str_int n in
  solution ← required (var +:+ "[" +:+ key +:+ "]")
             (dict_get (var +:+ "[" +:+ key +:+ "]") data);
  cap ← roundup solution;
  set_var inst var (z, n) cap.

(** [setinstancecapacity(instance, clustercap)] *)
Definition setinstancecapacity (inst : instance) (data : list (string * num))
  : result instance :=
  inst ← for_each
    (fun inst z =>
       inst ← for_each (assign_capacity data "gen_cap_new" z)
                (tech_per_zone inst "gen_tech_per_zone" z) inst;
       inst ← for_each (assign_capacity data "stor_cap_new" z)
                (tech_per_zone inst "stor_tech_per_zone" z) inst;
       inst ← for_each (assign_capacity data "hyb_cap_new" z)
                (tech_per_zone inst "hyb_tech_per_zone" z) inst;
       for_each (assign_capacity data "gen_cap_ret" z)
         (tech_per_zone inst "retire_gen_tech_per_zone" z) inst)
    (inst_zones inst) inst;
  Ok (fix_var (fix_var (fix_var (fix_var inst "gen_cap_new") "stor_cap_new")
                 "hyb_cap_new") "gen_cap_ret").

(** The path of the full result of a year. *)
Definition year_json_path (c : SolveTemplate) (y : Z) : string :=
  tmpdir c +:+ str_int y +:+ ".json".

(** The path of the final report. *)
Definition report_path (c : SolveTemplate) : string :=
  before_dot (cfgfile c) +:+ ".json".

(** [if self.cluster:] *)
Definition truthy (b : option bool) : bool := default false b.

(** The body of the loop of [solve] for the year [y]. *)
Definition solve_year (c : SolveTemplate) (files : fs) (y : Z) : result fs :=
  generated ← generateyeartemplate c y false files;
  let year_template := generated.1 in
  let files := generated.2 in
  inst ← create_instance y (options c) year_template files;
  inst ← (if truthy (cluster c)
          then
            ccap ← run_cluster inst (cluster_max_d c) year_template
                     (options c) (solver c) (log c) files;
            setinstancecapacity inst ccap
          else Ok inst);
  inst ← opt_solve (solver c) (log c) inst;
  let opcap := json_carry_forward_cap inst in
  final ← match last (Years c) with
          | Some z => Ok z
          | None => Raise IndexError
          end;
  let files :=
    if negb (Z.eqb y final)
    then <[gen_cap_op_path c y := FJson (JObj opcap)]> files
    else files in
  let out := jsonify inst in
  Ok (<[year_json_path c y := FJson (JObj out)]> files).

Definition json_of_series (data : option (list num)) : json :=
  match data with
  | Some d => JArr (JNum <$> d)
  | None => JNull
  end.

Definition json_of_text (s : option string) : json :=
  match s with Some t => JStr t | None => JNull end.

(** [pd.read_csv(path).to_dict(orient='records') if path is not None else
    None] *)
Definition table_records (files : fs) (path : option string) : result json :=
  match path with
  | Some p => text ← file_text files p; csv_records text
  | None => Ok JNull
  end.

(** [generate_metadata()] *)
Definition generate_metadata (c : SolveTemplate) (files : fs)
  : result (list (string * json)) :=
  costs ← table_records files (custom_costs c);
  capacity ← table_records files (exogenous_capacity c);
  let meta :=
    dict_of
      [("Name", JStr (Name c));
       ("Years", JArr ((fun y => JNum (PyInt y)) <$> Years c));
       ("Template", JStr (Template c));
       ("Clustering",
        match cluster c with Some b => JBool b | None => JNull end);
       ("Cluster_number",
        if truthy (cluster c) then JNum (PyInt (cluster_max_d c))
        else JStr "N/A");
       ("Solver", JStr (solver c));
       ("Discount_rate", JStr (discountrate c));
       ("Emission_cost", json_of_series (cost_emit c));
       ("Description", json_of_text (description c));
       ("NEM wide RET as ratio", json_of_series (nem_ret_ratio c));
       ("NEM wide RET as GWh", json_of_series (nem_ret_gwh c));
       ("Regional based RET",
        match region_ret_ratio c with
        | Some d =>
            JObj (dict_of ((fun kv => (str_int kv.1, JArr (JNum <$> kv.2)))
                             <$> d))
        | None => JNull
        end);
       ("System emission limit", json_of_series (emitlimit c));
       ("Dispatchable generation ratio ", json_of_series (nem_disp_ratio c));
       ("Renewable Dispatchable generation ratio ",
        json_of_series (nem_re_disp_ratio c));
       ("Custom costs", costs);
       ("Exogenous Capacity decisions", capacity)] in
  Ok (dict_of [("meta", JObj meta)]).

(** [json.load(f)] on the file at [path]. *)
Definition json_load (files : fs) (path : string) : result json :=
  match files !! path with
  | Some (FJson j) => Ok j
  | Some (FText s) => json_loads (universal_newlines s)
  | None => Raise (FileNotFoundError path)
  end.

(** The report [mergejsonyears] assembles. *)
Definition merged_report (c : SolveTemplate) (files : fs)
  : result (list (string * json)) :=
  data ← generate_metadata c files;
  for_each
    (fun data y =>
       yeardata ← json_load files (year_json_path c y);
       Ok (dict_update data [(str_int y, yeardata)]))
    (Years c) data.

(** [mergejsonyears()] *)
Definition mergejsonyears (c : SolveTemplate) (files : fs) : result fs :=
  data ← merged_report c files;
  Ok (<[report_path c := FJson (JObj data)]> files).

(** [solve()] *)
Definition solve (c : SolveTemplate) (files : fs) : result fs :=
  files ← for_each (solve_year c) (Years c) files;
  mergejsonyears c files.

End Simulation.

(** ** cemo/jsonify.py: the data that initialises a model *)

(** [del d[k]] *)
Fixpoint dict_del {V} (k : string) (d : list (string * V))
  : result (list (string * V)) :=
  match d with
  | [] => Raise (KeyError k)
  | (k', v) :: d' =>
      if String.eqb k' k then Ok d'
      else d'' ← dict_del k d'; Ok ((k', v) :: d'')
  end.

(** [{'index': i, 'value': v}] *)
Definition index_record (i : Z) (v : json) : json :=
  JObj [("index", JNum (PyInt i)); ("value", v)].

Section JsonInit.
Context `{L : Libs}.

(** [int(s)] on a string: the integer it denotes, if it denotes one. *)
Variable py_int : string -> option Z.

(** [simple_as_complex(dic)] *)
Definition simple_as_complex (dic : list (string * json)) : result json :=
  out ← for_each
          (fun out kv =>
             match py_int kv.1 with
             | Some i => Ok (out ++ [index_record i kv.2])%list
             | None =>
                 Raise (ValueError "invalid literal for int() with base 10")
             end)
          dic [];
  Ok (JArr out).

(** [out.update(input[key])]: [update] takes a dict. *)
Definition update_from (input : list (string * json)) (key : string)
  (out : list (string * json)) : result (list (string * json)) :=
  match dict_get key input with
  | Some (JObj d) => Ok (dict_update out d)
  | Some _ => Raise (External "dict.update")
  | None => Raise (KeyError key)
  end.

(** The loop of [jsoninit] over the keys of [out]. *)
Definition convert (out : list (string * json)) (o : string)
  : result (list (string * json)) :=
  match dict_get o out with
  | Some (JObj d) => v ← simple_as_complex d; Ok (dict_update out [(o, v)])
  | Some _ => Ok out
  | None => Raise (KeyError o)
  end.

(** [jsoninit(inst)] *)
Definition jsoninit (inst : instance) : result (list (string * json)) :=
  let input := jsonify inst in
  out ← update_from input "sets" [];
  out ← update_from input "params" out;
  out ← dict_del "zones_per_region" out;
  out ← dict_del "gen_tech_per_zone" out;
  out ← dict_del "fuel_gen_tech_per_zone" out;
  out ← dict_del "retire_gen_tech_per_zone" out;
  out ← dict_del "hyb_tech_per_zone" out;
  out ← dict_del "stor_tech_per_zone" out;
  out ← dict_del "intercon_per_region" out;
  for_each convert (dict_keys out) out.

(** What the loop of [jsoninit] makes of the value [a] of a key: a dict
    becomes the list of the index/value records of its items, in order,
    each index being the integer its key denotes; any other value is
    kept. *)
Definition converted (a b : option json) : Prop :=
  match a with
  | Some (JObj d) =>
      exists items,
        b = Some (JArr items) /\
        Forall2 (fun kv item =>
                   exists i, py_int kv.1 = Some i /\
                             item = index_record i kv.2) d items
  | _ => b = a
  end.

End JsonInit.

(** The entries of [jsoninit] before its dicts are converted. *)
Definition init_entries `{L : Libs} (inst : instance) : list (string * json) :=
  (((fun n => (n, JArr (set_members inst n))) <$> simple_sets)
   ++ ((fun n => (n, fill_complex_param inst n)) <$> complex_params)
   ++ ((fun n => (n, fill_scalar_key_param inst n)) <$> scalar_key_params)
   ++ ((fun n => (n, param_value inst n)) <$> scalar_params)
   ++ optional_params inst)%list.

(** ** The float literals of the examples, as the doubles they denote, and
    what a call returns *)

Definition lit_neg_5e_7 : Q :=
  (- (4722366482869645 # 9444732965739290427392))%Q.
Definition lit_1_2345 : Q := (5559693739988877 # 4503599627370496)%Q.
Definition lit_neg_1e_5 : Q :=
  (- (5902958103587057 # 590295810358705651712))%Q.
Definition lit_0_1 : Q := (3602879701896397 # 36028797018963968)%Q.
Definition lit_0_5 : Q := (1 # 2)%Q.

Definition lit_1_23 : Q := (2769713770832855 # 2251799813685248)%Q.

(** The call returns a number equal to [v], as [==] compares numbers: by
    value, so that [-0.0 == 0] and [0.0 == 0]. *)
Definition returns (r : result num) (v : Q) : Prop :=
  match r with
  | Ok x =>
      match num_val x with
      | Some (Real q) => (q == v)%Q
      | _ => False
      end
  | Raise _ => False
  end.

(** ** A concrete scenario: libraries, files and scenario files on which
    the definitions above evaluate *)
Module Demo.

Definition demo_const : Const := {|
  REGION := [1; 2];
  ZONE := [1; 2; 3];
  TECH_TYPE := [1; 2; 12; 14];
  FUEL_TECH := [1];
  COMMIT_TECH := [1];
  RE_GEN_TECH := [2];
  DISP_GEN_TECH := [1];
  RE_DISP_GEN_TECH := [];
  HYB_TECH := [12];
  GEN_TECH := [1; 2];
  STOR_TECH := [14];
  RETIRE_TECH := [1];
  NOBUILD_TECH := []
|}.

Definition two_years : scenario_file := {|
  f_Name := Some "two years";
  f_Years := Some [2022; 2020];
  f_nem_ret_ratio := None;
  f_nem_ret_gwh := None;
  f_region_ret_ratio := None;
  f_emitlimit := None;
  f_nem_disp_ratio := None;
  f_nem_re_disp_ratio := None;
  f_discountrate := Some "0.05";
  f_cost_emit := None;
  f_Description := None;
  f_Template := Some "template.dat";
  f_custom_costs := None;
  f_exogenous_capacity := Some "capacity.csv";
  f_cluster := Some false;
  f_cluster_sets := Some 6;
  f_regions := None;
  f_zones := None;
  f_all_tech := None;
  f_all_tech_per_zone := Some [(1, [1; 2]); (2, [14])]
|}.

Definition with_years (y : list Z) (ret_ratio : option (list num))
  : scenario_file := {|
  f_Name := f_Name two_years;
  f_Years := Some y;
  f_nem_ret_ratio := ret_ratio;
  f_nem_ret_gwh := None;
  f_region_ret_ratio := None;
  f_emitlimit := None;
  f_nem_disp_ratio := None;
  f_nem_re_disp_ratio := None;
  f_discountrate := f_discountrate two_years;
  f_cost_emit := None;
  f_Description := None;
  f_Template := f_Template two_years;
  f_custom_costs := None;
  f_exogenous_capacity := None;
  f_cluster := Some false;
  f_cluster_sets := Some 6;
  f_regions := None;
  f_zones := None;
  f_all_tech := None;
  f_all_tech_per_zone := f_all_tech_per_zone two_years
|}.

(** The scenario files, by their text. *)
Definition scenarios : list (string * scenario_file) :=
  [("two years", two_years);
   ("plain", with_years [2020; 2022] None);
   ("late", with_years [2020; 2051] None);
   ("no years", with_years [] None);
   ("short series", with_years [2030; 2040] (Some [PyFloat lit_0_1]));
   ("ret", with_years [2030; 2040] (Some [PyFloat lit_0_1; PyFloat lit_0_5]));
   ("nan", with_years [2030; 2040] (Some [PyFloat NaN; PyFloat lit_0_5]))].

Definition capacity_rows : list exo_row :=
  [{| er_name := "gen_cap_exo"; er_tech := 1; er_zone := 1; er_year := 2020;
      er_value := PyInt 100 |};
   {| er_name := "gen_cap_exo"; er_tech := 2; er_zone := 1; er_year := 2021;
      er_value := PyInt 50 |};
   {| er_name := "stor_cap_exo"; er_tech := 14; er_zone := 2; er_year := 2022;
      er_value := PyInt 10 |};
   {| er_name := "gen_cap_exo"; er_tech := 1; er_zone := 9; er_year := 2022;
      er_value := PyInt 7 |}].

Definition show_float (x : pyfloat) : string :=
  match x with
  | Finite q => str_int (Qnum q) +:+ "/" +:+ str_int (Zpos (Qden q))
  | NegZero => "-0.0"
  | Infinity true => "-inf"
  | Infinity false => "inf"
  | NaN => "nan"
  end.

Definition show_num (n : num) : string :=
  match n with
  | PyInt z => str_int z
  | PyFloat x => show_float x
  end.

Definition show_row (r : Z * Z * num) : string :=
  str_int r.1.1 +:+ " " +:+ str_int r.1.2 +:+ " " +:+ show_num r.2.

Definition libs : Libs := {|
  const := demo_const;
  float_of_string s :=
    if String.eqb s "0.05" then Some (Finite (1 # 20))
    else if String.eqb s "nan" then Some NaN
    else None;
  str_float := show_float;
  parse_config text :=
    match dict_get text scenarios with
    | Some config => Ok config
    | None => Raise (External "configparser")
    end;
  json_dumps _ := "{}";
  json_loads _ := Raise (External "json");
  read_csv_costs _ := Ok {| ct_columns := []; ct_rows := [] |};
  read_csv_capacity _ := Ok capacity_rows;
  csv_records _ := Ok (JArr []);
  to_string_tech l :=
    join nl ((fun r => str_int r.1 +:+ " " +:+ show_num r.2) <$> l);
  to_string_zonetech l := join nl (show_row <$> l);
  to_string_capacity l := join nl (show_row <$> l);
  instance := Z;
  create_instance y _ _ _ := Ok y;
  run_cluster _ _ _ _ _ _ _ := Ok [];
  opt_solve _ _ inst := Ok inst;
  inst_zones _ := [1; 2];
  tech_per_zone _ _ _ := [];
  set_var inst _ _ _ := Ok inst;
  fix_var inst _ := inst;
  has_component _ _ := false;
  set_members _ _ := [];
  indexed_set _ _ := [];
  param_items _ _ := [];
  param_value _ _ := JNull;
  var_items inst _ := [(JArr [JNum (PyInt 1); JNum (PyInt 1)], JNum (PyInt inst))];
  dual_items _ _ := [];
  str_index _ := "index";
  objective_less_shadow inst := JNum (PyInt inst);
  cost_capital _ _ := JNum (PyInt 0)
|}.

(** The files present before a run. *)
Definition files_with (cfg : string) : fs :=
  <["scenario.cfg" := FText cfg]>
    (<["template.dat" := FText "param year := XXXX;
[carryforwardcap]
"]>
       (<["capacity.csv" := FText "name,tech,zone,year,value"]> ∅)).

End Demo.

(** ** A model instance with a parameter keyed by technology *)
Module Keyed.

Definition libs : Libs := {|
  const := Demo.demo_const;
  float_of_string := @float_of_string Demo.libs;
  str_float := @str_float Demo.libs;
  parse_config := @parse_config Demo.libs;
  json_dumps := @json_dumps Demo.libs;
  json_loads := @json_loads Demo.libs;
  read_csv_costs := @read_csv_costs Demo.libs;
  read_csv_capacity := @read_csv_capacity Demo.libs;
  csv_records := @csv_records Demo.libs;
  to_string_tech := @to_string_tech Demo.libs;
  to_string_zonetech := @to_string_zonetech Demo.libs;
  to_string_capacity := @to_string_capacity Demo.libs;
  instance := Z;
  create_instance y _ _ _ := Ok y;
  run_cluster _ _ _ _ _ _ _ := Ok [];
  opt_solve _ _ inst := Ok inst;
  inst_zones _ := [1; 2];
  tech_per_zone _ _ _ := [];
  set_var inst _ _ _ := Ok inst;
  fix_var inst _ := inst;
  has_component _ n := String.eqb n "nem_ret_ratio";
  set_members _ _ := [];
  indexed_set _ n :=
    if String.eqb n "gen_tech_per_zone"
    then [(JNum (PyInt 1), [JNum (PyInt 1); JNum (PyInt 2)])] else [];
  param_items _ n :=
    if String.eqb n "cost_gen_fom"
    then [(JNum (PyInt 3), JNum (PyInt 7));
          (JNum (PyInt 14), JNum (PyInt 2))]
    else [];
  param_value _ _ := JNum (PyInt 0);
  var_items _ _ := [];
  dual_items _ _ := [];
  str_index j := match j with JNum (PyInt z) => str_int z | _ => "index" end;
  objective_less_shadow inst := JNum (PyInt inst);
  cost_capital _ _ := JNum (PyInt 0)
|}.

(** [int] on the index texts of the instance. *)
Definition py_int (s : string) : option Z :=
  if String.eqb s "3" then Some 3
  else if String.eqb s "14" then Some 14
  else None.

End Keyed.

(** ** A model instance that records the capacities assigned to it, and a
    clustering step that reports capacities *)
Module Clustered.

Definition scenario : scenario_file := {|
  f_Name := Some "clustered";
  f_Years := Some [2020; 2022];
  f_nem_ret_ratio := None;
  f_nem_ret_gwh := None;
  f_region_ret_ratio := None;
  f_emitlimit := None;
  f_nem_disp_ratio := None;
  f_nem_re_disp_ratio := None;
  f_discountrate := Some "0.05";
  f_cost_emit := None;
  f_Description := None;
  f_Template := Some "template.dat";
  f_custom_costs := None;
  f_exogenous_capacity := None;
  f_cluster := Some true;
  f_cluster_sets := Some 6;
  f_regions := None;
  f_zones := None;
  f_all_tech := None;
  f_all_tech_per_zone := Some [(1, [1; 2]); (2, [14])]
|}.

(** The capacities the clustering step reports. *)
Definition capacities : list (string * num) :=
  [("gen_cap_new[1,1]", PyFloat lit_1_2345);
   ("gen_cap_new[1,2]", PyFloat lit_neg_5e_7);
   ("stor_cap_new[2,14]", PyInt 3);
   ("gen_cap_ret[1,1]", PyFloat lit_neg_1e_5)].

(** The variable takes a number that is not negative and refuses any
    other. *)
Definition accepts (v : num) : bool :=
  match num_val v with
  | Some (Real q) => Qle_bool 0 q
  | _ => false
  end.

Definition libs : Libs := {|
  const := Demo.demo_const;
  float_of_string := @float_of_string Demo.libs;
  str_float := @str_float Demo.libs;
  parse_config text :=
    if String.eqb text "clustered" then Ok scenario
    else Raise (External "configparser");
  json_dumps := @json_dumps Demo.libs;
  json_loads := @json_loads Demo.libs;
  read_csv_costs := @read_csv_costs Demo.libs;
  read_csv_capacity := @read_csv_capacity Demo.libs;
  csv_records := @csv_records Demo.libs;
  to_string_tech := @to_string_tech Demo.libs;
  to_string_zonetech := @to_string_zonetech Demo.libs;
  to_string_capacity := @to_string_capacity Demo.libs;
  instance := list (string * (Z * Z) * num);
  create_instance _ _ _ _ := Ok [];
  run_cluster _ _ _ _ _ _ _ := Ok capacities;
  opt_solve _ _ inst := Ok inst;
  inst_zones _ := [1; 2];
  tech_per_zone _ set z :=
    if String.eqb set "gen_tech_per_zone" && Z.eqb z 1 then [1; 2]
    else if String.eqb set "stor_tech_per_zone" && Z.eqb z 2 then [14]
    else if String.eqb set "retire_gen_tech_per_zone" && Z.eqb z 1 then [1]
    else [];
  set_var inst var k v :=
    if accepts v then Ok (inst ++ [(var, k, v)])%list
    else Raise (ValueError "value outside the domain of the variable");
  fix_var inst _ := inst;
  has_component _ _ := false;
  set_members _ _ := [];
  indexed_set _ _ := [];
  param_items _ _ := [];
  param_value _ _ := JNull;
  var_items inst var :=
    (fun a => (JArr [JNum (PyInt a.1.2.1); JNum (PyInt a.1.2.2)], JNum a.2))
      <$> filter (fun a => String.eqb a.1.1 var = true) inst;
  dual_items _ _ := [];
  str_index _ := "index";
  objective_less_shadow _ := JNum (PyInt 0);
  cost_capital _ _ := JNum (PyInt 0)
|}.

End Clustered.

(** ** Vocabulary of the statements *)

(** The range of years the constructor accepts. *)
Definition in_range (y : Z) : Prop := 2018 <= y <= 2050.

(** The per-year policy series a scenario file holds: the six lists that are
    present and, for the regional ratios, the list of every region of the
    dict. *)
Definition present_series (config : scenario_file) : list (list num) :=
  option_list (f_cost_emit config)
  ++ option_list (f_nem_ret_ratio config)
  ++ option_list (f_nem_ret_gwh config)
  ++ from_option (fun pairs => snd <$> zdict pairs) []
       (f_region_ret_ratio config)
  ++ option_list (f_emitlimit config)
  ++ option_list (f_nem_disp_ratio config)
  ++ option_list (f_nem_re_disp_ratio config).

(** The same series, on the constructed object. *)
Definition stored_series (c : SolveTemplate) : list (list num) :=
  option_list (cost_emit c)
  ++ option_list (nem_ret_ratio c)
  ++ option_list (nem_ret_gwh c)
  ++ from_option (fmap snd) [] (region_ret_ratio c)
  ++ option_list (emitlimit c)
  ++ option_list (nem_disp_ratio c)
  ++ option_list (nem_re_disp_ratio c).

(** The text holds the clause. *)
Definition embeds (text clause : string) : Prop :=
  exists pre post, text = pre +:+ clause +:+ post.

(** What the constructor establishes of the object it returns. *)
Record accepted (c : SolveTemplate) : Prop := {
  acc_nonempty : Years c <> [];
  acc_sorted : Sorted Z.le (Years c);
  acc_range : Forall in_range (Years c);
  acc_series : Forall (fun d => length d = length (Years c)) (stored_series c)
}.

(** The input files of the object can be read and parsed. *)
Record readable `{L : Libs} (c : SolveTemplate) (files : fs) : Prop := {
  rd_template : is_Some (files !! Template c);
  rd_costs : forall p, custom_costs c = Some p ->
    exists text t, file_text files p = Ok text /\ read_csv_costs text = Ok t;
  rd_capacity : forall p, exogenous_capacity c = Some p ->
    exists text t, file_text files p = Ok text /\ read_csv_capacity text = Ok t;
  rd_costs_meta : forall p, custom_costs c = Some p ->
    exists text t, file_text files p = Ok text /\ csv_records text = Ok t;
  rd_capacity_meta : forall p, exogenous_capacity c = Some p ->
    exists text t, file_text files p = Ok text /\ csv_records text = Ok t
}.

(** The path is not in the working directory of the object. *)
Definition outside (c : SolveTemplate) (p : string) : Prop :=
  forall s, p <> tmpdir c +:+ s.

(** The input files of the object are not in its working directory. *)
Record inputs_outside (c : SolveTemplate) : Prop := {
  out_template : outside c (Template c);
  out_costs : forall p, custom_costs c = Some p -> outside c p;
  out_capacity : forall p, exogenous_capacity c = Some p -> outside c p
}.


(** The model builder, the clustering step and the solver return. *)
Record externals_succeed `{L : Libs} (c : SolveTemplate) : Prop := {
  ext_create : forall y t f, succeeds (create_instance y (options c) t f);
  ext_solve : forall inst, succeeds (opt_solve (solver c) (log c) inst);
  ext_cluster : truthy (cluster c) = true ->
    forall inst t f, exists ccap,
      run_cluster inst (cluster_max_d c) t (options c) (solver c) (log c) f
        = Ok ccap /\
      succeeds (setinstancecapacity inst ccap)
}.

(** No optional policy series is configured. *)
Definition no_policies (c : SolveTemplate) : Prop :=
  cost_emit c = None /\ nem_ret_ratio c = None /\ nem_ret_gwh c = None /\
  region_ret_ratio c = None /\ emitlimit c = None /\
  nem_disp_ratio c = None /\ nem_re_disp_ratio c = None.

(** The five keys of the result of a year. *)
Definition schema_keys : list string :=
  ["sets"; "params"; "vars"; "duals"; "objective_value"].

(** The files after the year [y] is solved: the template, the
    carry-forward artifact unless [y] is the last year, the result. *)
Definition after_year `{L : Libs} (c : SolveTemplate) (files : fs)
  (y final : Z) (text : string) (inst : instance) : fs :=
  <[year_json_path c y := FJson (JObj (jsonify inst))]>
    (if negb (Z.eqb y final)
     then <[gen_cap_op_path c y := FJson (JObj (json_carry_forward_cap inst))]>
            (<[dcfName c y := FText text]> files)
     else <[dcfName c y := FText text]> files).

(** ** Vocabulary of the further properties *)

(** One line of [dclist]. *)
Definition dc_line (p : Z * Z) : string :=
  str_int p.1 +:+ " " +:+ str_int p.2 +:+ nl.

(** The technology sets [tracetechs] fills, each with its category. *)
Definition traced_sets : list ((SolveTemplate -> techset) * (Const -> list Z)) :=
  [(fueltech, FUEL_TECH); (committech, COMMIT_TECH); (regentech, RE_GEN_TECH);
   (dispgentech, DISP_GEN_TECH); (redispgentech, RE_DISP_GEN_TECH);
   (hybtech, HYB_TECH); (gentech, GEN_TECH); (stortech, STOR_TECH);
   (retiretech, RETIRE_TECH)].

(** What the range checks of the setters let through.  A ratio is a number
    of [0, 1], an amount a number that is not negative, plus infinity
    included; not-a-number is let through as both, every comparison with
    it being false. *)
Definition in_unit (x : num) : Prop :=
  match num_val x with
  | Some (Real q) => (0 <= q <= 1)%Q
  | Some _ => False
  | None => True
  end.

Definition non_negative (x : num) : Prop :=
  match num_val x with
  | Some (Real q) => (0 <= q)%Q
  | Some PlusInf => True
  | Some MinusInf => False
  | None => True
  end.

(** The value a list of pairs gives a key last. *)
Definition last_binding {V} (k : Z) (pairs : list (Z * V)) : option V :=
  snd <$> last (filter (fun kv => kv.1 = k) pairs).


(** The time window of the template of a year: from 1 July of the year
    before at 00:00 to 30 June of the year at 23:00, or in test mode to
    3 July of the year before at 23:00. *)
Definition time_window (year : Z) (test : bool) : string :=
  "BETWEEN " +:+ ("'" +:+ (str_int (year - 1) +:+ "-07-01 00:00:00") +:+ "'")
  +:+ " AND "
  +:+ "'" +:+ (if test then str_int (year - 1) +:+ "-07-03 23:00:00"
               else str_int year +:+ "-06-30 23:00:00") +:+ "'".

(** The year the template of a year names as the previous one. *)
Definition previous_year (c : SolveTemplate) (i : nat) : Z :=
  match i with
  | O => 2017
  | S j => default 0 (Years c !! j)
  end.

(** [tok in s] *)
Fixpoint occurs (tok s : string) : bool :=
  startswith tok s ||
  match s with
  | EmptyString => false
  | String _ s' => occurs tok s'
  end.

(** The components [jsonify] adds to the params when the instance has
    them, in source order. *)
Definition optional_names : list string :=
  ["nem_year_emit_limit"; "nem_ret_ratio"; "nem_ret_gwh"; "region_ret_ratio";
   "nem_disp_ratio"; "nem_re_disp_ratio"].

(** The variables [setinstancecapacity] assigns, each with the set that
    lists its technologies per zone. *)
Definition capacity_variables : list (string * string) :=
  [("gen_cap_new", "gen_tech_per_zone");
   ("stor_cap_new", "stor_tech_per_zone");
   ("hyb_cap_new", "hyb_tech_per_zone");
   ("gen_cap_ret", "retire_gen_tech_per_zone")].

(** A capacity of the clustering step that [roundup] turns into a number
    that is not negative: an integer from 0, minus zero, or a finite float
    from -0.005, below 2^1000 in size. *)
Definition usable_capacity (x : num) : Prop :=
  match x with
  | PyInt z => 0 <= z
  | PyFloat (Finite q) => (- (1 # 200) <= q)%Q /\ (Qabs q < pow2 1000)%Q
  | PyFloat NegZero => True
  | PyFloat _ => False
  end.

(** A finite number that is not negative, minus zero included. *)
Definition settable (x : num) : Prop :=
  match num_val x with
  | Some (Real q) => (0 <= q)%Q
  | _ => False
  end.

(** What is assumed of the libraries for a run: the model builder and the
    solver return; when clustering is on, a variable takes every finite
    number that is not negative and the assignment leaves the sets of
    technologies per zone as they are, and the clustering step returns a
    result that holds, for each of the four capacity variables and each
    zone and technology of the instance, a usable capacity under the key
    of the variable. *)
Record libraries_return `{L : Libs} (c : SolveTemplate) : Prop := {
  lib_create : forall y t f, succeeds (create_instance y (options c) t f);
  lib_solve : forall inst, succeeds (opt_solve (solver c) (log c) inst);
  lib_set_var : truthy (cluster c) = true ->
    forall inst var k v, settable v ->
      exists inst', set_var inst var k v = Ok inst' /\
        forall set z, tech_per_zone inst' set z = tech_per_zone inst set z;
  lib_cluster : truthy (cluster c) = true ->
    forall inst t f, exists ccap,
      run_cluster inst (cluster_max_d c) t (options c) (solver c) (log c) f
        = Ok ccap /\
      forall var set z n,
        (var, set) ∈ capacity_variables ->
        z ∈ inst_zones inst -> n ∈ tech_per_zone inst set z ->
        exists v,
          dict_get (var +:+ "[" +:+ (str_int z +:+ "," +:+ str_int n) +:+ "]")
            ccap = Some v /\
          usable_capacity v
}.

(** The sets of technologies per zone of [inst] are those of [inst0]. *)
Definition same_sets `{L : Libs} (inst0 inst : instance) : Prop :=
  forall set z, tech_per_zone inst set z = tech_per_zone inst0 set z.

(** * Properties *)

(** ** Rounding policy *)

Lemma Qltb_lt x y : Qltb x y = true <-> (x < y)%Q.
Proof.
  unfold Qltb. rewrite negb_true_iff. split.
  - intros H. apply Qnot_le_lt. intros Hle.
    apply Qle_bool_iff in Hle. congruence.
  - intros H. destruct (Qle_bool y x) eqn:E; [|reflexivity].
    apply Qle_bool_iff in E. exfalso. exact (Qlt_not_le _ _ H E).
Qed.

Lemma round_half_even_zero (y : Q) :
  (- (1 # 2) <= y <= 1 # 2)%Q -> round_half_even y = 0.
Proof.
  intros [Hlo Hhi]. unfold round_half_even.
  pose proof (Qfloor_le y) as Hfl. pose proof (Qlt_floor y) as Hfu.
  rewrite inject_Z_plus in Hfu. change (inject_Z 1) with 1%Q in Hfu.
  assert (Hf : Qfloor y = 0 \/ Qfloor y = -1).
  { assert (inject_Z (Qfloor y) < inject_Z 1)%Q as H1
      by (change (inject_Z 1) with 1%Q; lra).
    assert (inject_Z (-2) < inject_Z (Qfloor y))%Q as H2
      by (change (inject_Z (-2)) with (-2)%Q; lra).
    rewrite <- Zlt_Qlt in H1, H2. lia. }
  destruct Hf as [Hf|Hf]; rewrite Hf in *.
  - change (inject_Z 0) with 0%Q in *.
    destruct (Qcompare_spec (y - 0) (1 # 2)) as [He|Hl|Hg];
      [reflexivity|reflexivity|lra].
  - change (inject_Z (-1)) with (-1)%Q in *.
    destruct (Qcompare_spec (y - -1) (1 # 2)) as [He|Hl|Hg];
      [reflexivity|lra|reflexivity].
Qed.

Lemma roundup_below_tolerance (x : Q) :
  (x <= - lit_1e_6)%Q -> roundup (PyFloat x) = round2 (PyFloat x).
Proof.
  intros Hx. unfold roundup.
  change (num_ltb (PyFloat (- lit_1e_6)%Q) (PyFloat x))
    with (Qltb (- lit_1e_6) x).
  destruct (Qltb (- lit_1e_6) x) eqn:E; [|reflexivity].
  apply Qltb_lt in E. exfalso. exact (Qlt_not_le _ _ E Hx).
Qed.

(** From -0.005 to -1e-6 the capacity is rounded to minus zero. *)
Lemma roundup_band (x : Q) :
  (- (1 # 200) <= x)%Q -> (x <= - lit_1e_6)%Q ->
  roundup (PyFloat x) = Ok (PyFloat NegZero).
Proof.
  intros Hlo Hhi. rewrite (roundup_below_tolerance x Hhi).
  assert (Hl : (0 < lit_1e_6)%Q) by (vm_compute; reflexivity).
  unfold round2, py_round2.
  rewrite round_half_even_zero by (split; lra). simpl.
  assert (Hneg : Qltb x 0 = true) by (apply Qltb_lt; lra).
  by rewrite Hneg.
Qed.

(** C1: the three values of the claim are as it says: [roundup(-0.0000005)
    == 0], [roundup(0) == 0] and [roundup(1.2345) == 1.23].  Its last part
    fails on the code: [roundup] has no [raise], and for an input at or
    below -1e-6 it returns [round(cap, 2)]; for every input from -0.005 to
    -1e-6, and so for -1e-5, this is minus zero, a float equal to 0: the
    anomalous capacity is snapped to zero and handed on, against the
    docstring of the function ("Let big negative numners pass to raise
    exception"). *)
Theorem roundup_snaps_anomaly :
  returns (roundup (PyFloat lit_neg_5e_7)) 0 /\
  returns (roundup (PyInt 0)) 0 /\
  returns (roundup (PyFloat 0%Q)) 0 /\
  roundup (PyFloat lit_1_2345) = Ok (PyFloat lit_1_23) /\
  (lit_neg_1e_5 <= - lit_1e_6)%Q /\
  roundup (PyFloat lit_neg_1e_5) = Ok (PyFloat NegZero) /\
  forall x : Q, (- (1 # 200) <= x)%Q -> (x <= - lit_1e_6)%Q ->
    roundup (PyFloat x) = Ok (PyFloat NegZero) /\
    returns (roundup (PyFloat x)) 0 /\
    ~ raises (roundup (PyFloat x)).
Proof.
  split; [vm_compute; reflexivity|].
  split; [vm_compute; reflexivity|].
  split; [vm_compute; reflexivity|].
  split; [vm_compute; reflexivity|].
  split; [vm_compute; discriminate|].
  split; [vm_compute; reflexivity|].
  intros x Hlo Hhi. rewrite (roundup_band x Hlo Hhi).
  split; [reflexivity|]. split; [reflexivity|]. exact (fun H => H).
Qed.

Lemma roundup_snaps_anomaly_witness :
  (- (1 # 200) <= lit_neg_1e_5)%Q /\ (lit_neg_1e_5 <= - lit_1e_6)%Q /\
  returns (roundup (PyFloat lit_neg_1e_5)) 0.
Proof.
  assert (Hlo : (- (1 # 200) <= lit_neg_1e_5)%Q) by (vm_compute; discriminate).
  assert (Hhi : (lit_neg_1e_5 <= - lit_1e_6)%Q) by (vm_compute; discriminate).
  split; [exact Hlo|]. split; [exact Hhi|].
  destruct roundup_snaps_anomaly as (_ & _ & _ & _ & _ & _ & Hband).
  exact (proj1 (proj2 (Hband lit_neg_1e_5 Hlo Hhi))).
Defined.

(** ** The technology list of the database queries *)

Lemma techset_pairs_all_empty (t : techset) :
  (forall zl, zl ∈ t -> zl.2 = []) -> techset_pairs t = [].
Proof.
  induction t as [|zl t IH]; intros H; [reflexivity|].
  unfold techset_pairs in *. simpl.
  rewrite (H zl) by left. simpl.
  apply IH. intros zl' Hin. apply H. by right.
Qed.

(** C9: when every per-zone list is empty [sqllist] returns the placeholder
    ["((99, 99))"]; when the mapping has at least one (zone, tech) entry it
    lists exactly the pairs of the mapping, zone by zone in mapping order,
    and no placeholder. *)
Theorem sqllist_placeholder (t : techset) :
  ((forall zl, zl ∈ t -> zl.2 = []) -> sqllist t = "((99, 99))") /\
  (techset_pairs t <> [] ->
   sqllist t = "(" +:+ join ", " (str_tuple <$> techset_pairs t) +:+ ")").
Proof.
  split.
  - intros H. unfold sqllist. rewrite (techset_pairs_all_empty t H).
    reflexivity.
  - intros H. unfold sqllist. destruct (techset_pairs t); [done|reflexivity].
Qed.

Lemma sqllist_placeholder_witness :
  sqllist [(1, []); (2, [])] = "((99, 99))" /\
  sqllist [(1, [3; 4]); (2, []); (5, [6])] = "((1, 3), (1, 4), (5, 6))".
Proof.
  split.
  - apply (proj1 (sqllist_placeholder [(1, []); (2, [])])).
    intros zl Hin. repeat (apply elem_of_cons in Hin as [->|Hin]; [reflexivity|]).
    by apply elem_of_nil in Hin.
  - rewrite (proj2 (sqllist_placeholder [(1, [3; 4]); (2, []); (5, [6])]));
      [reflexivity|vm_compute; discriminate].
Defined.

(** ** Configuration validation *)

Lemma bind_Ok {A B} (k : A -> result B) (r : result A) (b : B) :
  mbind k r = Ok b -> exists a, r = Ok a /\ k a = Ok b.
Proof. destruct r as [a|e]; simpl; [eauto|discriminate]. Qed.

Ltac bind_inv H :=
  repeat match type of H with
         | mbind _ _ = Ok _ =>
             let a := fresh "v" in
             let Ha := fresh "E" in
             apply bind_Ok in H as (a & Ha & H)
         end.

Lemma max_list_le (l : list Z) (x b : Z) :
  max_list x l <= b <-> x <= b /\ Forall (fun z => z <= b) l.
Proof.
  unfold max_list. revert x. induction l as [|a l IH]; intros x; simpl.
  - rewrite Forall_nil. tauto.
  - rewrite IH, Forall_cons. intuition lia.
Qed.

Lemma min_list_ge (l : list Z) (x b : Z) :
  b <= min_list x l <-> b <= x /\ Forall (fun z => b <= z) l.
Proof.
  unfold min_list. revert x. induction l as [|a l IH]; intros x; simpl.
  - rewrite Forall_nil. tauto.
  - rewrite IH, Forall_cons. intuition lia.
Qed.

Lemma set_Years_Ok (y ys : list Z) :
  set_Years y = Ok ys -> y <> [] /\ ys = sorted y /\ Forall in_range y.
Proof.
  unfold set_Years. destruct y as [|x l]; [discriminate|].
  destruct (Z.ltb_spec 2050 (max_list x l)) as [|Hmax]; [discriminate|].
  destruct (Z.ltb_spec (min_list x l) 2018) as [|Hmin]; [discriminate|].
  intros [= <-]. split; [discriminate|]. split; [reflexivity|].
  apply max_list_le in Hmax as [Hx Hl]. apply min_list_ge in Hmin as [Hx' Hl'].
  apply Forall_cons. split; [split; assumption|].
  rewrite Forall_forall in *. intros z Hz. split; auto.
Qed.

Lemma sorted_spec (y : list Z) :
  Sorted Z.le (sorted y) /\ sorted y ≡ₚ y.
Proof.
  split.
  - apply (Sorted_merge_sort Z.le).
  - apply merge_sort_Permutation.
Qed.

Lemma set_Years_length (y ys : list Z) :
  set_Years y = Ok ys -> length ys = length y.
Proof.
  intros H. apply set_Years_Ok in H as (_ & -> & _).
  apply Permutation_length, sorted_spec.
Qed.

(** What a setter of a list-valued policy returns when it returns. *)
Ltac setter_inv :=
  let d := fresh "d" in
  intros years [d|] out; simpl;
  [ destruct (same_length d years) eqn:E; simpl; [|discriminate];
    repeat (match goal with
            | |- context [if ?b then _ else _] => destruct b; try discriminate
            end);
    intros [= <-]; split; [reflexivity|];
    intros ? [= <-]; apply Nat.eqb_eq, E
  | intros [= <-]; split; [reflexivity|discriminate] ].

Lemma set_cost_emit_Ok :
  forall years data out, set_cost_emit years data = Ok out ->
    out = data /\ forall d, data = Some d -> length d = length years.
Proof. unfold set_cost_emit. setter_inv. Qed.

Lemma set_nem_ret_ratio_Ok :
  forall years data out, set_nem_ret_ratio years data = Ok out ->
    out = data /\ forall d, data = Some d -> length d = length years.
Proof. unfold set_nem_ret_ratio. setter_inv. Qed.

Lemma set_nem_ret_gwh_Ok :
  forall years data out, set_nem_ret_gwh years data = Ok out ->
    out = data /\ forall d, data = Some d -> length d = length years.
Proof. unfold set_nem_ret_gwh. setter_inv. Qed.

Lemma set_emitlimit_Ok :
  forall years data out, set_emitlimit years data = Ok out ->
    out = data /\ forall d, data = Some d -> length d = length years.
Proof. unfold set_emitlimit. setter_inv. Qed.

Lemma set_nem_disp_ratio_Ok :
  forall years data out, set_nem_disp_ratio years data = Ok out ->
    out = data /\ forall d, data = Some d -> length d = length years.
Proof. unfold set_nem_disp_ratio. setter_inv. Qed.

Lemma set_nem_re_disp_ratio_Ok :
  forall years data out, set_nem_re_disp_ratio years data = Ok out ->
    out = data /\ forall d, data = Some d -> length d = length years.
Proof. unfold set_nem_re_disp_ratio. setter_inv. Qed.

Lemma check_regions_Ok (years : list Z) (data : list (Z * list num)) :
  check_regions years data = Ok tt ->
  Forall (fun d => length d = length years) (snd <$> data).
Proof.
  induction data as [|[r series] rest IH]; simpl; intros H.
  - constructor.
  - destruct (same_length series years) eqn:E; simpl in H; [|discriminate].
    destruct (any_negative series || any_above_one series); [discriminate|].
    constructor; [apply Nat.eqb_eq, E|auto].
Qed.

Lemma set_region_ret_ratio_Ok years data out :
  set_region_ret_ratio years data = Ok out ->
  out = data /\
  forall d, data = Some d ->
    Forall (fun s => length s = length years) (snd <$> d).
Proof.
  unfold set_region_ret_ratio. destruct data as [d|]; intros H.
  - bind_inv H. injection H as <-. split; [reflexivity|].
    intros ? [= <-]. destruct v. by apply check_regions_Ok.
  - injection H as <-. split; [reflexivity|discriminate].
Qed.

Section ConstructionFacts.
Context `{L : Libs}.
Variables (files : fs) (cfgfile_ solver_ : string) (log_ : bool)
  (tmpdir_ : string).

(** What the constructor has checked when it returns an object. *)
Lemma init_Ok (c : SolveTemplate) :
  init files cfgfile_ solver_ log_ tmpdir_ = Ok c ->
  exists text config y,
    read_text files cfgfile_ = Ok text /\
    parse_config text = Ok config /\
    f_Years config = Some y /\
    set_Years y = Ok (Years c) /\
    Forall (fun d => length d = length (Years c)) (present_series config) /\
    stored_series c = present_series config /\
    tmpdir c = tmpdir_ /\ cfgfile c = cfgfile_.
Proof.
  unfold init. intros H.
  destruct (files !! cfgfile_) as [f|] eqn:Ef; [|discriminate].
  bind_inv H. injection H as <-. simpl.
  destruct (f_Years v0) as [y|] eqn:Ey; [|discriminate].
  exists v, v0, y.
  match goal with
  | H : required "Years" _ = Ok _ |- _ => injection H as ->
  end.
  repeat match goal with
    | H : set_nem_ret_ratio _ _ = Ok _ |- _ =>
        apply set_nem_ret_ratio_Ok in H as [-> ?]
    | H : set_nem_ret_gwh _ _ = Ok _ |- _ =>
        apply set_nem_ret_gwh_Ok in H as [-> ?]
    | H : set_region_ret_ratio _ _ = Ok _ |- _ =>
        apply set_region_ret_ratio_Ok in H as [-> H5]
    | H : set_emitlimit _ _ = Ok _ |- _ =>
        apply set_emitlimit_Ok in H as [-> ?]
    | H : set_nem_disp_ratio _ _ = Ok _ |- _ =>
        apply set_nem_disp_ratio_Ok in H as [-> ?]
    | H : set_nem_re_disp_ratio _ _ = Ok _ |- _ =>
        apply set_nem_re_disp_ratio_Ok in H as [-> ?]
    | H : set_cost_emit _ _ = Ok _ |- _ =>
        apply set_cost_emit_Ok in H as [-> ?]
    end.
  repeat split; try assumption; try reflexivity.
  - unfold present_series. rewrite !Forall_app.
    repeat split;
      try (match goal with
           | |- Forall _ (option_list ?o) =>
               destruct o as [d|] eqn:Ed; simpl; [|constructor];
               constructor; [auto|constructor]
           end).
    destruct (f_region_ret_ratio v0) as [pairs|]; simpl; [|constructor].
    apply H5. reflexivity.
  - unfold stored_series, present_series. simpl.
    by destruct (f_region_ret_ratio v0).
Qed.

End ConstructionFacts.

Lemma init_reads `{L : Libs} files cfgfile_ solver_ log_ tmpdir_ text config y c :
  read_text files cfgfile_ = Ok text ->
  parse_config text = Ok config ->
  f_Years config = Some y ->
  init files cfgfile_ solver_ log_ tmpdir_ = Ok c ->
  set_Years y = Ok (Years c) /\
  Forall (fun d => length d = length (Years c)) (present_series config) /\
  stored_series c = present_series config.
Proof.
  intros Ht Hc Hy Hi.
  apply init_Ok in Hi as (t & cf & y' & Ht' & Hc' & Hy' & Hs & Hf & Hst & _).
  rewrite Ht in Ht'. injection Ht' as <-.
  rewrite Hc in Hc'. injection Hc' as <-.
  rewrite Hy in Hy'. injection Hy' as <-.
  auto.
Qed.

(** C5: the stored years are the years of the scenario file sorted
    ascending, and each lies in 2018..2050; when a year of the file is
    outside that range the constructor raises, so no object exists on which
    a solve could start. *)
Theorem Years_sorted_in_range `{L : Libs} files cfgfile_ solver_ log_ tmpdir_
  text config y :
  read_text files cfgfile_ = Ok text ->
  parse_config text = Ok config ->
  f_Years config = Some y ->
  (forall c, init files cfgfile_ solver_ log_ tmpdir_ = Ok c ->
     Years c = sorted y /\ Sorted Z.le (Years c) /\ Years c ≡ₚ y /\
     Forall in_range (Years c)) /\
  (Exists (fun x => ~ in_range x) y ->
   raises (init files cfgfile_ solver_ log_ tmpdir_)).
Proof.
  intros Ht Hc Hy. split.
  - intros c Hi.
    destruct (init_reads _ _ _ _ _ _ _ _ _ Ht Hc Hy Hi) as (Hs & _).
    apply set_Years_Ok in Hs as (_ & -> & Hr).
    destruct (sorted_spec y) as [Hsorted Hperm].
    repeat split; try assumption. by rewrite Hperm.
  - intros Hex.
    destruct (init files cfgfile_ solver_ log_ tmpdir_) as [c|e] eqn:Hi;
      [|exact I].
    destruct (init_reads _ _ _ _ _ _ _ _ _ Ht Hc Hy Hi) as (Hs & _).
    apply set_Years_Ok in Hs as (_ & _ & Hr).
    apply Exists_exists in Hex as (x & Hx & Hout).
    rewrite Forall_forall in Hr. destruct (Hout (Hr x Hx)).
Qed.

Lemma Years_sorted_in_range_witness :
  (exists c,
     init (L := Demo.libs) (Demo.files_with "two years") "scenario.cfg" "cbc"
       false "/tmp/x/" = Ok c /\
     Years c = [2020; 2022] /\ Forall in_range (Years c)) /\
  raises (init (L := Demo.libs) (Demo.files_with "late") "scenario.cfg" "cbc"
            false "/tmp/x/").
Proof.
  split.
  - destruct (init (L := Demo.libs) (Demo.files_with "two years")
                "scenario.cfg" "cbc" false "/tmp/x/") as [c|e] eqn:Hi;
      [|vm_compute in Hi; discriminate].
    exists c. split; [reflexivity|].
    destruct (Years_sorted_in_range (L := Demo.libs)
                (Demo.files_with "two years") "scenario.cfg" "cbc" false
                "/tmp/x/" "two years" Demo.two_years [2022; 2020]
                eq_refl eq_refl eq_refl) as [Hok _].
    destruct (Hok c Hi) as (Hs & _ & _ & Hr).
    split; [rewrite Hs; reflexivity|exact Hr].
  - apply (Years_sorted_in_range (L := Demo.libs)
             (Demo.files_with "late") "scenario.cfg" "cbc" false "/tmp/x/"
             "late" (Demo.with_years [2020; 2051] None) [2020; 2051]
             eq_refl eq_refl eq_refl).
    apply Exists_cons_tl, Exists_cons_hd. unfold in_range. lia.
Defined.

(** A setter given a list whose length is not that of the years raises
    [ValueError]. *)
Ltac setter_mismatch :=
  intros years d Hne; unfold same_length;
  destruct (Nat.eqb_spec (length d) (length years)) as [Heq|_];
  [by destruct Hne|simpl; by eexists].

Lemma set_cost_emit_mismatch :
  forall years d, length d <> length years ->
    exists m, set_cost_emit years (Some d) = Raise (ValueError m).
Proof. unfold set_cost_emit. setter_mismatch. Qed.

Lemma set_nem_ret_ratio_mismatch :
  forall years d, length d <> length years ->
    exists m, set_nem_ret_ratio years (Some d) = Raise (ValueError m).
Proof. unfold set_nem_ret_ratio. setter_mismatch. Qed.

Lemma set_nem_ret_gwh_mismatch :
  forall years d, length d <> length years ->
    exists m, set_nem_ret_gwh years (Some d) = Raise (ValueError m).
Proof. unfold set_nem_ret_gwh. setter_mismatch. Qed.

Lemma set_emitlimit_mismatch :
  forall years d, length d <> length years ->
    exists m, set_emitlimit years (Some d) = Raise (ValueError m).
Proof. unfold set_emitlimit. setter_mismatch. Qed.

Lemma set_nem_disp_ratio_mismatch :
  forall years d, length d <> length years ->
    exists m, set_nem_disp_ratio years (Some d) = Raise (ValueError m).
Proof. unfold set_nem_disp_ratio. setter_mismatch. Qed.

Lemma set_nem_re_disp_ratio_mismatch :
  forall years d, length d <> length years ->
    exists m, set_nem_re_disp_ratio years (Some d) = Raise (ValueError m).
Proof. unfold set_nem_re_disp_ratio. setter_mismatch. Qed.

Lemma check_regions_mismatch (years : list Z) (data : list (Z * list num)) :
  Exists (fun d => length d <> length years) (snd <$> data) ->
  exists m, check_regions years data = Raise (ValueError m).
Proof.
  induction data as [|[r series] rest IH]; intros Hex.
  - by apply Exists_nil in Hex.
  - simpl. unfold same_length.
    destruct (Nat.eqb_spec (length series) (length years)) as [Heq|_];
      simpl; [|by eexists].
    destruct (any_negative series || any_above_one series); [by eexists|].
    apply Exists_cons in Hex as [Hne|Hex]; [by destruct Hne|].
    exact (IH Hex).
Qed.

Lemma set_region_ret_ratio_mismatch (years : list Z)
  (data : list (Z * list num)) :
  Exists (fun d => length d <> length years) (snd <$> data) ->
  exists m, set_region_ret_ratio years (Some data) = Raise (ValueError m).
Proof.
  intros Hex. unfold set_region_ret_ratio.
  destruct (check_regions_mismatch years data Hex) as (m & ->).
  by exists m.
Qed.

(** C6: whenever a policy series present in the scenario file (cost_emit,
    nem_ret_ratio, nem_ret_gwh, the list of any region of region_ret_ratio,
    emitlimit, nem_disp_ratio, nem_re_disp_ratio) has a length other than
    that of the years list, the constructor raises, whichever series it is;
    it returns an object only when every stored series has the length of
    the stored years, so a failure exposes no object; and the setter of each
    of the seven policies, given such a list, raises [ValueError]. *)
Theorem series_length_mismatch_raises `{L : Libs} files cfgfile_ solver_ log_
  tmpdir_ text config y :
  read_text files cfgfile_ = Ok text ->
  parse_config text = Ok config ->
  f_Years config = Some y ->
  (Exists (fun d => length d <> length y) (present_series config) ->
   raises (init files cfgfile_ solver_ log_ tmpdir_)) /\
  (forall c, init files cfgfile_ solver_ log_ tmpdir_ = Ok c ->
     Forall (fun d => length d = length (Years c)) (stored_series c)) /\
  (forall years d, length d <> length years ->
     (exists m, set_cost_emit years (Some d) = Raise (ValueError m)) /\
     (exists m, set_nem_ret_ratio years (Some d) = Raise (ValueError m)) /\
     (exists m, set_nem_ret_gwh years (Some d) = Raise (ValueError m)) /\
     (forall data r, (r, d) ∈ data ->
        exists m,
          set_region_ret_ratio years (Some data) = Raise (ValueError m)) /\
     (exists m, set_emitlimit years (Some d) = Raise (ValueError m)) /\
     (exists m, set_nem_disp_ratio years (Some d) = Raise (ValueError m)) /\
     (exists m,
        set_nem_re_disp_ratio years (Some d) = Raise (ValueError m))).
Proof.
  intros Ht Hc Hy. split; [|split].
  - intros Hex.
    destruct (init files cfgfile_ solver_ log_ tmpdir_) as [c|e] eqn:Hi;
      [|exact I].
    destruct (init_reads _ _ _ _ _ _ _ _ _ Ht Hc Hy Hi) as (Hs & Hf & _).
    apply set_Years_length in Hs.
    apply Exists_exists in Hex as (d & Hd & Hne).
    rewrite Forall_forall in Hf. specialize (Hf d Hd). congruence.
  - intros c Hi.
    destruct (init_reads _ _ _ _ _ _ _ _ _ Ht Hc Hy Hi) as (_ & Hf & ->).
    exact Hf.
  - intros years d Hne.
    repeat split;
      auto using set_cost_emit_mismatch, set_nem_ret_ratio_mismatch,
        set_nem_ret_gwh_mismatch, set_emitlimit_mismatch,
        set_nem_disp_ratio_mismatch, set_nem_re_disp_ratio_mismatch.
    intros data r Hin. apply set_region_ret_ratio_mismatch.
    apply Exists_exists. exists d. split; [|exact Hne].
    apply list_elem_of_fmap. by exists (r, d).
Qed.

Lemma series_length_mismatch_raises_witness :
  raises (init (L := Demo.libs) (Demo.files_with "short series")
            "scenario.cfg" "cbc" false "/tmp/x/").
Proof.
  apply (proj1 (series_length_mismatch_raises (L := Demo.libs)
           (Demo.files_with "short series") "scenario.cfg" "cbc" false
           "/tmp/x/" "short series"
           (Demo.with_years [2030; 2040] (Some [PyFloat lit_0_1]))
           [2030; 2040] eq_refl eq_refl eq_refl)).
  apply Exists_cons_hd. simpl. lia.
Defined.

(** C10: the years setter raises on an empty list (it takes the maximum
    first), so the constructor raises for a scenario file whose years list
    is empty, and the years of every constructed object are non-empty. *)
Theorem empty_years_rejected `{L : Libs} files cfgfile_ solver_ log_ tmpdir_ :
  raises (set_Years []) /\
  (forall text config,
     read_text files cfgfile_ = Ok text ->
     parse_config text = Ok config ->
     f_Years config = Some [] ->
     raises (init files cfgfile_ solver_ log_ tmpdir_)) /\
  (forall c, init files cfgfile_ solver_ log_ tmpdir_ = Ok c -> Years c <> []).
Proof.
  split; [exact I|]. split.
  - intros text config Ht Hc Hy.
    destruct (init files cfgfile_ solver_ log_ tmpdir_) as [c|e] eqn:Hi;
      [|exact I].
    destruct (init_reads _ _ _ _ _ _ _ _ _ Ht Hc Hy Hi) as (Hs & _).
    discriminate Hs.
  - intros c Hi Hnil.
    apply init_Ok in Hi as (_ & _ & y & _ & _ & _ & Hs & _).
    pose proof (set_Years_length _ _ Hs) as Hlen.
    apply set_Years_Ok in Hs as (Hne & _).
    rewrite Hnil in Hlen. destruct y; [congruence|discriminate].
Qed.

Lemma empty_years_rejected_witness :
  raises (init (L := Demo.libs) (Demo.files_with "no years") "scenario.cfg"
            "cbc" false "/tmp/x/") /\
  (forall c,
     init (L := Demo.libs) (Demo.files_with "two years") "scenario.cfg" "cbc"
       false "/tmp/x/" = Ok c -> Years c <> []).
Proof.
  split.
  - apply (proj1 (proj2 (empty_years_rejected (L := Demo.libs)
             (Demo.files_with "no years") "scenario.cfg" "cbc" false
             "/tmp/x/")) "no years" (Demo.with_years [] None));
      reflexivity.
  - apply (proj2 (proj2 (empty_years_rejected (L := Demo.libs)
             (Demo.files_with "two years") "scenario.cfg" "cbc" false
             "/tmp/x/"))).
Defined.

(** ** Strings, positions and lists *)

Lemma app_cons (ch : ascii) (a b : string) :
  String ch a +:+ b = String ch (a +:+ b).
Proof. reflexivity. Qed.

Lemma app_nil_r (a : string) : a +:+ EmptyString = a.
Proof.
  induction a as [|ch a IH]; [reflexivity|]. by rewrite app_cons, IH.
Qed.

Lemma app_assoc (a b c : string) : (a +:+ b) +:+ c = a +:+ (b +:+ c).
Proof.
  induction a as [|ch a IH]; [reflexivity|]. by rewrite !app_cons, IH.
Qed.

Lemma embeds_refl (s : string) : embeds s s.
Proof. exists EmptyString, EmptyString. by rewrite app_nil_r. Qed.

Lemma embeds_app_l (a b s : string) : embeds a s -> embeds (a +:+ b) s.
Proof.
  intros (pre & post & ->). exists pre, (post +:+ b).
  by rewrite !app_assoc.
Qed.

Lemma embeds_app_r (a b s : string) : embeds b s -> embeds (a +:+ b) s.
Proof.
  intros (pre & post & ->). exists (a +:+ pre), post.
  by rewrite !app_assoc.
Qed.

Ltac solve_embeds :=
  solve [ apply embeds_refl
        | apply embeds_app_l; solve_embeds
        | apply embeds_app_r; solve_embeds ].

Lemma embeds_join (sep x : string) (l : list string) :
  x ∈ l -> embeds (join sep l) x.
Proof.
  unfold join. induction l as [|y l IH]; intros Hin.
  - by apply elem_of_nil in Hin.
  - apply elem_of_cons in Hin as [->|Hin].
    + destruct l; simpl; [apply embeds_refl|solve_embeds].
    + destruct l as [|z l]; [by apply elem_of_nil in Hin|].
      change (embeds (y +:+ sep +:+ String.concat sep (z :: l)) x).
      do 2 apply embeds_app_r. by apply IH.
Qed.

Lemma index_Some (x : Z) (l : list Z) (i : nat) :
  index x l = Some i ->
  l !! i = Some x /\ forall j, (j < i)%nat -> l !! j <> Some x.
Proof.
  revert i. induction l as [|y l IH]; intros i; simpl; [discriminate|].
  destruct (Z.eqb_spec y x) as [->|Hne].
  - intros [= <-]. split; [reflexivity|]. intros j Hj. lia.
  - destruct (index x l) as [k|]; simpl; [|discriminate].
    intros [= <-]. destruct (IH k eq_refl) as [Hk Hfirst].
    split; [exact Hk|]. intros [|j] Hj; simpl.
    + congruence.
    + apply Hfirst. lia.
Qed.

Lemma index_elem (x : Z) (l : list Z) : x ∈ l -> is_Some (index x l).
Proof.
  induction l as [|y l IH]; intros Hin; [by apply elem_of_nil in Hin|].
  simpl. destruct (Z.eqb_spec y x) as [->|Hne]; [by eexists|].
  apply elem_of_cons in Hin as [->|Hin]; [done|].
  destruct (IH Hin) as [k ->]. by eexists.
Qed.

Lemma index_lt (x : Z) (l : list Z) (i : nat) :
  index x l = Some i -> (i < length l)%nat.
Proof.
  intros H. apply index_Some in H as [H _]. by apply lookup_lt_Some in H.
Qed.

Lemma bind_ret {A B} (k : A -> result B) (a : A) : mbind k (Ok a) = k a.
Proof. reflexivity. Qed.

(** ** Template generation *)

Section TemplateFacts.
Context `{L : Libs}.
Variables (c : SolveTemplate) (files : fs).
Hypothesis Hacc : accepted c.

Lemma series_length (d : list num) :
  d ∈ stored_series c -> length d = length (Years c).
Proof.
  intros Hin. pose proof (acc_series c Hacc) as H.
  rewrite Forall_forall in H. by apply H.
Qed.

Lemma year_index_Ok (year : Z) (i : nat) :
  index year (Years c) = Some i -> year_index c year = Ok i.
Proof. unfold year_index. by intros ->. Qed.

Lemma year_in_range (year : Z) (i : nat) :
  index year (Years c) = Some i -> in_range year.
Proof.
  intros H. apply index_Some in H as [H _].
  pose proof (acc_range c Hacc) as Hr. rewrite Forall_forall in Hr.
  apply Hr. by eapply list_elem_of_lookup_2.
Qed.

Lemma str_datetime_Ok (y : Z) (rest : string) :
  1 <= y <= 9999 -> str_datetime y rest = Ok (zfill4 (str_int y) +:+ rest).
Proof.
  intros [H1 H2]. unfold str_datetime.
  destruct (Z.leb_spec 1 y); [|lia]. destruct (Z.leb_spec y 9999); [|lia].
  reflexivity.
Qed.

Lemma year_before_S (year : Z) (j : nat) :
  index year (Years c) = Some (S j) ->
  exists prev, Years c !! j = Some prev /\ year_before c (S j) = Ok prev.
Proof.
  intros H. apply index_lt in H.
  destruct (lookup_lt_is_Some_2 (Years c) j) as [prev Hp]; [lia|].
  exists prev. split; [exact Hp|]. unfold year_before. simpl. by rewrite Hp.
Qed.

Lemma year_before_O (year : Z) :
  index year (Years c) = Some O ->
  exists final, last (Years c) = Some final /\ year_before c O = Ok final.
Proof.
  intros H. apply index_lt in H. unfold year_before. simpl.
  destruct (Years c) as [|y l] eqn:E; [simpl in H; lia|].
  destruct (last (y :: l)) as [z|] eqn:El.
  - by exists z.
  - by apply last_None in El.
Qed.

Lemma carryforwardcap_S (year : Z) (j : nat) (prev : Z) :
  index year (Years c) = Some (S j) -> Years c !! j = Some prev ->
  carryforwardcap c year =
    Ok ("load '" +:+ gen_cap_op_path c prev
        +:+ "' : [zones,all_tech] gen_cap_initial stor_cap_initial hyb_cap_initial;").
Proof.
  intros Hi Hp. unfold carryforwardcap.
  rewrite (year_index_Ok _ _ Hi), bind_ret.
  destruct (year_before_S _ _ Hi) as (p & Hp' & ->).
  rewrite Hp in Hp'. by injection Hp' as <-.
Qed.

Lemma carry_forward_cap_costs_S (year : Z) (j : nat) (prev : Z) :
  index year (Years c) = Some (S j) -> Years c !! j = Some prev ->
  carry_forward_cap_costs c year =
    Ok ("#Carry forward annualised capital costs
" +:+ "load '" +:+ gen_cap_op_path c prev +:+ "' : cost_cap_carry_forward;
").
Proof.
  intros Hi Hp. unfold carry_forward_cap_costs.
  rewrite (year_index_Ok _ _ Hi), bind_ret.
  destruct (year_before_S _ _ Hi) as (p & Hp' & ->).
  rewrite Hp in Hp'. by injection Hp' as <-.
Qed.

Lemma carryforwardcap_Ok (year : Z) (i : nat) :
  index year (Years c) = Some i -> exists s, carryforwardcap c year = Ok s.
Proof.
  intros Hi. destruct i as [|j].
  - unfold carryforwardcap. rewrite (year_index_Ok _ _ Hi), bind_ret.
    by eexists.
  - destruct (year_before_S _ _ Hi) as (p & Hp & _).
    rewrite (carryforwardcap_S _ _ _ Hi Hp). by eexists.
Qed.

Lemma carry_forward_cap_costs_Ok (year : Z) (i : nat) :
  index year (Years c) = Some i ->
  exists s, carry_forward_cap_costs c year = Ok s.
Proof.
  intros Hi. destruct i as [|j].
  - unfold carry_forward_cap_costs.
    rewrite (year_index_Ok _ _ Hi), bind_ret. by eexists.
  - destruct (year_before_S _ _ Hi) as (p & Hp & _).
    rewrite (carry_forward_cap_costs_S _ _ _ Hi Hp). by eexists.
Qed.

Lemma policy_clause_Ok (year : Z) (i : nat) (series : option (list num))
  (before : string) :
  index year (Years c) = Some i ->
  (forall d, series = Some d -> length d = length (Years c)) ->
  exists s, policy_clause c year series before = Ok s /\
    forall d, series = Some d ->
      exists x, d !! i = Some x /\ s = before +:+ str_num x +:+ ";" +:+ nl.
Proof.
  intros Hi Hlen. pose proof (index_lt _ _ _ Hi) as Hlt.
  destruct series as [d|]; [|by exists EmptyString].
  specialize (Hlen d eq_refl).
  destruct (lookup_lt_is_Some_2 d i) as [x Hx]; [lia|].
  destruct d as [|a d]; [discriminate|].
  exists (before +:+ str_num x +:+ ";" +:+ nl). split.
  - unfold policy_clause. rewrite (year_index_Ok _ _ Hi), bind_ret.
    unfold subscript. by rewrite Hx.
  - intros ? [= <-]. by exists x.
Qed.

Lemma region_items_Ok (year : Z) (i : nat) (data : list (Z * list num)) :
  index year (Years c) = Some i ->
  Forall (fun s => length s = length (Years c)) (snd <$> data) ->
  exists items, region_items c year data = Ok items /\
    forall r s, (r, s) ∈ data ->
      exists x, s !! i = Some x /\ (str_int r +:+ " " +:+ str_num x) ∈ items.
Proof.
  intros Hi. pose proof (index_lt _ _ _ Hi) as Hlt.
  induction data as [|[r s] rest IH]; intros Hall.
  - exists []. split; [reflexivity|]. intros r s Hin.
    by apply elem_of_nil in Hin.
  - apply Forall_cons in Hall as [Hs Hrest]. simpl in Hs.
    destruct (IH Hrest) as (items & Hitems & Hin).
    destruct (lookup_lt_is_Some_2 s i) as [x Hx]; [lia|].
    exists ((str_int r +:+ " " +:+ str_num x) :: items). split.
    + simpl. rewrite (year_index_Ok _ _ Hi), bind_ret.
      unfold subscript. rewrite Hx, bind_ret, Hitems. reflexivity.
    + intros r' s' Hel. apply elem_of_cons in Hel as [[= -> ->]|Hel].
      * exists x. split; [exact Hx|left].
      * destruct (Hin r' s' Hel) as (x' & Hx' & Hel'). exists x'.
        split; [exact Hx'|by right].
Qed.

Lemma region_clause_Ok (year : Z) (i : nat) :
  index year (Years c) = Some i ->
  exists clause, region_clause c year = Ok clause /\
    forall d r s, region_ret_ratio c = Some d -> (r, s) ∈ d ->
      exists x, s !! i = Some x /\
        embeds clause (str_int r +:+ " " +:+ str_num x).
Proof.
  intros Hi. unfold region_clause.
  destruct (region_ret_ratio c) as [d|] eqn:Ed.
  - assert (Hall : Forall (fun s => length s = length (Years c)) (snd <$> d)).
    { apply Forall_forall. intros s Hs. apply series_length.
      unfold stored_series. rewrite Ed. simpl.
      rewrite !elem_of_app. auto. }
    destruct (region_items_Ok year i d Hi Hall) as (items & Hitems & Hin).
    destruct d as [|p d].
    + exists EmptyString. split; [reflexivity|].
      intros ? r s [= <-] Hel. by apply elem_of_nil in Hel.
    + rewrite Hitems, bind_ret. eexists. split; [reflexivity|].
      intros ? r s [= <-] Hel. destruct (Hin r s Hel) as (x & Hx & Hel').
      exists x. split; [exact Hx|].
      do 4 apply embeds_app_r. apply embeds_app_l.
      by apply embeds_join.
  - exists EmptyString. split; [reflexivity|]. discriminate.
Qed.

Hypothesis Hread : readable c files.

Lemma read_template :
  exists text, read_text files (Template c) = Ok text.
Proof.
  destruct (rd_template c files Hread) as [f Hf].
  unfold read_text, file_text. rewrite Hf. destruct f; by eexists.
Qed.

Lemma produce_custom_costs_Ok (year : Z) :
  exists s, produce_custom_costs c year files = Ok s.
Proof.
  unfold produce_custom_costs. destruct (custom_costs c) as [p|] eqn:E.
  - destruct (rd_costs c files Hread p E) as (text & t & -> & Ht).
    rewrite bind_ret, Ht, bind_ret. by eexists.
  - by eexists.
Qed.

Lemma produce_exogenous_capacity_Ok (year : Z) (i : nat) :
  index year (Years c) = Some i ->
  exists s, produce_exogenous_capacity c year files = Ok s.
Proof.
  intros Hi. unfold produce_exogenous_capacity.
  destruct (exogenous_capacity c) as [p|] eqn:E.
  - destruct (rd_capacity c files Hread p E) as (text & t & -> & Ht).
    rewrite bind_ret, Ht, bind_ret, (year_index_Ok _ _ Hi), bind_ret.
    destruct i as [|j].
    + destruct (year_before_O _ Hi) as (z & _ & ->).
      rewrite bind_ret. by eexists.
    + destruct (year_before_S _ _ Hi) as (z & _ & ->).
      rewrite bind_ret. by eexists.
  - by eexists.
Qed.

End TemplateFacts.

Section TemplateText.
Context `{L : Libs}.
Variables (c : SolveTemplate) (files : fs).
Hypothesis Hacc : accepted c.
Hypothesis Hread : readable c files.

Ltac stored_length :=
  intros d E; apply (series_length c Hacc); unfold stored_series;
  rewrite E; simpl;
  repeat (rewrite elem_of_app || rewrite elem_of_cons); auto 10.

Lemma cost_emit_length :
  forall d, cost_emit c = Some d -> length d = length (Years c).
Proof. stored_length. Qed.
Lemma nem_ret_ratio_length :
  forall d, nem_ret_ratio c = Some d -> length d = length (Years c).
Proof. stored_length. Qed.
Lemma nem_ret_gwh_length :
  forall d, nem_ret_gwh c = Some d -> length d = length (Years c).
Proof. stored_length. Qed.
Lemma emitlimit_length :
  forall d, emitlimit c = Some d -> length d = length (Years c).
Proof. stored_length. Qed.
Lemma nem_disp_ratio_length :
  forall d, nem_disp_ratio c = Some d -> length d = length (Years c).
Proof. stored_length. Qed.
Lemma nem_re_disp_ratio_length :
  forall d, nem_re_disp_ratio c = Some d -> length d = length (Years c).
Proof. stored_length. Qed.

(** The template of a configured year is produced, and it is the body of
    the template file followed by the clauses, in this order. *)
Lemma year_template_text_Ok (year : Z) (test : bool) (i : nat) :
  index year (Years c) = Some i ->
  exists body custom exo cemit carry ret_ratio ret_gwh region limit disp
         re_disp,
    year_template_text c year test files =
      Ok (body +:+ custom +:+ exo +:+ fcr_text c +:+ cemit +:+ carry
          +:+ ret_ratio +:+ ret_gwh +:+ region +:+ limit +:+ disp
          +:+ re_disp) /\
    carry_forward_cap_costs c year = Ok carry /\
    produce_exogenous_capacity c year files = Ok exo /\
    policy_clause c year (cost_emit c) cost_emit_text = Ok cemit /\
    policy_clause c year (nem_ret_ratio c) nem_ret_ratio_text = Ok ret_ratio /\
    policy_clause c year (nem_ret_gwh c) nem_ret_gwh_text = Ok ret_gwh /\
    region_clause c year = Ok region /\
    policy_clause c year (emitlimit c) emitlimit_text = Ok limit /\
    policy_clause c year (nem_disp_ratio c) nem_disp_ratio_text = Ok disp /\
    policy_clause c year (nem_re_disp_ratio c) nem_re_disp_ratio_text
      = Ok re_disp.
Proof.
  intros Hi.
  pose proof (year_in_range c Hacc _ _ Hi) as [Hlo Hhi].
  destruct (carryforwardcap_Ok c year i Hi) as (opcap0 & Hop).
  destruct (carry_forward_cap_costs_Ok c year i Hi) as (carry & Hcarry).
  destruct (produce_custom_costs_Ok c files Hread year) as (custom & Hcustom).
  destruct (produce_exogenous_capacity_Ok c files Hread year i Hi)
    as (exo & Hexo).
  destruct (policy_clause_Ok c year i (cost_emit c) cost_emit_text Hi
              cost_emit_length) as (cemit & Hcemit & _).
  destruct (policy_clause_Ok c year i (nem_ret_ratio c) nem_ret_ratio_text Hi
              nem_ret_ratio_length) as (ret_ratio & Hret_ratio & _).
  destruct (policy_clause_Ok c year i (nem_ret_gwh c) nem_ret_gwh_text Hi
              nem_ret_gwh_length) as (ret_gwh & Hret_gwh & _).
  destruct (region_clause_Ok c Hacc year i Hi) as (region & Hregion & _).
  destruct (policy_clause_Ok c year i (emitlimit c) emitlimit_text Hi
              emitlimit_length) as (limit & Hlimit & _).
  destruct (policy_clause_Ok c year i (nem_disp_ratio c) nem_disp_ratio_text
              Hi nem_disp_ratio_length) as (disp & Hdisp & _).
  destruct (policy_clause_Ok c year i (nem_re_disp_ratio c)
              nem_re_disp_ratio_text Hi nem_re_disp_ratio_length)
    as (re_disp & Hre_disp & _).
  destruct (read_template c files Hread) as (fin & Hfin).
  assert (Hprev : exists prevyear,
             match i with O => Ok 2017 | S _ => year_before c i end
             = Ok prevyear).
  { destruct i as [|j]; [by eexists|].
    destruct (year_before_S c year j Hi) as (p & _ & ->). by eexists. }
  destruct Hprev as (prevyear & Hprev).
  assert (Hd2 : exists date2,
             (if test then str_datetime (year - 1) "-07-03 23:00:00"
              else Ok (zfill4 (str_int year) +:+ "-06-30 23:00:00"))
             = Ok date2).
  { destruct test; [|by eexists].
    rewrite (str_datetime_Ok (year - 1)) by (unfold in_range in *; lia).
    by eexists. }
  destruct Hd2 as (date2 & Hd2).
  eexists _, custom, exo, cemit, carry, ret_ratio, ret_gwh, region, limit,
    disp, re_disp.
  split; [|by repeat split].
  unfold year_template_text.
  rewrite (str_datetime_Ok (year - 1) "-07-01 00:00:00")
    by (unfold in_range in *; lia).
  rewrite bind_ret.
  rewrite (str_datetime_Ok year "-06-30 23:00:00")
    by (unfold in_range in *; lia).
  rewrite bind_ret.
  rewrite Hd2, bind_ret.
  rewrite Hop, bind_ret, Hcarry, bind_ret, Hcustom, bind_ret, Hexo, bind_ret.
  rewrite Hcemit, bind_ret, Hret_ratio, bind_ret, Hret_gwh, bind_ret.
  rewrite Hregion, bind_ret, Hlimit, bind_ret, Hdisp, bind_ret.
  rewrite Hre_disp, bind_ret, (year_index_Ok _ _ _ Hi), bind_ret.
  rewrite Hprev, bind_ret, Hfin, bind_ret.
  reflexivity.
Qed.

End TemplateText.

Section Accepted.
Context `{L : Libs}.
Variables (files : fs) (cfgfile_ solver_ : string) (log_ : bool)
  (tmpdir_ : string).

(** The constructor establishes the invariant. *)
Lemma init_accepted (c : SolveTemplate) :
  init files cfgfile_ solver_ log_ tmpdir_ = Ok c -> accepted c.
Proof.
  intros Hi.
  apply init_Ok in Hi as (_ & config & y & _ & _ & _ & Hs & Hf & Hst & _).
  pose proof (set_Years_length _ _ Hs) as Hlen.
  apply set_Years_Ok in Hs as (Hne & Hs & Hr).
  destruct (sorted_spec y) as [Hsorted Hperm].
  split.
  - intros Hnil. rewrite Hnil in Hlen. by destruct y.
  - by rewrite Hs.
  - by rewrite Hs, Hperm.
  - by rewrite Hst.
Qed.

Lemma isfile_Some (a : string) (fl : fs) :
  negb (isfile fl a) = false -> is_Some (fl !! a).
Proof. unfold isfile. destruct (fl !! a); [by eexists|discriminate]. Qed.

Lemma set_Template_Ok (fl : fs) (a out : string) :
  set_Template fl a = Ok out -> out = a /\ is_Some (fl !! a).
Proof.
  unfold set_Template. destruct (negb (isfile fl a)) eqn:E; [discriminate|].
  intros [= <-]. split; [reflexivity|by apply isfile_Some].
Qed.

Lemma set_custom_costs_Ok (fl : fs) (a out : option string) :
  set_custom_costs fl a = Ok out ->
  out = a /\ forall p, a = Some p -> is_Some (fl !! p).
Proof.
  unfold set_custom_costs. destruct a as [p|].
  - destruct (negb (isfile fl p)) eqn:E; [discriminate|].
    intros [= <-]. split; [reflexivity|].
    intros ? [= <-]. by apply isfile_Some.
  - intros [= <-]. split; [reflexivity|discriminate].
Qed.

Lemma set_exogenous_capacity_Ok (fl : fs) (a out : option string) :
  set_exogenous_capacity fl a = Ok out ->
  out = a /\ forall p, a = Some p -> is_Some (fl !! p).
Proof.
  unfold set_exogenous_capacity. destruct a as [p|].
  - destruct (negb (isfile fl p)) eqn:E; [discriminate|].
    intros [= <-]. split; [reflexivity|].
    intros ? [= <-]. by apply isfile_Some.
  - intros [= <-]. split; [reflexivity|discriminate].
Qed.

(** The constructor has seen the input files. *)
Lemma init_files (c : SolveTemplate) :
  init files cfgfile_ solver_ log_ tmpdir_ = Ok c ->
  is_Some (files !! Template c) /\
  (forall p, custom_costs c = Some p -> is_Some (files !! p)) /\
  (forall p, exogenous_capacity c = Some p -> is_Some (files !! p)).
Proof.
  unfold init. intros H.
  destruct (files !! cfgfile_) as [f|] eqn:Ef; [|discriminate].
  bind_inv H. injection H as <-. simpl.
  repeat match goal with
    | H : set_Template _ _ = Ok _ |- _ =>
        apply set_Template_Ok in H as [-> ?]
    | H : set_custom_costs _ _ = Ok _ |- _ =>
        apply set_custom_costs_Ok in H as [-> ?]
    | H : set_exogenous_capacity _ _ = Ok _ |- _ =>
        apply set_exogenous_capacity_Ok in H as [-> ?]
    end.
  auto.
Qed.

End Accepted.

(** With the libraries of the concrete scenario every table parses, so the
    object the constructor returns can read its inputs. *)
Lemma demo_readable files cfgfile_ solver_ log_ tmpdir_ c :
  init (L := Demo.libs) files cfgfile_ solver_ log_ tmpdir_ = Ok c ->
  readable (L := Demo.libs) c files.
Proof.
  intros Hi. apply init_files in Hi as (Ht & Hc & He).
  assert (Hrd : forall p, is_Some (files !! p) ->
            exists text, file_text (L := Demo.libs) files p = Ok text).
  { intros p [f Hf]. unfold file_text. rewrite Hf. destruct f; by eexists. }
  split; [exact Ht|..]; intros p Hp.
  - destruct (Hrd p (Hc p Hp)) as [text ->]. by eexists _, _.
  - destruct (Hrd p (He p Hp)) as [text ->]. by eexists _, _.
  - destruct (Hrd p (Hc p Hp)) as [text ->]. by eexists _, _.
  - destruct (Hrd p (He p Hp)) as [text ->]. by eexists _, _.
Qed.

Lemma clause_embedded `{L : Libs} c (Hacc : accepted c) year i series before
  clause text :
  index year (Years c) = Some i ->
  (forall d, series = Some d -> length d = length (Years c)) ->
  policy_clause c year series before = Ok clause ->
  embeds text clause ->
  forall d, series = Some d ->
    exists x, d !! i = Some x /\
      embeds text (before +:+ str_num x +:+ ";" +:+ nl).
Proof.
  intros Hi Hlen Hc Hemb d Hd.
  destruct (policy_clause_Ok c year i series before Hi Hlen)
    as (s & Hs & Hval).
  rewrite Hc in Hs. injection Hs as <-.
  destruct (Hval d Hd) as (x & Hx & ->). by exists x.
Qed.

(** C3: the template generated for a configured year holds, for every
    policy series that is configured, the element of the series at the
    position the year has in the sorted years list: [i] is
    [Years.index(year)] and the value after each parameter name is
    [series[i]], also for each region of the regional ratios.  With years
    [2030, 2040] and nem_ret_ratio [0.1, 0.5] the template for 2040 holds
    the statement of nem_ret_ratio with the value 0.5. *)
Theorem policy_values_by_position `{L : Libs} c files year test i :
  accepted c -> readable c files ->
  index year (Years c) = Some i ->
  exists text,
    year_template_text c year test files = Ok text /\
    (forall d, cost_emit c = Some d -> exists x, d !! i = Some x /\
       embeds text (cost_emit_text +:+ str_num x +:+ ";" +:+ nl)) /\
    (forall d, nem_ret_ratio c = Some d -> exists x, d !! i = Some x /\
       embeds text (nem_ret_ratio_text +:+ str_num x +:+ ";" +:+ nl)) /\
    (forall d, nem_ret_gwh c = Some d -> exists x, d !! i = Some x /\
       embeds text (nem_ret_gwh_text +:+ str_num x +:+ ";" +:+ nl)) /\
    (forall d r s, region_ret_ratio c = Some d -> (r, s) ∈ d ->
       exists x, s !! i = Some x /\
         embeds text (str_int r +:+ " " +:+ str_num x)) /\
    (forall d, emitlimit c = Some d -> exists x, d !! i = Some x /\
       embeds text (emitlimit_text +:+ str_num x +:+ ";" +:+ nl)) /\
    (forall d, nem_disp_ratio c = Some d -> exists x, d !! i = Some x /\
       embeds text (nem_disp_ratio_text +:+ str_num x +:+ ";" +:+ nl)) /\
    (forall d, nem_re_disp_ratio c = Some d -> exists x, d !! i = Some x /\
       embeds text (nem_re_disp_ratio_text +:+ str_num x +:+ ";" +:+ nl)) /\
    (Years c = [2030; 2040] -> year = 2040 ->
     nem_ret_ratio c = Some [PyFloat lit_0_1; PyFloat lit_0_5] ->
     embeds text (nem_ret_ratio_text +:+ str_float lit_0_5 +:+ ";" +:+ nl)).
Proof.
  intros Hacc Hread Hi.
  destruct (year_template_text_Ok c files Hacc Hread year test i Hi)
    as (body & custom & exo & cemit & carry & ret_ratio & ret_gwh & region
        & limit & disp & re_disp & Htext & _ & _ & Hcemit & Hret_ratio
        & Hret_gwh & Hregion & Hlimit & Hdisp & Hre_disp).
  eexists. split; [exact Htext|].
  assert (Hratio : forall d, nem_ret_ratio c = Some d ->
            exists x, d !! i = Some x /\
              embeds (body +:+ custom +:+ exo +:+ fcr_text c +:+ cemit
                      +:+ carry +:+ ret_ratio +:+ ret_gwh +:+ region
                      +:+ limit +:+ disp +:+ re_disp)
                (nem_ret_ratio_text +:+ str_num x +:+ ";" +:+ nl)).
  { eapply (clause_embedded c Hacc); eauto using nem_ret_ratio_length.
    solve_embeds. }
  repeat split.
  - eapply (clause_embedded c Hacc); eauto using cost_emit_length.
    solve_embeds.
  - exact Hratio.
  - eapply (clause_embedded c Hacc); eauto using nem_ret_gwh_length.
    solve_embeds.
  - intros d r s Hd Hin.
    destruct (region_clause_Ok c Hacc year i Hi) as (clause & Hc & Hval).
    rewrite Hregion in Hc. injection Hc as <-.
    destruct (Hval d r s Hd Hin) as (x & Hx & (pre & post & Hemb)).
    exists x. split; [exact Hx|].
    rewrite Hemb. do 8 apply embeds_app_r. apply embeds_app_l.
    solve_embeds.
  - eapply (clause_embedded c Hacc); eauto using emitlimit_length.
    solve_embeds.
  - eapply (clause_embedded c Hacc); eauto using nem_disp_ratio_length.
    solve_embeds.
  - eapply (clause_embedded c Hacc); eauto using nem_re_disp_ratio_length.
    solve_embeds.
  - intros Hy -> Hd. rewrite Hy in Hi. injection Hi as <-.
    destruct (Hratio _ Hd) as (x & Hx & Hemb).
    injection Hx as <-. exact Hemb.
Qed.

Lemma policy_values_by_position_witness :
  exists c text,
    init (L := Demo.libs) (Demo.files_with "ret") "scenario.cfg" "cbc" false
      "/tmp/x/" = Ok c /\
    Years c = [2030; 2040] /\
    nem_ret_ratio c = Some [PyFloat lit_0_1; PyFloat lit_0_5] /\
    year_template_text (L := Demo.libs) c 2040 false (Demo.files_with "ret")
      = Ok text /\
    embeds text
      (nem_ret_ratio_text +:+ str_float (Libs := Demo.libs) lit_0_5 +:+ ";"
       +:+ nl).
Proof.
  destruct (init (L := Demo.libs) (Demo.files_with "ret") "scenario.cfg"
              "cbc" false "/tmp/x/") as [c|e] eqn:Hi;
    [|vm_compute in Hi; discriminate].
  pose proof (init_accepted _ _ _ _ _ _ Hi) as Hacc.
  pose proof (demo_readable _ _ _ _ _ _ Hi) as Hread.
  assert (Hy : Years c = [2030; 2040])
    by (vm_compute in Hi; injection Hi as <-; reflexivity).
  assert (Hd : nem_ret_ratio c = Some [PyFloat lit_0_1; PyFloat lit_0_5])
    by (vm_compute in Hi; injection Hi as <-; reflexivity).
  assert (Hidx : index 2040 (Years c) = Some 1%nat)
    by (rewrite Hy; reflexivity).
  destruct (policy_values_by_position (L := Demo.libs) c
              (Demo.files_with "ret") 2040 false 1 Hacc Hread Hidx)
    as (text & Htext & _ & _ & _ & _ & _ & _ & _ & Hex).
  exists c, text. repeat split; try assumption.
  exact (Hex Hy eq_refl Hd).
Defined.

(** ** Determinism of template generation *)

Section Determinism.
Context `{L : Libs}.
Variables (c : SolveTemplate) (files1 files2 : fs).
Hypothesis Htemplate : files1 !! Template c = files2 !! Template c.
Hypothesis Hcosts :
  forall p, custom_costs c = Some p -> files1 !! p = files2 !! p.
Hypothesis Hcapacity :
  forall p, exogenous_capacity c = Some p -> files1 !! p = files2 !! p.






End Determinism.




Lemma required_Ok {A} (key : string) (o : option A) (v : A) :
  required key o = Ok v -> o = Some v.
Proof. destruct o; simpl; congruence. Qed.

Lemma set_discountrate_same `{L : Libs} (data out : string) :
  set_discountrate data = Ok out -> out = data.
Proof.
  unfold set_discountrate. destruct (float_of_string data); [|discriminate].
  destruct (_ || _); [discriminate|]. by intros [= <-].
Qed.






(** ** Exogenous capacity *)

Lemma select_capacity_spec c prevyear year key capacity r :
  r ∈ select_capacity c prevyear year key capacity <->
  r ∈ capacity /\ prevyear < er_year r <= year /\ er_name r = key /\
  er_tech r ∈ all_tech c /\ er_zone r ∈ zones c.
Proof.
  unfold select_capacity. rewrite list_elem_of_filter.
  rewrite !andb_true_iff, !bool_decide_eq_true, Z.ltb_lt, Z.leb_le,
    String.eqb_eq.
  tauto.
Qed.

Section Exogenous.
Context `{L : Libs}.
Variables (c : SolveTemplate) (files : fs).

(** For a year after the first the blocks hold the rows of the table of
    the years after the preceding configured year, up to the year. *)
Lemma produce_exogenous_capacity_later year j prev path text capacity :
  index year (Years c) = Some (S j) ->
  Years c !! j = Some prev ->
  exogenous_capacity c = Some path ->
  file_text files path = Ok text ->
  read_csv_capacity text = Ok capacity ->
  produce_exogenous_capacity c year files =
    Ok (fold_left
          (fun out key => out +:+ capacity_block c prev year capacity key)
          exo_keywords nl).
Proof.
  intros Hi Hp He Ht Hc. unfold produce_exogenous_capacity.
  rewrite He, Ht, bind_ret, Hc, bind_ret, (year_index_Ok _ _ _ Hi), bind_ret.
  unfold year_before. simpl. by rewrite Hp.
Qed.

(** For the first year the code takes the last configured year as the
    preceding one, and no row of the table is at once after the last year
    and up to the first: the block is empty, whatever the table holds. *)
Lemma produce_exogenous_capacity_first year path text capacity :
  accepted c ->
  index year (Years c) = Some O ->
  exogenous_capacity c = Some path ->
  file_text files path = Ok text ->
  read_csv_capacity text = Ok capacity ->
  produce_exogenous_capacity c year files = Ok nl.
Proof.
  intros Hacc Hi He Ht Hc. unfold produce_exogenous_capacity.
  rewrite He, Ht, bind_ret, Hc, bind_ret, (year_index_Ok _ _ _ Hi), bind_ret.
  destruct (year_before_O c year Hi) as (final & Hlast & ->).
  rewrite bind_ret. f_equal.
  assert (Hle : year <= final).
  { apply index_Some in Hi as [Hhd _].
    pose proof (acc_sorted c Hacc) as Hs.
    apply (Sorted_StronglySorted Z.le _) in Hs.
    destruct (Years c) as [|y l]; [discriminate|].
    injection Hhd as ->.
    apply StronglySorted_cons in Hs as [Hall _].
    apply last_Some_elem_of in Hlast.
    apply elem_of_cons in Hlast as [->|Hin]; [lia|].
    rewrite Forall_forall in Hall. by apply Hall. }
  assert (Hempty : forall key,
            capacity_block c final year capacity key = EmptyString).
  { intros key. unfold capacity_block.
    destruct (select_capacity c final year key capacity) as [|r l] eqn:E;
      [reflexivity|].
    assert (Hr : r ∈ select_capacity c final year key capacity)
      by (rewrite E; left).
    apply select_capacity_spec in Hr as (_ & Hy & _). lia. }
  simpl. by rewrite !Hempty.
Qed.

End Exogenous.

(** C2 at a failing input: years [2020, 2022], and a table with the row
    (gen_cap_exo, tech 1, zone 1, year 2020, value 100), whose category,
    technology and zone are configured and whose year is the first year:
    the block written for 2020 is empty. *)
Theorem exogenous_first_year_dropped :
  exists c r,
    init (L := Demo.libs) (Demo.files_with "two years") "scenario.cfg" "cbc"
      false "/tmp/x/" = Ok c /\
    Years c = [2020; 2022] /\
    read_csv_capacity (Libs := Demo.libs) "name,tech,zone,year,value"
      = Ok Demo.capacity_rows /\
    r ∈ Demo.capacity_rows /\
    er_name r ∈ exo_keywords /\
    er_tech r ∈ all_tech c /\
    er_zone r ∈ zones c /\
    er_year r = 2020 /\
    produce_exogenous_capacity (L := Demo.libs) c 2020
      (Demo.files_with "two years") = Ok nl.
Proof.
  destruct (init (L := Demo.libs) (Demo.files_with "two years")
              "scenario.cfg" "cbc" false "/tmp/x/") as [c|e] eqn:Hi;
    [|vm_compute in Hi; discriminate].
  exists c,
    {| er_name := "gen_cap_exo"; er_tech := 1; er_zone := 1; er_year := 2020;
       er_value := PyInt 100 |}.
  split; [reflexivity|].
  vm_compute in Hi. injection Hi as <-.
  split; [reflexivity|]. split; [reflexivity|].
  split; [left|]. split; [left|]. split; [left|]. split; [left|].
  split; reflexivity.
Qed.

(** ** The paths of the artifacts *)

Lemma length_app (a b : string) :
  String.length (a +:+ b) = (String.length a + String.length b)%nat.
Proof.
  induction a as [|ch a IH]; [reflexivity|].
  rewrite app_cons. simpl. by rewrite IH.
Qed.

Lemma app_inj_r (a b s : string) : a +:+ s = b +:+ s -> a = b.
Proof.
  revert b. induction a as [|ch a IH]; intros [|ch' b] H.
  - reflexivity.
  - apply (f_equal String.length) in H.
    rewrite app_cons in H. simpl in H. rewrite !length_app in H.
    simpl in H. lia.
  - apply (f_equal String.length) in H.
    rewrite app_cons in H. simpl in H. rewrite !length_app in H.
    simpl in H. lia.
  - rewrite !app_cons in H. injection H as -> H. f_equal. by apply IH.
Qed.

Lemma pretty_N_char_letter (d : N) :
  pretty_N_char d <> "S"%char /\ pretty_N_char d <> "g"%char.
Proof. unfold pretty_N_char. split; repeat case_match; discriminate. Qed.

Lemma pretty_N_go_head (x : N) (s : string) :
  (0 < x)%N ->
  exists d rest, pretty_N_go x s = String (pretty_N_char d) rest.
Proof.
  revert s. induction (N.lt_wf_0 x) as [x _ IH]; intros s Hx.
  rewrite pretty_N_go_step by done.
  destruct (decide (x `div` 10 = 0)%N) as [->|Hne].
  - rewrite pretty_N_go_0. by eexists _, _.
  - apply IH; [by apply N.div_lt|by apply N.neq_0_lt_0].
Qed.

(** [str(i)] starts with a digit or a minus sign. *)
Lemma str_int_head (z : Z) :
  exists ch rest, str_int z = String ch rest /\
    ch <> "S"%char /\ ch <> "g"%char.
Proof.
  destruct z as [|p|p].
  - exists "0"%char, EmptyString. by repeat split.
  - unfold str_int, pretty, pretty_Z, pretty, pretty_positive, pretty,
      pretty_N.
    destruct (decide (N.pos p = 0)%N); [discriminate|].
    destruct (pretty_N_go_head (N.pos p) EmptyString) as (d & rest & ->);
      [lia|].
    exists (pretty_N_char d), rest.
    split; [reflexivity|apply pretty_N_char_letter].
  - exists "-"%char, (pretty p). by repeat split.
Qed.

Section Paths.
Variable c : SolveTemplate.

Lemma dcfName_inside y : dcfName c y = tmpdir c +:+ ("Sim" +:+ str_int y +:+ ".dat").
Proof. reflexivity. Qed.

Lemma year_json_path_inj y y' :
  year_json_path c y = year_json_path c y' -> y = y'.
Proof.
  unfold year_json_path. intros H.
  apply (inj (String.app _)) in H. apply app_inj_r in H.
  by apply (inj pretty) in H.
Qed.

Lemma gen_cap_op_path_inj y y' :
  gen_cap_op_path c y = gen_cap_op_path c y' -> y = y'.
Proof.
  unfold gen_cap_op_path. intros H.
  apply (inj (String.app _)) in H. apply (inj (String.app _)) in H.
  apply app_inj_r in H. by apply (inj pretty) in H.
Qed.

Lemma year_json_not_dcf y y' : year_json_path c y <> dcfName c y'.
Proof.
  unfold year_json_path, dcfName. intros H.
  apply (inj (String.app _)) in H.
  destruct (str_int_head y) as (ch & rest & Hy & HS & _).
  rewrite Hy, app_cons in H. injection H as H _. by rewrite H in HS.
Qed.

Lemma year_json_not_gen_cap_op y y' :
  year_json_path c y <> gen_cap_op_path c y'.
Proof.
  unfold year_json_path, gen_cap_op_path. intros H.
  apply (inj (String.app _)) in H.
  destruct (str_int_head y) as (ch & rest & Hy & _ & Hg).
  rewrite Hy, app_cons in H. injection H as H _. by rewrite H in Hg.
Qed.

Lemma gen_cap_op_not_dcf y y' : gen_cap_op_path c y <> dcfName c y'.
Proof.
  unfold gen_cap_op_path, dcfName. intros H.
  apply (inj (String.app _)) in H. discriminate H.
Qed.

Lemma outside_dcf p y : outside c p -> p <> dcfName c y.
Proof. intros H. apply H. Qed.

Lemma outside_year_json p y : outside c p -> p <> year_json_path c y.
Proof. intros H. apply H. Qed.

Lemma outside_gen_cap_op p y : outside c p -> p <> gen_cap_op_path c y.
Proof. intros H. apply H. Qed.

End Paths.

(** ** The sequential solve *)

Lemma for_each_Ok {A S} (body : S -> A -> result S) (l : list A) (st : S) :
  (forall st x, x ∈ l -> exists st', body st x = Ok st') ->
  exists st', for_each body l st = Ok st'.
Proof.
  revert st. induction l as [|x l IH]; intros st Hbody; [by eexists|].
  simpl. destruct (Hbody st x) as [st1 ->]; [left|].
  rewrite bind_ret. apply IH. intros st' x' Hin. apply Hbody. by right.
Qed.

Section Loop.
Context `{L : Libs}.
Variable c : SolveTemplate.
Hypothesis Hacc : accepted c.
Hypothesis Hout : inputs_outside c.
Hypothesis Hext : externals_succeed c.

(** Writes into the working directory leave the inputs readable. *)
Lemma readable_frame (files files' : fs) :
  readable c files ->
  (forall p, outside c p -> files' !! p = files !! p) ->
  readable c files'.
Proof.
  intros Hr Hframe.
  assert (Hrt : forall p, outside c p ->
            file_text files' p = file_text files p).
  { intros p Hp. unfold file_text. by rewrite (Hframe p Hp). }
  split.
  - rewrite (Hframe _ (out_template c Hout)). apply (rd_template c files Hr).
  - intros p Hp. rewrite (Hrt p (out_costs c Hout p Hp)).
    by apply (rd_costs c files Hr).
  - intros p Hp. rewrite (Hrt p (out_capacity c Hout p Hp)).
    by apply (rd_capacity c files Hr).
  - intros p Hp. rewrite (Hrt p (out_costs c Hout p Hp)).
    by apply (rd_costs_meta c files Hr).
  - intros p Hp. rewrite (Hrt p (out_capacity c Hout p Hp)).
    by apply (rd_capacity_meta c files Hr).
Qed.

Lemma solve_year_Ok (files : fs) (y : Z) (i : nat) :
  readable c files ->
  index y (Years c) = Some i ->
  exists text inst final,
    year_template_text c y false files = Ok text /\
    last (Years c) = Some final /\
    solve_year c files y = Ok (after_year c files y final text inst).
Proof.
  intros Hr Hi.
  destruct (year_template_text_Ok c files Hacc Hr y false i Hi)
    as (body & custom & exo & cemit & carry & ret_ratio & ret_gwh & region
        & limit & disp & re_disp & Htext & _).
  assert (Hlast : exists final, last (Years c) = Some final).
  { apply index_lt in Hi. destruct (last (Years c)) as [z|] eqn:El;
      [by eexists|].
    apply last_None in El. rewrite El in Hi. simpl in Hi. lia. }
  destruct Hlast as (final & Hlast).
  unfold solve_year, generateyeartemplate.
  rewrite Htext, !bind_ret. simpl.
  match goal with
  | |- context [create_instance ?a ?b ?d ?f] =>
      pose proof (ext_create c Hext a d f) as Hc;
      destruct (create_instance a b d f) as [inst0|] eqn:Ec; [|destruct Hc]
  end.
  rewrite bind_ret.
  assert (Hcl : exists inst1,
            (if truthy (cluster c)
             then
               run_cluster inst0 (cluster_max_d c) (dcfName c y) (options c)
                 (solver c) (log c)
                 (<[dcfName c y := FText
                      (body +:+ custom +:+ exo +:+ fcr_text c +:+ cemit
                       +:+ carry +:+ ret_ratio +:+ ret_gwh +:+ region
                       +:+ limit +:+ disp +:+ re_disp)]> files)
               ≫= (fun ccap => setinstancecapacity inst0 ccap)
             else Ok inst0) = Ok inst1).
  { destruct (truthy (cluster c)) eqn:Et; [|by eexists].
    destruct (ext_cluster c Hext Et inst0 (dcfName c y)
                (<[dcfName c y := FText
                     (body +:+ custom +:+ exo +:+ fcr_text c +:+ cemit
                      +:+ carry +:+ ret_ratio +:+ ret_gwh +:+ region
                      +:+ limit +:+ disp +:+ re_disp)]> files))
      as (ccap & -> & Hs).
    rewrite bind_ret.
    destruct (setinstancecapacity inst0 ccap); [by eexists|destruct Hs]. }
  destruct Hcl as (inst1 & ->). rewrite bind_ret.
  pose proof (ext_solve c Hext inst1) as Hs.
  destruct (opt_solve (solver c) (log c) inst1) as [inst|]; [|destruct Hs].
  rewrite bind_ret, Hlast, bind_ret.
  by eexists _, inst, final.
Qed.

Lemma after_year_frame files y final text inst p :
  p <> dcfName c y -> p <> year_json_path c y ->
  (p = gen_cap_op_path c y -> final = y) ->
  after_year c files y final text inst !! p = files !! p.
Proof.
  intros Hd Hj Hg. unfold after_year.
  rewrite lookup_insert_ne by done.
  destruct (Z.eqb_spec y final) as [->|Hne]; simpl.
  - by rewrite lookup_insert_ne.
  - rewrite lookup_insert_ne; [by rewrite lookup_insert_ne|].
    intros Heq. symmetry in Heq. apply Hg in Heq. congruence.
Qed.

Lemma after_year_outside files y final text inst p :
  outside c p -> after_year c files y final text inst !! p = files !! p.
Proof.
  intros Hp. apply after_year_frame.
  - by apply outside_dcf.
  - by apply outside_year_json.
  - intros ->. by destruct (outside_gen_cap_op c _ y Hp).
Qed.

(** The loop of [solve] over a list of configured years: it completes;
    it changes no path other than the templates and results of these years
    and the carry-forward artifacts of those that are not the last; the
    result of each year is stored, and the carry-forward artifact of each
    year that is not the last. *)
Lemma solve_years_Ok (l : list Z) :
  forall files,
    (forall y, y ∈ l -> y ∈ Years c) ->
    readable c files ->
    exists after,
      for_each (solve_year c) l files = Ok after /\
      (forall p,
         (forall y, y ∈ l ->
            p <> dcfName c y /\ p <> year_json_path c y /\
            (p = gen_cap_op_path c y -> last (Years c) = Some y)) ->
         after !! p = files !! p) /\
      (forall y, y ∈ l -> exists inst,
         after !! year_json_path c y = Some (FJson (JObj (jsonify inst)))) /\
      (forall y, y ∈ l -> last (Years c) <> Some y -> exists inst,
         after !! gen_cap_op_path c y
         = Some (FJson (JObj (json_carry_forward_cap inst)))).
Proof.
  induction l as [|y l IH]; intros files Hin Hr.
  - exists files. split; [reflexivity|]. split; [reflexivity|].
    split; intros y Hy; by apply elem_of_nil in Hy.
  - destruct (index_elem y (Years c)) as [i Hi]; [apply Hin; left|].
    destruct (solve_year_Ok files y i Hr Hi)
      as (text & inst & final & _ & Hlast & Hstep).
    set (files1 := after_year c files y final text inst) in *.
    assert (Hr1 : readable c files1).
    { apply (readable_frame files); [exact Hr|].
      intros p Hp. by apply after_year_outside. }
    destruct (IH files1) as (after & Hloop & Hframe & Hjson & Hcarry);
      [intros y' Hy'; apply Hin; by right|exact Hr1|].
    exists after. split; [simpl; by rewrite Hstep, bind_ret|].
    split; [|split].
    + intros p Hp. rewrite Hframe by (intros y' Hy'; apply Hp; by right).
      destruct (Hp y) as (Hd & Hj & Hg); [left|].
      apply after_year_frame; [done..|].
      intros Hpg. specialize (Hg Hpg). congruence.
    + intros y' Hy'. destruct (decide (y' ∈ l)) as [Hl|Hnl]; [by apply Hjson|].
      apply elem_of_cons in Hy' as [->|Hy']; [|done].
      exists inst. rewrite Hframe.
      * unfold files1, after_year. by rewrite lookup_insert_eq.
      * intros y' Hy'. split; [apply year_json_not_dcf|]. split.
        -- intros Heq. apply year_json_path_inj in Heq. by subst.
        -- intros Heq. by destruct (year_json_not_gen_cap_op c _ _ Heq).
    + intros y' Hy' Hnl'.
      destruct (decide (y' ∈ l)) as [Hl|Hnl]; [by apply Hcarry|].
      apply elem_of_cons in Hy' as [->|Hy']; [|done].
      exists inst. rewrite Hframe.
      * unfold files1, after_year.
        rewrite lookup_insert_ne
          by (intros Heq; by destruct (year_json_not_gen_cap_op c _ _ Heq)).
        destruct (Z.eqb_spec y final) as [->|Hne]; [congruence|]. simpl.
        by rewrite lookup_insert_eq.
      * intros y' Hy'. split; [apply gen_cap_op_not_dcf|]. split.
        -- intros Heq. symmetry in Heq.
           by destruct (year_json_not_gen_cap_op c _ _ Heq).
        -- intros Heq. apply gen_cap_op_path_inj in Heq. by subst.
Qed.

(** The metadata and the merge of the stored results. *)
Lemma generate_metadata_Ok (files : fs) :
  readable c files ->
  exists costs capacity,
    table_records files (custom_costs c) = Ok costs /\
    table_records files (exogenous_capacity c) = Ok capacity /\
    exists meta,
      generate_metadata c files = Ok [("meta", JObj meta)] /\
      dict_get "Years" meta
      = Some (JArr ((fun y => JNum (PyInt y)) <$> Years c)).
Proof.
  intros Hr.
  assert (Hc : exists costs, table_records files (custom_costs c) = Ok costs).
  { unfold table_records. destruct (custom_costs c) as [p|] eqn:E;
      [|by eexists].
    destruct (rd_costs_meta c files Hr p E) as (text & t & -> & Ht).
    rewrite bind_ret, Ht. by eexists. }
  assert (He : exists capacity,
            table_records files (exogenous_capacity c) = Ok capacity).
  { unfold table_records. destruct (exogenous_capacity c) as [p|] eqn:E;
      [|by eexists].
    destruct (rd_capacity_meta c files Hr p E) as (text & t & -> & Ht).
    rewrite bind_ret, Ht. by eexists. }
  destruct Hc as (costs & Hc). destruct He as (capacity & He).
  exists costs, capacity. split; [exact Hc|]. split; [exact He|].
  unfold generate_metadata. rewrite Hc, bind_ret, He, bind_ret.
  eexists. split; reflexivity.
Qed.

Lemma merged_report_Ok (files : fs) :
  readable c files ->
  (forall y, y ∈ Years c -> exists inst,
     files !! year_json_path c y = Some (FJson (JObj (jsonify inst)))) ->
  exists data, merged_report c files = Ok data.
Proof.
  intros Hr Hjson.
  destruct (generate_metadata_Ok files Hr)
    as (_ & _ & _ & _ & meta & Hmeta & _).
  unfold merged_report. rewrite Hmeta, bind_ret.
  apply for_each_Ok. intros data y Hy.
  destruct (Hjson y Hy) as (inst & Hinst).
  unfold json_load. rewrite Hinst, bind_ret. by eexists.
Qed.

End Loop.

Lemma sorted_adjacent (l : list Z) (j : nat) (a b : Z) :
  Sorted Z.le l -> l !! j = Some a -> l !! S j = Some b -> a <= b.
Proof.
  revert j. induction l as [|x l IH]; intros j Hs Ha Hb; [discriminate|].
  apply Sorted_inv in Hs as [Hs Hhd].
  destruct j as [|j]; simpl in *.
  - injection Ha as ->. destruct l as [|y l]; [discriminate|].
    injection Hb as ->. by apply HdRel_inv in Hhd.
  - by apply (IH j).
Qed.

(** C4: the template of a year other than the first names the
    carry-forward artifact of the year just before it in the sorted years
    (the element at the preceding position, a strictly earlier year), both
    in the capacity clause and in the capital-cost clause it always writes;
    and a run of [solve] completes, having stored after its loop a
    carry-forward artifact for every configured year but the last, and
    none for the last: that path holds what it held before the run. *)
Theorem carry_forward_chain `{L : Libs} c files :
  accepted c -> readable c files -> inputs_outside c ->
  externals_succeed c ->
  (forall year j, index year (Years c) = Some (S j) ->
     exists prev text,
       Years c !! j = Some prev /\ prev < year /\
       carryforwardcap c year =
         Ok ("load '" +:+ gen_cap_op_path c prev
             +:+ "' : [zones,all_tech] gen_cap_initial stor_cap_initial hyb_cap_initial;") /\
       year_template_text c year false files = Ok text /\
       embeds text
         ("load '" +:+ gen_cap_op_path c prev +:+ "' : cost_cap_carry_forward;
")) /\
  (exists after final data,
     for_each (solve_year c) (Years c) files = Ok after /\
     last (Years c) = Some final /\
     solve c files = Ok (<[report_path c := FJson (JObj data)]> after) /\
     (forall y, y ∈ Years c -> y <> final -> exists inst,
        after !! gen_cap_op_path c y
        = Some (FJson (JObj (json_carry_forward_cap inst)))) /\
     after !! gen_cap_op_path c final = files !! gen_cap_op_path c final).
Proof.
  intros Hacc Hread Hout Hext. split.
  - intros year j Hi.
    destruct (year_before_S c year j Hi) as (prev & Hprev & _).
    destruct (year_template_text_Ok c files Hacc Hread year false _ Hi)
      as (body & custom & exo & cemit & carry & ret_ratio & ret_gwh & region
          & limit & disp & re_disp & Htext & Hcarry & _).
    rewrite (carry_forward_cap_costs_S c year j prev Hi Hprev) in Hcarry.
    injection Hcarry as <-.
    exists prev. eexists. split; [exact Hprev|]. split; [|split; [|split]].
    + pose proof (index_Some _ _ _ Hi) as [Hy Hfirst].
      pose proof (sorted_adjacent _ _ _ _ (acc_sorted c Hacc) Hprev Hy).
      assert (prev <> year) by (intros ->; by apply (Hfirst j); [lia|]).
      lia.
    + by apply carryforwardcap_S with j.
    + exact Htext.
    + do 5 apply embeds_app_r. apply embeds_app_l. apply embeds_app_r.
      apply embeds_refl.
  - destruct (solve_years_Ok c Hacc Hout Hext (Years c) files)
      as (after & Hloop & Hframe & Hjson & Hcarry); [done|exact Hread|].
    assert (Hlast : exists final, last (Years c) = Some final).
    { destruct (last (Years c)) as [z|] eqn:El; [by eexists|].
      apply last_None in El. by destruct (acc_nonempty c Hacc). }
    destruct Hlast as (final & Hlast).
    assert (Hr : readable c after).
    { apply (readable_frame c Hout files); [exact Hread|].
      intros p Hp. apply Hframe. intros y _.
      split; [by apply outside_dcf|]. split; [by apply outside_year_json|].
      intros ->. by destruct (outside_gen_cap_op c _ y Hp). }
    destruct (merged_report_Ok c after Hr Hjson) as (data & Hdata).
    exists after, final, data. split; [exact Hloop|]. split; [exact Hlast|].
    split; [|split].
    + unfold solve, mergejsonyears. by rewrite Hloop, bind_ret, Hdata.
    + intros y Hy Hne. apply Hcarry; [exact Hy|]. congruence.
    + apply Hframe. intros y _. split; [apply gen_cap_op_not_dcf|]. split.
      * intros Heq. symmetry in Heq.
        by destruct (year_json_not_gen_cap_op c _ _ Heq).
      * intros Heq. apply gen_cap_op_path_inj in Heq. by subst.
Qed.

(** With the libraries of the concrete scenario the model builder, the
    clustering step and the solver always return. *)
Lemma demo_externals (c : SolveTemplate) :
  externals_succeed (L := Demo.libs) c.
Proof.
  split.
  - intros y t f. exact I.
  - intros inst. exact I.
  - intros _ inst t f. exists []. split; [reflexivity|exact I].
Qed.

Lemma carry_forward_chain_witness :
  exists c text after,
    init (L := Demo.libs) (Demo.files_with "two years") "scenario.cfg" "cbc"
      false "/tmp/x/" = Ok c /\
    year_template_text (L := Demo.libs) c 2022 false
      (Demo.files_with "two years") = Ok text /\
    embeds text
      ("load '" +:+ gen_cap_op_path c 2020 +:+ "' : cost_cap_carry_forward;
") /\
    for_each (solve_year (L := Demo.libs) c) (Years c)
      (Demo.files_with "two years") = Ok after /\
    is_Some (after !! gen_cap_op_path c 2020) /\
    after !! gen_cap_op_path c 2022 = None.
Proof.
  destruct (init (L := Demo.libs) (Demo.files_with "two years")
              "scenario.cfg" "cbc" false "/tmp/x/") as [c|e] eqn:Hi;
    [|vm_compute in Hi; discriminate].
  pose proof (init_accepted _ _ _ _ _ _ Hi) as Hacc.
  pose proof (demo_readable _ _ _ _ _ _ Hi) as Hread.
  assert (Hy : Years c = [2020; 2022])
    by (vm_compute in Hi; injection Hi as <-; reflexivity).
  assert (Hout : inputs_outside c).
  { vm_compute in Hi. injection Hi as <-.
    split; [intros s H|intros p Hp|intros p Hp].
    - discriminate H.
    - discriminate Hp.
    - injection Hp as <-. intros s H. discriminate H. }
  destruct (carry_forward_chain (L := Demo.libs) c
              (Demo.files_with "two years") Hacc Hread Hout
              (demo_externals c)) as [Htemplate Hsolve].
  destruct (Htemplate 2022 O) as (prev & text & Hprev & _ & _ & Htext & Hemb);
    [by rewrite Hy|].
  rewrite Hy in Hprev. injection Hprev as <-.
  destruct Hsolve as (after & final & data & Hloop & Hlast & _ & Hcarry & Hnone).
  rewrite Hy in Hlast. injection Hlast as <-.
  exists c, text, after. repeat split; try assumption.
  - destruct (Hcarry 2020) as (inst & ->); [rewrite Hy; left|done|].
    by eexists.
  - rewrite Hnone. vm_compute in Hi. injection Hi as <-. reflexivity.
Defined.

(** ** The final report *)

Lemma jsonify_keys `{L : Libs} (inst : instance) :
  dict_keys (jsonify inst) = schema_keys.
Proof. reflexivity. Qed.

(** C7: for the years [2020, 2022], no optional policy series and
    clustering off, a run of [solve] completes and leaves at the path of
    the final report an object whose keys are exactly "meta", "2020" and
    "2022", whose meta block has Years equal to [2020, 2022], and whose
    values for the two years each have the keys sets, params, vars, duals
    and objective_value. *)
Theorem two_year_report `{L : Libs} c files :
  Years c = [2020; 2022] -> no_policies c -> truthy (cluster c) = false ->
  readable c files -> inputs_outside c -> externals_succeed c ->
  exists result report meta r2020 r2022,
    solve c files = Ok result /\
    result !! report_path c = Some (FJson (JObj report)) /\
    dict_keys report = ["meta"; "2020"; "2022"] /\
    dict_get "meta" report = Some (JObj meta) /\
    dict_get "Years" meta
      = Some (JArr [JNum (PyInt 2020); JNum (PyInt 2022)]) /\
    dict_get "2020" report = Some (JObj r2020) /\
    dict_keys r2020 = schema_keys /\
    dict_get "2022" report = Some (JObj r2022) /\
    dict_keys r2022 = schema_keys.
Proof.
  intros Hy (H1 & H2 & H3 & H4 & H5 & H6 & H7) _ Hread Hout Hext.
  assert (Hacc : accepted c).
  { split.
    - by rewrite Hy.
    - rewrite Hy. repeat constructor; lia.
    - rewrite Hy. repeat constructor; unfold in_range; lia.
    - unfold stored_series. rewrite H1, H2, H3, H4, H5, H6, H7.
      constructor. }
  destruct (solve_years_Ok c Hacc Hout Hext (Years c) files)
    as (after & Hloop & Hframe & Hjson & _); [done|exact Hread|].
  assert (Hr : readable c after).
  { apply (readable_frame c Hout files); [exact Hread|].
    intros p Hp. apply Hframe. intros y _.
    split; [by apply outside_dcf|]. split; [by apply outside_year_json|].
    intros ->. by destruct (outside_gen_cap_op c _ y Hp). }
  destruct (generate_metadata_Ok c after Hr)
    as (_ & _ & _ & _ & meta & Hmeta & Hyears).
  destruct (Hjson 2020) as (i1 & Hi1); [rewrite Hy; left|].
  destruct (Hjson 2022) as (i2 & Hi2); [rewrite Hy; right; left|].
  exists (<[report_path c :=
            FJson (JObj [("meta", JObj meta); ("2020", JObj (jsonify i1));
                         ("2022", JObj (jsonify i2))])]> after),
    [("meta", JObj meta); ("2020", JObj (jsonify i1));
     ("2022", JObj (jsonify i2))],
    meta, (jsonify i1), (jsonify i2).
  split.
  { unfold solve, mergejsonyears, merged_report.
    rewrite Hloop, bind_ret, Hmeta, bind_ret, Hy. simpl.
    unfold json_load. rewrite Hi1, bind_ret, Hi2, bind_ret. reflexivity. }
  split; [by rewrite lookup_insert_eq|].
  rewrite Hy in Hyears.
  repeat split; try reflexivity. exact Hyears.
Qed.

Lemma two_year_report_witness :
  exists c result report,
    init (L := Demo.libs) (Demo.files_with "plain") "scenario.cfg" "cbc"
      false "/tmp/x/" = Ok c /\
    solve (L := Demo.libs) c (Demo.files_with "plain") = Ok result /\
    result !! "scenario.json" = Some (FJson (JObj report)) /\
    dict_keys report = ["meta"; "2020"; "2022"].
Proof.
  destruct (init (L := Demo.libs) (Demo.files_with "plain") "scenario.cfg"
              "cbc" false "/tmp/x/") as [c|e] eqn:Hi;
    [|vm_compute in Hi; discriminate].
  pose proof (demo_readable _ _ _ _ _ _ Hi) as Hread.
  assert (Hc : Years c = [2020; 2022] /\ no_policies c /\
               truthy (cluster c) = false /\ inputs_outside c /\
               report_path c = "scenario.json").
  { vm_compute in Hi. injection Hi as <-.
    split; [reflexivity|]. split; [by repeat split|].
    split; [reflexivity|]. split; [|reflexivity].
    split; [intros s H|intros p Hp|intros p Hp]; discriminate. }
  destruct Hc as (Hy & Hnone & Hcl & Hout & Hpath).
  destruct (two_year_report (L := Demo.libs) c (Demo.files_with "plain")
              Hy Hnone Hcl Hread Hout (demo_externals c))
    as (result & report & meta & r2020 & r2022 & Hsolve & Hreport & Hkeys & _).
  exists c, result, report. rewrite <- Hpath. by repeat split.
Defined.

(** * Further properties of the code *)

(** ** Rounding: error and sign *)

Lemma round_half_even_near (y : Q) :
  (- (1 # 2) <= inject_Z (round_half_even y) - y <= 1 # 2)%Q.
Proof.
  unfold round_half_even.
  pose proof (Qfloor_le y) as Hlo. pose proof (Qlt_floor y) as Hhi.
  rewrite inject_Z_plus in Hhi. change (inject_Z 1) with 1%Q in Hhi.
  set (f := Qfloor y) in *. clearbody f.
  destruct (Qcompare_spec (y - inject_Z f) (1 # 2)) as [He|Hl|Hg].
  - destruct (Z.even f).
    + lra.
    + rewrite inject_Z_plus. change (inject_Z 1) with 1%Q. lra.
  - lra.
  - rewrite inject_Z_plus. change (inject_Z 1) with 1%Q. lra.
Qed.

Lemma round_half_even_nonneg (y : Q) : (0 <= y)%Q -> 0 <= round_half_even y.
Proof.
  intros Hy. unfold round_half_even.
  assert (Hf : 0 <= Qfloor y).
  { change 0 with (Qfloor 0). by apply Qfloor_resp_le. }
  destruct (_ ?= _)%Q; [destruct (Z.even _)|..]; lia.
Qed.

Lemma hundredths (n : Z) : (n # 100 == inject_Z n * (1 # 100))%Q.
Proof. unfold Qeq. simpl. lia. Qed.

Lemma pow2_pos (e : Z) : (0 < pow2 e)%Q.
Proof. apply Qpower_0_lt. reflexivity. Qed.

Lemma pow2_add (a b : Z) : (pow2 (a + b) == pow2 a * pow2 b)%Q.
Proof. apply Qpower_plus. discriminate. Qed.

Lemma pow2_le (a b : Z) : a <= b -> (pow2 a <= pow2 b)%Q.
Proof. intros H. apply Qpower_le_compat_l; [exact H|discriminate]. Qed.

Lemma pow2_Z (n : Z) : 0 <= n -> (pow2 n == inject_Z (2 ^ n))%Q.
Proof. intros H. unfold pow2. by rewrite (Zpower_Qpower 2 n H). Qed.

Lemma round_half_even_scaled (a P : Q) :
  (0 < P)%Q ->
  (- (P / 2) <= inject_Z (round_half_even (a / P)) * P - a <= P / 2)%Q.
Proof.
  intros HP. pose proof (round_half_even_near (a / P)) as Hn.
  assert (Ha : (a == a / P * P)%Q) by (field; lra).
  set (y := (a / P)%Q) in *. clearbody y.
  set (m := inject_Z (round_half_even y)) in *. clearbody m.
  assert (Hh : (P / 2 == P * (1 # 2))%Q) by (field; lra).
  rewrite Hh. destruct Hn as [Hn1 Hn2].
  assert (H1 : (0 <= (m - y + (1 # 2)) * P)%Q)
    by (apply Qmult_le_0_compat; lra).
  assert (H2 : (0 <= ((1 # 2) - (m - y)) * P)%Q)
    by (apply Qmult_le_0_compat; lra).
  split; lra.
Qed.

Section Nearest.
Variable q : Q.
Let a := Qabs q.
Let t := Qfloor (a * pow2 1100).
Let e := Z.max (Z.log2 t - 1100 - 52) (-1074).
Let v := (inject_Z (round_half_even (a / pow2 e)) * pow2 e)%Q.

Lemma nd_a_nonneg : (0 <= a)%Q.
Proof. apply Qabs_nonneg. Qed.

Lemma nd_v_nonneg : (0 <= v)%Q.
Proof.
  unfold v. pose proof (pow2_pos e) as HP.
  assert (Hm : 0 <= round_half_even (a / pow2 e)).
  { apply round_half_even_nonneg. apply Qle_shift_div_l; [exact HP|].
    pose proof nd_a_nonneg. lra. }
  rewrite Zle_Qle in Hm. change (inject_Z 0) with 0%Q in Hm. nra.
Qed.

Lemma nd_v_near : (- (pow2 e / 2) <= v - a <= pow2 e / 2)%Q.
Proof. apply round_half_even_scaled, pow2_pos. Qed.

Lemma nd_t_le : (inject_Z t <= a * pow2 1100)%Q.
Proof. apply Qfloor_le. Qed.

Lemma nd_e_upper : (a < pow2 1023)%Q -> e <= 970.
Proof.
  intros Ha. unfold e.
  assert (Ht : t < 2 ^ 2123).
  { rewrite Zlt_Qlt. eapply Qle_lt_trans; [apply nd_t_le|].
    rewrite <- pow2_Z by lia.
    change 2123 with (1023 + 1100). rewrite pow2_add.
    pose proof (pow2_pos 1100). nra. }
  destruct (Z.le_gt_cases t 0) as [H0|H0].
  - rewrite Z.log2_nonpos by exact H0. lia.
  - apply Z.log2_lt_pow2 in Ht; [lia|exact H0].
Qed.

Lemma nd_e_normal :
  (pow2 (-1022) <= a)%Q ->
  e = Z.log2 t - 1100 - 52 /\ (pow2 (e + 52) <= a)%Q.
Proof.
  intros Ha.
  assert (Ht : 2 ^ 78 <= t).
  { unfold t. change (2 ^ 78) with (Qfloor (inject_Z (2 ^ 78))).
    apply Qfloor_resp_le. rewrite <- pow2_Z by lia.
    change 78 with (-1022 + 1100). rewrite pow2_add.
    pose proof (pow2_pos 1100). nra. }
  assert (Hpos : 0 < t) by (pose proof (Z.pow_pos_nonneg 2 78); lia).
  assert (Hl : 78 <= Z.log2 t).
  { apply Z.log2_le_pow2; [exact Hpos|exact Ht]. }
  assert (He : e = Z.log2 t - 1100 - 52) by (unfold e; lia).
  split; [exact He|]. rewrite He.
  replace (Z.log2 t - 1100 - 52 + 52) with (Z.log2 t + - 1100) by lia.
  pose proof (Z.log2_spec t Hpos) as [Hlo _].
  rewrite Zle_Qle in Hlo. rewrite <- pow2_Z in Hlo by lia.
  pose proof nd_t_le as Hle.
  assert (Hk : (pow2 (Z.log2 t) <= a * pow2 1100)%Q) by lra.
  rewrite pow2_add.
  assert (Hinv : (pow2 1100 * pow2 (-1100) == 1)%Q).
  { rewrite <- pow2_add. reflexivity. }
  pose proof (pow2_pos (-1100)). pose proof (pow2_pos 1100).
  set (A := pow2 (Z.log2 t)) in *. set (B := pow2 1100) in *.
  set (C := pow2 (-1100)) in *. clearbody A B C.
  assert (H1 : (A * C <= a * B * C)%Q) by nra.
  assert (H2 : (a * B * C == a)%Q) by (rewrite <- Qmult_assoc, Hinv; ring).
  lra.
Qed.

End Nearest.

Lemma pow2_half (e : Z) : (pow2 e / 2 == pow2 (e + 52) * pow2 (-53))%Q.
Proof.
  replace e with ((e + 52) + (-52)) at 1 by lia. rewrite pow2_add.
  assert (H : (pow2 (-52) / 2 == pow2 (-53))%Q) by reflexivity.
  rewrite <- H. field.
Qed.

Lemma nearest_double_spec (q : Q) :
  (Qabs q < pow2 1023)%Q ->
  exists d,
    nearest_double q = Some d /\
    ((0 <= q)%Q -> (0 <= d)%Q) /\
    ((q <= 0)%Q -> (d <= 0)%Q) /\
    ((pow2 (-1022) <= Qabs q)%Q ->
     (Qabs (d - q) <= Qabs q * pow2 (-53))%Q).
Proof.
  intros Hq. unfold nearest_double.
  pose proof (nd_v_nonneg q) as Hv0. pose proof (nd_v_near q) as Hnear.
  pose proof (nd_e_upper q Hq) as He. pose proof (nd_a_nonneg q) as Ha0.
  cbv zeta in Hv0, Hnear, He.
  set (a := Qabs q) in *.
  set (e := Z.max (Z.log2 (Qfloor (a * pow2 1100)) - 1100 - 52) (-1074)) in *.
  set (v := (inject_Z (round_half_even (a / pow2 e)) * pow2 e)%Q) in *.
  assert (HP : (pow2 e <= pow2 1023)%Q) by (apply pow2_le; lia).
  assert (H24 : (pow2 1024 == 2 * pow2 1023)%Q).
  { change 1024 with (1 + 1023). rewrite pow2_add. reflexivity. }
  pose proof (pow2_pos e) as HPpos.
  assert (Hh : (pow2 e / 2 == pow2 e * (1 # 2))%Q) by (field; lra).
  rewrite Hh in Hnear.
  assert (Hlt : (v < pow2 1024)%Q) by lra.
  destruct (Qle_bool (pow2 1024) v) eqn:Eo.
  { apply Qle_bool_iff in Eo. lra. }
  eexists. split; [reflexivity|].
  destruct (Qltb q 0) eqn:Es.
  - apply Qltb_lt in Es. rewrite !Qred_correct.
    assert (Haq : (a == - q)%Q) by (apply Qabs_neg; lra).
    split; [lra|]. split; [lra|].
    intros Hn. destruct (nd_e_normal q Hn) as [_ Hb]. cbv zeta in Hb.
    fold a e in Hb. pose proof (pow2_half e) as Hhalf.
    rewrite Hh in Hhalf. pose proof (pow2_pos (-53)) as H53.
    assert (Hbound : (pow2 e * (1 # 2) <= a * pow2 (-53))%Q).
    { rewrite Hhalf. apply Qmult_le_compat_r; lra. }
    apply Qabs_Qle_condition. split; lra.
  - assert (Hq0 : (0 <= q)%Q).
    { apply Qnot_lt_le. intros Hneg. apply Qltb_lt in Hneg. congruence. }
    rewrite !Qred_correct.
    assert (Haq : (a == q)%Q) by (apply Qabs_pos; exact Hq0).
    split; [lra|]. split.
    + intros Hle. assert (Hz : (a == 0)%Q) by lra.
      assert (Hm : round_half_even (a / pow2 e) = 0).
      { pose proof (round_half_even_near (a / pow2 e)) as Hr.
        assert (Hy : (a / pow2 e == 0)%Q) by (rewrite Hz; field; lra).
        set (y := (a / pow2 e)%Q) in *.
        assert (H1 : (inject_Z (-1) < inject_Z (round_half_even y))%Q)
          by (change (inject_Z (-1)) with (-1)%Q; lra).
        assert (H2 : (inject_Z (round_half_even y) < inject_Z 1)%Q)
          by (change (inject_Z 1) with 1%Q; lra).
        rewrite <- Zlt_Qlt in H1, H2. lia. }
      unfold v. rewrite Hm. change (inject_Z 0) with 0%Q. lra.
    + intros Hn. destruct (nd_e_normal q Hn) as [_ Hb]. cbv zeta in Hb.
      fold a e in Hb. pose proof (pow2_half e) as Hhalf.
      rewrite Hh in Hhalf. pose proof (pow2_pos (-53)) as H53.
      assert (Hbound : (pow2 e * (1 # 2) <= a * pow2 (-53))%Q).
      { rewrite Hhalf. apply Qmult_le_compat_r; lra. }
      apply Qabs_Qle_condition. split; lra.
Qed.

Lemma round_half_even_nonpos (y : Q) : (y <= 0)%Q -> round_half_even y <= 0.
Proof.
  intros Hy. pose proof (round_half_even_near y) as Hn.
  assert (H : (inject_Z (round_half_even y) < inject_Z 1)%Q)
    by (change (inject_Z 1) with 1%Q; lra).
  rewrite <- Zlt_Qlt in H. lia.
Qed.

(** X1: on a finite float [x] of magnitude below 2^1000 [roundup] returns.
    It returns the int 0 when [-1e-6 < x < 0], and else [round(x, 2)]:
    minus zero when [x] is from -0.005 to -1e-6, and else the double
    nearest to [n] hundredths, where [n / 100] is within 0.005 of [x]; this
    double is within [|n / 100| * 2^-53] of [n / 100] and is not of the
    sign opposite to that of [x].  So the value returned is not a whole
    number of hundredths in general, and it is never negative when [x] is
    above -1e-6. *)
Theorem roundup_error_bound (x : Q) :
  (Qabs x < pow2 1000)%Q ->
  exists r,
    roundup (PyFloat x) = Ok r /\
    match r with
    | PyInt z => z = 0 /\ (- lit_1e_6 < x < 0)%Q
    | PyFloat NegZero => (- (1 # 200) <= x <= - lit_1e_6)%Q
    | PyFloat (Finite d) =>
        exists n : Z,
          (- (1 # 200) <= (n # 100) - x <= 1 # 200)%Q /\
          (n = 0 -> d = 0%Q) /\
          (n <> 0 -> nearest_double (n # 100) = Some d) /\
          (Qabs (d - (n # 100)) <= Qabs (n # 100) * pow2 (-53))%Q /\
          ((0 <= x)%Q -> (0 <= d)%Q) /\
          ((x <= 0)%Q -> (d <= 0)%Q)
    | PyFloat _ => False
    end /\
    ((- lit_1e_6 < x)%Q -> num_ltb r (PyInt 0) = false).
Proof.
  intros Hbig.
  assert (Hl : (0 < lit_1e_6)%Q) by (vm_compute; reflexivity).
  unfold roundup.
  change (num_ltb (PyFloat (- lit_1e_6)%Q) (PyFloat x))
    with (Qltb (- lit_1e_6) x).
  change (num_ltb (PyFloat x) (PyInt 0)) with (Qltb x 0).
  destruct (Qltb (- lit_1e_6) x && Qltb x 0) eqn:Eband.
  { apply andb_true_iff in Eband as [E1 E2]. apply Qltb_lt in E1, E2.
    exists (PyInt 0). split; [reflexivity|]. split; [by split|].
    intros _. reflexivity. }
  assert (Hout : (x <= - lit_1e_6)%Q \/ (0 <= x)%Q).
  { apply andb_false_iff in Eband as [E|E].
    - left. apply Qnot_lt_le. intros H. apply Qltb_lt in H. congruence.
    - right. apply Qnot_lt_le. intros H. apply Qltb_lt in H. congruence. }
  pose proof (round_half_even_near (x * 100)) as Hnear.
  unfold round2, py_round2.
  set (n := round_half_even (x * 100)) in *.
  assert (Hh : (n # 100 == inject_Z n * (1 # 100))%Q) by apply hundredths.
  destruct (Z.eqb_spec n 0) as [Hn|Hn].
  - rewrite Hn in Hnear, Hh. change (inject_Z 0) with 0%Q in Hnear, Hh.
    destruct (Qltb x 0) eqn:Eneg; rewrite bind_ret.
    + apply Qltb_lt in Eneg. exists (PyFloat NegZero).
      split; [reflexivity|]. split; [split; lra|]. intros H. lra.
    + assert (Hpos : (0 <= x)%Q).
      { apply Qnot_lt_le. intros H. apply Qltb_lt in H. congruence. }
      exists (PyFloat 0%Q). split; [reflexivity|]. split.
      * exists 0. split; [lra|]. split; [done|]. split; [done|].
        split; [vm_compute; discriminate|]. split; intros _; lra.
      * intros _. reflexivity.
  - assert (Hn1 : (1 <= Qabs (inject_Z n))%Q).
    { destruct (Z.le_gt_cases 1 n) as [H|H].
      - rewrite Zle_Qle in H. change (inject_Z 1) with 1%Q in H.
        rewrite Qabs_pos; lra.
      - assert (H' : n <= -1) by lia.
        rewrite Zle_Qle in H'. change (inject_Z (-1)) with (-1)%Q in H'.
        rewrite Qabs_neg; lra. }
    assert (Habs : (Qabs (n # 100) == Qabs (inject_Z n) * (1 # 100))%Q).
    { rewrite Hh, Qabs_Qmult. reflexivity. }
    assert (H1022 : (pow2 (-1022) <= 1 # 100)%Q).
    { apply Qle_trans with (pow2 (-7)); [apply pow2_le; lia|].
      vm_compute. discriminate. }
    assert (H1000 : (pow2 1000 + 1 <= pow2 1023)%Q).
    { assert (H0 : (1 <= pow2 1000)%Q)
        by (change 1%Q with (pow2 0); apply pow2_le; lia).
      assert (H2 : (pow2 1001 == 2 * pow2 1000)%Q).
      { change 1001 with (1 + 1000). rewrite pow2_add. reflexivity. }
      assert (H3 : (pow2 1001 <= pow2 1023)%Q) by (apply pow2_le; lia).
      lra. }
    assert (Hx : (- pow2 1000 < x < pow2 1000)%Q).
    { apply Qabs_Qlt_condition. exact Hbig. }
    assert (Hnb : (Qabs (n # 100) < pow2 1023)%Q).
    { apply Qabs_Qlt_condition. rewrite Hh. split; lra. }
    destruct (nearest_double_spec (n # 100) Hnb)
      as (d & Hnd & Hd0 & Hd1 & Herr).
    rewrite Hnd, bind_ret. exists (PyFloat d). split; [reflexivity|].
    assert (Hsign0 : (0 <= x)%Q -> (0 <= d)%Q).
    { intros Hx0. apply Hd0.
      assert (H : 0 <= n) by (apply round_half_even_nonneg; lra).
      rewrite Zle_Qle in H. change (inject_Z 0) with 0%Q in H. lra. }
    split.
    + exists n. split; [lra|]. split; [done|]. split; [done|].
      split; [apply Herr; lra|]. split; [exact Hsign0|].
      intros Hx0. apply Hd1.
      assert (H : n <= 0) by (apply round_half_even_nonpos; lra).
      rewrite Zle_Qle in H. change (inject_Z 0) with 0%Q in H. lra.
    + intros Hgt. change (num_ltb (PyFloat d) (PyInt 0)) with (Qltb d 0).
      destruct (Qltb d 0) eqn:Ed; [|reflexivity].
      apply Qltb_lt in Ed. destruct Hout as [Hlo|Hpos]; [lra|].
      specialize (Hsign0 Hpos). lra.
Qed.

Lemma roundup_error_bound_witness :
  (Qabs lit_1_2345 < pow2 1000)%Q /\
  exists r, roundup (PyFloat lit_1_2345) = Ok r /\
            num_ltb r (PyInt 0) = false.
Proof.
  assert (H : (Qabs lit_1_2345 < pow2 1000)%Q) by (vm_compute; reflexivity).
  split; [exact H|].
  destruct (roundup_error_bound lit_1_2345 H) as (r & Hr & _ & Hpos).
  exists r. split; [exact Hr|]. apply Hpos. vm_compute. reflexivity.
Defined.

(** The doubles nearest to 0.1, 0.12 and 1.23. *)
Lemma nearest_double_examples :
  nearest_double (1 # 10) = Some lit_0_1 /\
  nearest_double (12 # 100) = Some (1080863910568919 # 9007199254740992)%Q /\
  nearest_double (123 # 100) = Some lit_1_23.
Proof. repeat split; vm_compute; reflexivity. Qed.

(** ** The years setter: which exception *)

(** X2: a year after 2050 makes the years setter raise [ValueError] with
    the fy2050 message, also when another year is before 2018; with no
    year after 2050, a year before 2018 makes it raise the plain
    [Exception] with the no-historical-data message. *)
Theorem Years_error_kinds (y : list Z) :
  (Exists (fun x => 2050 < x) y ->
   set_Years y
   = Raise (ValueError "openCEM-Years: Last full year of data is fy2050")) /\
  (Forall (fun x => x <= 2050) y -> Exists (fun x => x < 2018) y ->
   set_Years y
   = Raise (Exception "openCEM-Years: No historical data available")).
Proof.
  split.
  - intros Hex. destruct y as [|x l]; [by apply Exists_nil in Hex|].
    unfold set_Years.
    destruct (Z.ltb_spec 2050 (max_list x l)) as [|Hle]; [reflexivity|].
    apply max_list_le in Hle as [Hx Hl].
    apply Exists_cons in Hex as [Hx'|Hex]; [lia|].
    apply Exists_exists in Hex as (z & Hz & Hz').
    rewrite Forall_forall in Hl. specialize (Hl z Hz). lia.
  - intros Hall Hex. destruct y as [|x l]; [by apply Exists_nil in Hex|].
    unfold set_Years. apply Forall_cons in Hall as [Hx Hl].
    destruct (Z.ltb_spec 2050 (max_list x l)) as [Hlt|_].
    { assert (max_list x l <= 2050) by (by apply max_list_le). lia. }
    destruct (Z.ltb_spec (min_list x l) 2018) as [|Hge]; [reflexivity|].
    apply min_list_ge in Hge as [Hx' Hl'].
    apply Exists_cons in Hex as [Hx''|Hex]; [lia|].
    apply Exists_exists in Hex as (z & Hz & Hz').
    rewrite Forall_forall in Hl'. specialize (Hl' z Hz). lia.
Qed.

Lemma Years_error_kinds_witness :
  set_Years [2017; 2051]
  = Raise (ValueError "openCEM-Years: Last full year of data is fy2050") /\
  set_Years [2017; 2020]
  = Raise (Exception "openCEM-Years: No historical data available").
Proof.
  split.
  - apply (proj1 (Years_error_kinds [2017; 2051])).
    apply Exists_cons_tl, Exists_cons_hd. lia.
  - apply (proj2 (Years_error_kinds [2017; 2020])).
    + repeat constructor; lia.
    + apply Exists_cons_hd. lia.
Defined.

(** ** The data-command list *)

Lemma fold_left_app_concat {A} (f : A -> string) (l : list A) (acc : string) :
  fold_left (fun out p => out +:+ f p) l acc
  = acc +:+ String.concat EmptyString (f <$> l).
Proof.
  revert acc. induction l as [|x l IH]; intros acc; simpl.
  - by rewrite app_nil_r.
  - rewrite IH. rewrite app_assoc. f_equal.
    destruct l as [|y l]; [by rewrite app_nil_r|reflexivity].
Qed.

(** X3: [dclist] writes one line "zone tech" per pair of the mapping, in
    mapping order, and nothing else: for a mapping whose lists are all
    empty it is the empty string, with no placeholder. *)
Theorem dclist_lines (t : techset) :
  dclist t = String.concat EmptyString (dc_line <$> techset_pairs t) /\
  ((forall zl, zl ∈ t -> zl.2 = []) -> dclist t = EmptyString).
Proof.
  assert (H : dclist t
              = String.concat EmptyString (dc_line <$> techset_pairs t)).
  { unfold dclist. apply (fold_left_app_concat dc_line). }
  split; [exact H|].
  intros Hempty. rewrite H, (techset_pairs_all_empty t Hempty). reflexivity.
Qed.

Lemma dclist_lines_witness :
  dclist [(1, []); (2, [])] = EmptyString.
Proof.
  apply (proj2 (dclist_lines [(1, []); (2, [])])).
  intros zl Hin. repeat (apply elem_of_cons in Hin as [->|Hin]; [reflexivity|]).
  by apply elem_of_nil in Hin.
Defined.

(** ** What the constructor stores *)

(** The steps of the constructor, for an object it returns. *)
Lemma init_steps `{L : Libs} files cfgfile_ solver_ log_ tmpdir_ c :
  init files cfgfile_ solver_ log_ tmpdir_ = Ok c ->
  exists config rate per_zone,
    set_nem_ret_ratio (Years c) (f_nem_ret_ratio config)
      = Ok (nem_ret_ratio c) /\
    set_nem_ret_gwh (Years c) (f_nem_ret_gwh config) = Ok (nem_ret_gwh c) /\
    set_region_ret_ratio (Years c) (zdict <$> f_region_ret_ratio config)
      = Ok (region_ret_ratio c) /\
    set_emitlimit (Years c) (f_emitlimit config) = Ok (emitlimit c) /\
    set_nem_disp_ratio (Years c) (f_nem_disp_ratio config)
      = Ok (nem_disp_ratio c) /\
    set_nem_re_disp_ratio (Years c) (f_nem_re_disp_ratio config)
      = Ok (nem_re_disp_ratio c) /\
    set_cost_emit (Years c) (f_cost_emit config) = Ok (cost_emit c) /\
    set_discountrate rate = Ok (discountrate c) /\
    options c = {|
      opt_nem_ret_ratio := is_not_none (nem_ret_ratio c);
      opt_nem_ret_gwh := is_not_none (nem_ret_gwh c);
      opt_region_ret_ratio := is_not_none (region_ret_ratio c);
      opt_emitlimit := is_not_none (emitlimit c);
      opt_nem_disp_ratio := is_not_none (nem_disp_ratio c);
      opt_nem_re_disp_ratio := is_not_none (nem_re_disp_ratio c) |} /\
    f_all_tech_per_zone config = Some per_zone /\
    all_tech_per_zone c = zdict per_zone /\
    Forall (fun sc => sc.1 c = trace (sc.2 const) (all_tech_per_zone c))
      traced_sets.
Proof.
  unfold init. intros H.
  destruct (files !! cfgfile_) as [f|] eqn:Ef; [|discriminate].
  bind_inv H. injection H as <-. simpl.
  repeat match goal with
    | H : required _ _ = Ok _ |- _ => apply required_Ok in H
    end.
  eexists _, _, _. repeat split; try eassumption.
  repeat constructor.
Qed.

Lemma Qltb_false (x y : Q) : Qltb x y = false <-> (y <= x)%Q.
Proof.
  split.
  - intros H. apply Qnot_lt_le. intros Hlt. apply Qltb_lt in Hlt. congruence.
  - intros H. destruct (Qltb x y) eqn:E; [|reflexivity].
    apply Qltb_lt in E. exfalso. exact (Qlt_not_le _ _ E H).
Qed.

(** The two range checks, on one number. *)
Lemma non_negative_iff (x : num) :
  num_ltb x (PyInt 0) = false <-> non_negative x.
Proof.
  unfold non_negative, num_ltb.
  destruct x as [z|[q| |[|]|]]; simpl; rewrite ?Qltb_false;
    change (inject_Z 0) with 0%Q; try tauto; try (split; [discriminate|tauto]);
    split; intros H; lra.
Qed.

Lemma in_unit_iff (x : num) :
  num_ltb x (PyInt 0) = false /\ num_ltb (PyInt 1) x = false <-> in_unit x.
Proof.
  unfold in_unit, num_ltb.
  destruct x as [z|[q| |[|]|]]; simpl; rewrite ?Qltb_false;
    change (inject_Z 0) with 0%Q; change (inject_Z 1) with 1%Q;
    try tauto; try (split; [intros [? ?]; discriminate|tauto]);
    split; intros H; lra.
Qed.

Lemma any_negative_false (d : list num) :
  any_negative d = false -> Forall non_negative d.
Proof.
  unfold any_negative. induction d as [|x d IH]; simpl; [constructor|].
  intros H. apply orb_false_iff in H as [Hx Hd].
  constructor; [by apply non_negative_iff|by apply IH].
Qed.

Lemma in_unit_checks (d : list num) :
  any_negative d || any_above_one d = false -> Forall in_unit d.
Proof.
  unfold any_negative, any_above_one.
  induction d as [|x d IH]; simpl; [constructor|].
  intros H. apply orb_false_iff in H as [Hn Ha].
  apply orb_false_iff in Hn as [Hn Hn']. apply orb_false_iff in Ha as [Ha Ha'].
  constructor; [by apply in_unit_iff|].
  apply IH. by rewrite Hn', Ha'.
Qed.

Ltac setter_range lem :=
  let d := fresh "d" in
  intros years [d|] out; simpl; [|discriminate];
  destruct (negb (same_length d years)); [discriminate|];
  match goal with
  | |- context [if ?b then _ else _] => destruct b eqn:Hb; [discriminate|]
  end;
  intros _ ? [= <-]; by apply lem.

Lemma set_cost_emit_range :
  forall years data out, set_cost_emit years data = Ok out ->
    forall d, data = Some d -> Forall non_negative d.
Proof. unfold set_cost_emit. setter_range any_negative_false. Qed.

Lemma set_nem_ret_ratio_range :
  forall years data out, set_nem_ret_ratio years data = Ok out ->
    forall d, data = Some d -> Forall in_unit d.
Proof. unfold set_nem_ret_ratio. setter_range in_unit_checks. Qed.

Lemma set_nem_ret_gwh_range :
  forall years data out, set_nem_ret_gwh years data = Ok out ->
    forall d, data = Some d -> Forall non_negative d.
Proof. unfold set_nem_ret_gwh. setter_range any_negative_false. Qed.

Lemma set_emitlimit_range :
  forall years data out, set_emitlimit years data = Ok out ->
    forall d, data = Some d -> Forall non_negative d.
Proof. unfold set_emitlimit. setter_range any_negative_false. Qed.

Lemma set_nem_disp_ratio_range :
  forall years data out, set_nem_disp_ratio years data = Ok out ->
    forall d, data = Some d -> Forall in_unit d.
Proof. unfold set_nem_disp_ratio. setter_range in_unit_checks. Qed.

Lemma set_nem_re_disp_ratio_range :
  forall years data out, set_nem_re_disp_ratio years data = Ok out ->
    forall d, data = Some d -> Forall in_unit d.
Proof. unfold set_nem_re_disp_ratio. setter_range in_unit_checks. Qed.

Lemma check_regions_range (years : list Z) (data : list (Z * list num)) :
  check_regions years data = Ok tt ->
  forall r s, (r, s) ∈ data -> Forall in_unit s.
Proof.
  induction data as [|[r0 s0] rest IH]; simpl; intros H r s Hin.
  - by apply elem_of_nil in Hin.
  - destruct (negb (same_length s0 years)); [discriminate|].
    destruct (any_negative s0 || any_above_one s0) eqn:Hb; [discriminate|].
    apply elem_of_cons in Hin as [[= -> ->]|Hin].
    + by apply in_unit_checks.
    + by apply (IH H r).
Qed.

(** X4: in an object the constructor returns, every value of
    nem_ret_ratio, nem_disp_ratio, nem_re_disp_ratio and of each regional
    list is a number of [0, 1] or is not-a-number, and every value of
    cost_emit, nem_ret_gwh and emitlimit is a number that is not negative
    (plus infinity included) or is not-a-number: the checks are [x < 0]
    and [x > 1], both false on not-a-number, which [json.loads] reads from
    [NaN]; nem_ret_gwh has no upper bound, whatever its error message
    says. *)
Theorem policy_values_in_range `{L : Libs} files cfgfile_ solver_ log_ tmpdir_
  c :
  init files cfgfile_ solver_ log_ tmpdir_ = Ok c ->
  (forall d, cost_emit c = Some d -> Forall non_negative d) /\
  (forall d, nem_ret_ratio c = Some d -> Forall in_unit d) /\
  (forall d, nem_ret_gwh c = Some d -> Forall non_negative d) /\
  (forall d r s, region_ret_ratio c = Some d -> (r, s) ∈ d ->
     Forall in_unit s) /\
  (forall d, emitlimit c = Some d -> Forall non_negative d) /\
  (forall d, nem_disp_ratio c = Some d -> Forall in_unit d) /\
  (forall d, nem_re_disp_ratio c = Some d -> Forall in_unit d).
Proof.
  intros Hi.
  apply init_steps in Hi
    as (config & rate & pz & H1 & H2 & H3 & H4 & H5 & H6 & H7 & _).
  pose proof (set_nem_ret_ratio_Ok _ _ _ H1) as [E1 _].
  pose proof (set_nem_ret_gwh_Ok _ _ _ H2) as [E2 _].
  pose proof (set_region_ret_ratio_Ok _ _ _ H3) as [E3 _].
  pose proof (set_emitlimit_Ok _ _ _ H4) as [E4 _].
  pose proof (set_nem_disp_ratio_Ok _ _ _ H5) as [E5 _].
  pose proof (set_nem_re_disp_ratio_Ok _ _ _ H6) as [E6 _].
  pose proof (set_cost_emit_Ok _ _ _ H7) as [E7 _].
  repeat split.
  - intros d Hd. eapply set_cost_emit_range; [exact H7|congruence].
  - intros d Hd. eapply set_nem_ret_ratio_range; [exact H1|congruence].
  - intros d Hd. eapply set_nem_ret_gwh_range; [exact H2|congruence].
  - intros d r s Hd Hin. rewrite E3 in Hd.
    unfold set_region_ret_ratio in H3. rewrite Hd in H3.
    bind_inv H3. destruct v.
    by apply (check_regions_range _ _ E r s).
  - intros d Hd. eapply set_emitlimit_range; [exact H4|congruence].
  - intros d Hd. eapply set_nem_disp_ratio_range; [exact H5|congruence].
  - intros d Hd. eapply set_nem_re_disp_ratio_range; [exact H6|congruence].
Qed.

Lemma policy_values_in_range_witness :
  exists c,
    init (L := Demo.libs) (Demo.files_with "nan") "scenario.cfg" "cbc" false
      "/tmp/x/" = Ok c /\
    Forall in_unit [PyFloat NaN; PyFloat lit_0_5].
Proof.
  destruct (init (L := Demo.libs) (Demo.files_with "nan") "scenario.cfg"
              "cbc" false "/tmp/x/") as [c|e] eqn:Hi;
    [|vm_compute in Hi; discriminate].
  exists c. split; [reflexivity|].
  apply (proj1 (proj2 (policy_values_in_range (L := Demo.libs) _ _ _ _ _ _ Hi))).
  vm_compute in Hi. injection Hi as <-. reflexivity.
Defined.

(** X5: the discount rate of an object the constructor returns is the
    text of the scenario file, and it reads as a float that is in [0, 1]
    or is not-a-number; the setter raises [ValueError] on a text that
    [float] refuses and on every other float.  So a discount rate [nan]
    is accepted: both comparisons of the check are false on it. *)
Theorem discountrate_in_range `{L : Libs} files cfgfile_ solver_ log_ tmpdir_
  c :
  (init files cfgfile_ solver_ log_ tmpdir_ = Ok c ->
   exists x, float_of_string (discountrate c) = Some x /\
     in_unit (PyFloat x)) /\
  (forall data, float_of_string data = None ->
     exists m, set_discountrate data = Raise (ValueError m)) /\
  (forall data x, float_of_string data = Some x ->
     (in_unit (PyFloat x) -> set_discountrate data = Ok data) /\
     (~ in_unit (PyFloat x) ->
      set_discountrate data
      = Raise (ValueError
                 "openCEM-discountrate: Value must be between 0 and 1"))).
Proof.
  assert (Hcheck : forall x : pyfloat,
            num_ltb (PyFloat x) (PyInt 0) || num_ltb (PyInt 1) (PyFloat x)
            = false <-> in_unit (PyFloat x)).
  { intros x. rewrite orb_false_iff. apply in_unit_iff. }
  split; [|split].
  - intros Hi. apply init_steps in Hi
      as (config & rate & pz & _ & _ & _ & _ & _ & _ & _ & Hr & _).
    unfold set_discountrate in Hr.
    destruct (float_of_string rate) as [x|] eqn:Ex; [|discriminate].
    destruct (_ || _) eqn:E; [discriminate|].
    injection Hr as <-. exists x. split; [exact Ex|]. by apply Hcheck.
  - intros data Hd. unfold set_discountrate. rewrite Hd. by eexists.
  - intros data x Hd. unfold set_discountrate. rewrite Hd. split.
    + intros Hx. apply Hcheck in Hx. by rewrite Hx.
    + intros Hx. destruct (_ || _) eqn:E; [reflexivity|].
      apply Hcheck in E. by destruct Hx.
Qed.

Lemma discountrate_in_range_witness :
  (exists c x,
     init (L := Demo.libs) (Demo.files_with "plain") "scenario.cfg" "cbc"
       false "/tmp/x/" = Ok c /\
     float_of_string (Libs := Demo.libs) (discountrate c) = Some x /\
     in_unit (PyFloat x)) /\
  set_discountrate (L := Demo.libs) "nan" = Ok "nan".
Proof.
  destruct (init (L := Demo.libs) (Demo.files_with "plain") "scenario.cfg"
              "cbc" false "/tmp/x/") as [c|e] eqn:Hi;
    [|vm_compute in Hi; discriminate].
  destruct (discountrate_in_range (L := Demo.libs)
              (Demo.files_with "plain") "scenario.cfg" "cbc" false "/tmp/x/" c)
    as (Hrate & _ & Hset).
  split.
  - destruct (Hrate Hi) as (x & Hx & Hr). by exists c, x.
  - apply (Hset "nan" NaN); [reflexivity|exact I].
Defined.

(** X6: the options the object keeps for the model builder say, policy by
    policy, whether the series is configured. *)
Theorem model_options_follow_policies `{L : Libs} files cfgfile_ solver_ log_
  tmpdir_ c :
  init files cfgfile_ solver_ log_ tmpdir_ = Ok c ->
  (opt_nem_ret_ratio (options c) = true <-> is_Some (nem_ret_ratio c)) /\
  (opt_nem_ret_gwh (options c) = true <-> is_Some (nem_ret_gwh c)) /\
  (opt_region_ret_ratio (options c) = true <-> is_Some (region_ret_ratio c)) /\
  (opt_emitlimit (options c) = true <-> is_Some (emitlimit c)) /\
  (opt_nem_disp_ratio (options c) = true <-> is_Some (nem_disp_ratio c)) /\
  (opt_nem_re_disp_ratio (options c) = true
   <-> is_Some (nem_re_disp_ratio c)).
Proof.
  intros Hi. apply init_steps in Hi
    as (config & rate & pz & _ & _ & _ & _ & _ & _ & _ & _ & -> & _).
  assert (H : forall A (o : option A), is_not_none o = true <-> is_Some o).
  { intros A [a|]; simpl; split; intros H0;
      first [done|by eexists|by destruct H0]. }
  simpl. repeat split; apply H.
Qed.

Lemma model_options_follow_policies_witness :
  exists c,
    init (L := Demo.libs) (Demo.files_with "ret") "scenario.cfg" "cbc" false
      "/tmp/x/" = Ok c /\
    (opt_nem_ret_ratio (options c) = true <-> is_Some (nem_ret_ratio c)).
Proof.
  destruct (init (L := Demo.libs) (Demo.files_with "ret") "scenario.cfg"
              "cbc" false "/tmp/x/") as [c|e] eqn:Hi;
    [|vm_compute in Hi; discriminate].
  exists c. split; [reflexivity|].
  apply (model_options_follow_policies (L := Demo.libs) _ _ _ _ _ _ Hi).
Defined.

(** ** [dict(pairs)] and the technology sets *)

Lemma last_binding_cons {V} (k : Z) (kv : Z * V) (pairs : list (Z * V)) :
  last_binding k (kv :: pairs) =
  match last_binding k pairs with
  | Some v => Some v
  | None => if decide (kv.1 = k) then Some kv.2 else None
  end.
Proof.
  unfold last_binding. rewrite filter_cons.
  destruct (decide (kv.1 = k)) as [Hk|Hk].
  - rewrite last_cons. by destruct (last (filter _ pairs)).
  - by destruct (last (filter _ pairs)).
Qed.

Lemma zdict_set_spec {V} (acc : list (Z * V)) (k : Z) (v : V) :
  NoDup acc.*1 ->
  NoDup (zdict_set k v acc).*1 /\
  forall k' v', (k', v') ∈ zdict_set k v acc <->
    (k' = k /\ v' = v) \/ (k' <> k /\ (k', v') ∈ acc).
Proof.
  induction acc as [|[k0 v0] acc IH]; intros Hnd; simpl.
  - split; [apply NoDup_singleton|].
    intros k' v'. rewrite list_elem_of_singleton. split.
    + intros [= -> ->]. by left.
    + intros [[-> ->]|[_ Hin]]; [done|by apply elem_of_nil in Hin].
  - apply NoDup_cons in Hnd as [Hk0 Hnd]. simpl in *.
    destruct (Z.eqb_spec k0 k) as [->|Hne].
    + split; [by apply NoDup_cons|].
      intros k' v'. rewrite !elem_of_cons. split.
      * intros [[= -> ->]|Hin]; [by left|]. right. split; [|by right].
        intros ->. apply Hk0. apply list_elem_of_fmap. by exists (k, v').
      * intros [[-> ->]|[Hk' [[= -> ->]|Hin]]]; [by left|done|by right].
    + destruct (IH Hnd) as [IHnd IHel]. split.
      * simpl. apply NoDup_cons. split; [|exact IHnd].
        intros Hin. apply list_elem_of_fmap in Hin as ([k1 v1] & Hk1 & Hin).
        simpl in Hk1. subst k1. apply IHel in Hin as [[-> _]|[_ Hin]];
          [done|].
        apply Hk0. apply list_elem_of_fmap. by exists (k0, v1).
      * intros k' v'. rewrite !elem_of_cons, IHel. split.
        -- intros [[= -> ->]|[H|[H1 H2]]]; [right; split; [done|by left]
                                           |by left|right; split; [done|by right]].
        -- intros [H|[H1 [[= -> ->]|H2]]]; [right; by left|by left|].
           right. right. by split.
Qed.

Lemma zdict_fold {V} (pairs acc : list (Z * V)) :
  NoDup acc.*1 ->
  NoDup (fold_left (fun a kv => zdict_set kv.1 kv.2 a) pairs acc).*1 /\
  forall k v,
    (k, v) ∈ fold_left (fun a kv => zdict_set kv.1 kv.2 a) pairs acc <->
    last_binding k pairs = Some v \/
    (last_binding k pairs = None /\ (k, v) ∈ acc).
Proof.
  revert acc. induction pairs as [|[k0 v0] pairs IH]; intros acc Hnd; simpl.
  - split; [exact Hnd|]. intros k v. unfold last_binding. simpl.
    split; [by right|]. by intros [?|[_ ?]].
  - destruct (zdict_set_spec acc k0 v0 Hnd) as [Hnd' Hel].
    destruct (IH _ Hnd') as [IHnd IHel]. split; [exact IHnd|].
    intros k v. rewrite IHel, last_binding_cons, Hel. simpl.
    destruct (last_binding k pairs) as [w|]; [intuition congruence|].
    destruct (decide (k0 = k)) as [->|Hne]; intuition congruence.
Qed.

Lemma dict_last_wins_keys {V} (pairs : list (Z * V)) :
  NoDup (zdict pairs).*1.
Proof. apply (zdict_fold pairs []), NoDup_nil_2. Qed.

(** X7: [dict(pairs)] keeps each key once, and gives a key the value of its
    last pair: a zone or a region listed twice in the scenario file keeps
    its last list only. *)
Theorem dict_last_wins {V} (pairs : list (Z * V)) :
  NoDup (zdict pairs).*1 /\
  forall k v, (k, v) ∈ zdict pairs <-> last_binding k pairs = Some v.
Proof.
  destruct (zdict_fold pairs [] (NoDup_nil_2)) as [Hnd Hel].
  split; [exact Hnd|].
  intros k v. unfold zdict. rewrite Hel. split; [|by left].
  intros [H|[_ H]]; [exact H|by apply elem_of_nil in H].
Qed.

Lemma elem_of_techset_pairs (t : techset) (z x : Z) :
  (z, x) ∈ techset_pairs t <-> exists l, (z, l) ∈ t /\ x ∈ l.
Proof.
  unfold techset_pairs. rewrite list_elem_of_In, in_flat_map. split.
  - intros ([z' l] & Hin & Hx). simpl in Hx.
    apply list_elem_of_In, list_elem_of_fmap in Hx as (x' & [= -> ->] & Hx).
    exists l. split; [by apply list_elem_of_In|exact Hx].
  - intros (l & Hin & Hx). exists (z, l). split; [by apply list_elem_of_In|].
    simpl. apply list_elem_of_In, list_elem_of_fmap. by exists x.
Qed.

Lemma trace_keys (category : list Z) (t : techset) :
  (trace category t).*1 = t.*1.
Proof.
  unfold trace. induction t as [|[z l] t IH]; [reflexivity|].
  simpl. f_equal. exact IH.
Qed.

Lemma trace_pairs (category : list Z) (t : techset) (z x : Z) :
  (z, x) ∈ techset_pairs (trace category t) <->
  (z, x) ∈ techset_pairs t /\ x ∈ category.
Proof.
  rewrite !elem_of_techset_pairs. unfold trace. split.
  - intros (l & Hin & Hx).
    apply list_elem_of_fmap in Hin as ([z' l'] & [= -> ->] & Hin).
    simpl in Hx. apply list_elem_of_filter in Hx as [Hc Hx].
    split; [by exists l'|exact Hc].
  - intros [(l & Hin & Hx) Hc].
    exists (filter (fun j => j ∈ category) l). split.
    + apply list_elem_of_fmap. by exists (z, l).
    + by apply list_elem_of_filter.
Qed.

(** X8: in an object the constructor returns the zones of
    all_tech_per_zone are distinct, and each of the nine technology sets of
    [tracetechs] has the same zones in the same order and holds, for a
    zone, exactly the technologies of the zone that are in its category of
    [cemo.const]. *)
Theorem tracetechs_filters `{L : Libs} files cfgfile_ solver_ log_ tmpdir_ c :
  init files cfgfile_ solver_ log_ tmpdir_ = Ok c ->
  NoDup (all_tech_per_zone c).*1 /\
  Forall
    (fun sc =>
       (sc.1 c).*1 = (all_tech_per_zone c).*1 /\
       forall z x, (z, x) ∈ techset_pairs (sc.1 c) <->
         (z, x) ∈ techset_pairs (all_tech_per_zone c) /\ x ∈ sc.2 const)
    traced_sets.
Proof.
  intros Hi. apply init_steps in Hi
    as (config & rate & pz & _ & _ & _ & _ & _ & _ & _ & _ & _ & _ & Hpz
        & Htr).
  split; [rewrite Hpz; apply dict_last_wins_keys|].
  eapply Forall_impl; [exact Htr|].
  intros [set category] Heq. simpl in *. rewrite Heq.
  split; [apply trace_keys|]. intros z x. apply trace_pairs.
Qed.

Lemma tracetechs_filters_witness :
  exists c,
    init (L := Demo.libs) (Demo.files_with "two years") "scenario.cfg" "cbc"
      false "/tmp/x/" = Ok c /\
    NoDup (all_tech_per_zone c).*1.
Proof.
  destruct (init (L := Demo.libs) (Demo.files_with "two years")
              "scenario.cfg" "cbc" false "/tmp/x/") as [c|e] eqn:Hi;
    [|vm_compute in Hi; discriminate].
  exists c. split; [reflexivity|].
  apply (tracetechs_filters (L := Demo.libs) _ _ _ _ _ _ Hi).
Defined.

(** ** Replacing placeholders *)

Lemma startswith_spec (p s : string) :
  startswith p s = true <-> exists rest, s = p +:+ rest.
Proof.
  revert s. induction p as [|a p IH]; intros s; simpl.
  - split; [intros _; by exists s|done].
  - destruct s as [|b s].
    + split; [done|]. intros (rest & H). by rewrite app_cons in H.
    + destruct (Ascii.eqb_spec a b) as [->|Hne].
      * rewrite IH. split; intros (rest & H); exists rest.
        -- by rewrite app_cons, H.
        -- rewrite app_cons in H. by injection H.
      * split; [done|]. intros (rest & H). rewrite app_cons in H.
        injection H as H _. by destruct Hne.
Qed.

Lemma replace_from_O (old new : string) (ch : ascii) (s : string) :
  replace_from old new (String ch s) O =
  if startswith old (String ch s)
  then new +:+ replace_from old new s (String.length old - 1)
  else String ch (replace_from old new s O).
Proof. reflexivity. Qed.

Lemma replace_absent (old new s : string) :
  ~ embeds s old -> replace old new s = s.
Proof.
  unfold replace. induction s as [|ch s IH]; intros Hno; [reflexivity|].
  rewrite replace_from_O.
  destruct (startswith old (String ch s)) eqn:E.
  - apply startswith_spec in E as (rest & E). destruct Hno.
    exists EmptyString, rest. exact E.
  - f_equal. apply IH. intros (pre & post & ->). apply Hno.
    exists (String ch pre), post. by rewrite app_cons.
Qed.

Lemma replace_from_skip (old new a rest : string) :
  replace_from old new (a +:+ rest) (String.length a)
  = replace_from old new rest O.
Proof.
  induction a as [|ch a IH]; [reflexivity|].
  rewrite app_cons. simpl. exact IH.
Qed.

Lemma replace_prefix (old new rest : string) :
  old <> EmptyString ->
  replace old new (old +:+ rest) = new +:+ replace old new rest.
Proof.
  intros Hne. unfold replace. destruct old as [|ch old]; [done|].
  rewrite app_cons, replace_from_O, <- app_cons.
  assert (E : startswith (String ch old) (String ch old +:+ rest) = true)
    by (apply startswith_spec; by eexists).
  rewrite E. f_equal. simpl. rewrite Nat.sub_0_r. apply replace_from_skip.
Qed.







(** X9: the model of [str.replace] behaves as the method does: a text
    without the token is unchanged; a text that starts with the token has
    it replaced and the scan goes on after it; otherwise the first
    character is kept and the scan goes on with the rest. *)
Theorem replace_leftmost (old new : string) :
  (forall s, ~ embeds s old -> replace old new s = s) /\
  (forall rest, old <> EmptyString ->
     replace old new (old +:+ rest) = new +:+ replace old new rest) /\
  (forall ch s, startswith old (String ch s) = false ->
     replace old new (String ch s) = String ch (replace old new s)).
Proof.
  split; [intros s; apply replace_absent|].
  split; [intros rest; apply replace_prefix|].
  intros ch s E. unfold replace. by rewrite replace_from_O, E.
Qed.

Lemma replace_leftmost_witness :
  replace "XXXX" "2020" "yr" = "yr" /\
  replace "XXXX" "2020" ("XXXX" +:+ ";") = "2020" +:+ replace "XXXX" "2020" ";".
Proof.
  split.
  - apply (proj1 (replace_leftmost "XXXX" "2020")).
    intros (pre & post & H). apply (f_equal String.length) in H.
    rewrite !length_app in H. simpl in H. lia.
  - by apply (proj1 (proj2 (replace_leftmost "XXXX" "2020"))).
Defined.


(** ** The anatomy of a generated template *)

Lemma zfill4_year (y : Z) :
  2017 <= y <= 2050 -> zfill4 (str_int y) = str_int y.
Proof.
  intros Hy.
  assert (Hall : forallb (fun z => String.eqb (zfill4 (str_int z)) (str_int z))
                   (seqZ 2017 34) = true) by (vm_compute; reflexivity).
  rewrite forallb_forall in Hall.
  apply String.eqb_eq, Hall, list_elem_of_In, elem_of_seqZ. lia.
Qed.

Lemma policy_clause_None `{L : Libs} c year before :
  policy_clause c year None before = Ok EmptyString.
Proof. reflexivity. Qed.

(** The text of a template, with every step of its generation resolved. *)
Lemma year_template_text_explicit `{L : Libs} c files year test i :
  accepted c -> readable c files ->
  index year (Years c) = Some i ->
  exists fin opcap0 custom exo cemit carry ret_ratio ret_gwh region limit
         disp re_disp,
    read_text files (Template c) = Ok fin /\
    carryforwardcap c year = Ok opcap0 /\
    produce_custom_costs c year files = Ok custom /\
    produce_exogenous_capacity c year files = Ok exo /\
    policy_clause c year (cost_emit c) cost_emit_text = Ok cemit /\
    carry_forward_cap_costs c year = Ok carry /\
    policy_clause c year (nem_ret_ratio c) nem_ret_ratio_text = Ok ret_ratio /\
    policy_clause c year (nem_ret_gwh c) nem_ret_gwh_text = Ok ret_gwh /\
    region_clause c year = Ok region /\
    policy_clause c year (emitlimit c) emitlimit_text = Ok limit /\
    policy_clause c year (nem_disp_ratio c) nem_disp_ratio_text = Ok disp /\
    policy_clause c year (nem_re_disp_ratio c) nem_re_disp_ratio_text
      = Ok re_disp /\
    year_template_text c year test files =
      Ok (String.concat EmptyString
            (substitute
               (substitutions c year (previous_year c i) opcap0
                  (time_window year test))
               <$> readlines fin)
          +:+ custom +:+ exo +:+ fcr_text c +:+ cemit +:+ carry
          +:+ ret_ratio +:+ ret_gwh +:+ region +:+ limit +:+ disp
          +:+ re_disp).
Proof.
  intros Hacc Hread Hi.
  pose proof (year_in_range c Hacc _ _ Hi) as [Hlo Hhi].
  destruct (carryforwardcap_Ok c year i Hi) as (opcap0 & Hop).
  destruct (carry_forward_cap_costs_Ok c year i Hi) as (carry & Hcarry).
  destruct (produce_custom_costs_Ok c files Hread year) as (custom & Hcustom).
  destruct (produce_exogenous_capacity_Ok c files Hread year i Hi)
    as (exo & Hexo).
  destruct (policy_clause_Ok c year i (cost_emit c) cost_emit_text Hi
              (cost_emit_length c Hacc)) as (cemit & Hcemit & _).
  destruct (policy_clause_Ok c year i (nem_ret_ratio c) nem_ret_ratio_text Hi
              (nem_ret_ratio_length c Hacc)) as (ret_ratio & Hret_ratio & _).
  destruct (policy_clause_Ok c year i (nem_ret_gwh c) nem_ret_gwh_text Hi
              (nem_ret_gwh_length c Hacc)) as (ret_gwh & Hret_gwh & _).
  destruct (region_clause_Ok c Hacc year i Hi) as (region & Hregion & _).
  destruct (policy_clause_Ok c year i (emitlimit c) emitlimit_text Hi
              (emitlimit_length c Hacc)) as (limit & Hlimit & _).
  destruct (policy_clause_Ok c year i (nem_disp_ratio c) nem_disp_ratio_text
              Hi (nem_disp_ratio_length c Hacc)) as (disp & Hdisp & _).
  destruct (policy_clause_Ok c year i (nem_re_disp_ratio c)
              nem_re_disp_ratio_text Hi (nem_re_disp_ratio_length c Hacc))
    as (re_disp & Hre_disp & _).
  destruct (read_template c files Hread) as (fin & Hfin).
  assert (Hprev : match i with O => Ok 2017 | S _ => year_before c i end
                  = Ok (previous_year c i)).
  { destruct i as [|j]; [reflexivity|].
    destruct (year_before_S c year j Hi) as (p & Hp & ->).
    simpl. by rewrite Hp. }
  exists fin, opcap0, custom, exo, cemit, carry, ret_ratio, ret_gwh, region,
    limit, disp, re_disp.
  repeat (split; [assumption|]).
  unfold year_template_text.
  rewrite (str_datetime_Ok (year - 1) "-07-01 00:00:00")
    by (unfold in_range in *; lia).
  rewrite bind_ret.
  rewrite (str_datetime_Ok year "-06-30 23:00:00")
    by (unfold in_range in *; lia).
  rewrite bind_ret.
  assert (Hd2 :
    (if test then str_datetime (year - 1) "-07-03 23:00:00"
     else Ok (zfill4 (str_int year) +:+ "-06-30 23:00:00"))
    = Ok (if test then str_int (year - 1) +:+ "-07-03 23:00:00"
          else str_int year +:+ "-06-30 23:00:00")).
  { destruct test.
    - rewrite (str_datetime_Ok (year - 1)) by (unfold in_range in *; lia).
      by rewrite zfill4_year by (unfold in_range in *; lia).
    - by rewrite zfill4_year by (unfold in_range in *; lia). }
  rewrite Hd2, bind_ret.
  rewrite Hop, bind_ret, Hcarry, bind_ret, Hcustom, bind_ret, Hexo, bind_ret.
  rewrite Hcemit, bind_ret, Hret_ratio, bind_ret, Hret_gwh, bind_ret.
  rewrite Hregion, bind_ret, Hlimit, bind_ret, Hdisp, bind_ret.
  rewrite Hre_disp, bind_ret, (year_index_Ok _ _ _ Hi), bind_ret.
  rewrite Hprev, bind_ret, Hfin, bind_ret.
  rewrite (zfill4_year (year - 1)) by (unfold in_range in *; lia).
  reflexivity.
Qed.







(** X12: when no policy series is configured the template of a year ends
    with the discount rate and the carried capital cost: no emission cost
    and no policy clause is written; for the first year the carried
    capital cost is absent too, so the text ends with the discount rate. *)
Theorem template_without_policies `{L : Libs} c files year test i :
  accepted c -> readable c files ->
  index year (Years c) = Some i ->
  no_policies c ->
  exists body custom exo carry,
    produce_custom_costs c year files = Ok custom /\
    produce_exogenous_capacity c year files = Ok exo /\
    carry_forward_cap_costs c year = Ok carry /\
    year_template_text c year test files
      = Ok (body +:+ custom +:+ exo +:+ fcr_text c +:+ carry) /\
    (i = O -> carry = EmptyString).
Proof.
  intros Hacc Hread Hi (N1 & N2 & N3 & N4 & N5 & N6 & N7).
  destruct (year_template_text_explicit c files year test i Hacc Hread Hi)
    as (fin & opcap0 & custom & exo & cemit & carry & ret_ratio & ret_gwh
        & region & limit & disp & re_disp & _ & _ & Hcu & Hex & H5 & Hca & H7
        & H8 & H9 & H10 & H11 & H12 & Htext).
  rewrite N1, policy_clause_None in H5. injection H5 as <-.
  rewrite N2, policy_clause_None in H7. injection H7 as <-.
  rewrite N3, policy_clause_None in H8. injection H8 as <-.
  unfold region_clause in H9. rewrite N4 in H9. injection H9 as <-.
  rewrite N5, policy_clause_None in H10. injection H10 as <-.
  rewrite N6, policy_clause_None in H11. injection H11 as <-.
  rewrite N7, policy_clause_None in H12. injection H12 as <-.
  eexists _, custom, exo, carry.
  split; [exact Hcu|]. split; [exact Hex|]. split; [exact Hca|]. split.
  - rewrite Htext. f_equal. f_equal. f_equal. f_equal. f_equal.
    change (EmptyString +:+ carry +:+ EmptyString) with (carry +:+ EmptyString).
    apply app_nil_r.
  - intros ->. unfold carry_forward_cap_costs in Hca.
    rewrite (year_index_Ok _ _ _ Hi), bind_ret in Hca. by injection Hca.
Qed.

Lemma template_without_policies_witness :
  exists c body custom exo,
    init (L := Demo.libs) (Demo.files_with "two years") "scenario.cfg" "cbc"
      false "/tmp/x/" = Ok c /\
    year_template_text (L := Demo.libs) c 2020 false
      (Demo.files_with "two years")
    = Ok (body +:+ custom +:+ exo +:+ fcr_text c +:+ EmptyString).
Proof.
  destruct (init (L := Demo.libs) (Demo.files_with "two years")
              "scenario.cfg" "cbc" false "/tmp/x/") as [c|e] eqn:Hi;
    [|vm_compute in Hi; discriminate].
  pose proof (init_accepted _ _ _ _ _ _ Hi) as Hacc.
  pose proof (demo_readable _ _ _ _ _ _ Hi) as Hread.
  assert (Hc : index 2020 (Years c) = Some O /\ no_policies c).
  { vm_compute in Hi. injection Hi as <-. by repeat split. }
  destruct Hc as (Hidx & Hnone).
  destruct (template_without_policies (L := Demo.libs) c
              (Demo.files_with "two years") 2020 false O Hacc Hread Hidx
              Hnone)
    as (body & custom & exo & carry & _ & _ & _ & Htext & Hcarry).
  rewrite (Hcarry eq_refl) in Htext. by exists c, body, custom, exo.
Defined.

(** ** Custom costs *)

Lemma select_costs_spec c key year costs r v :
  (r, v) ∈ select_costs c key year costs <->
  year ∈ ct_columns costs /\ r ∈ ct_rows costs /\ cr_name r = key /\
  cr_tech r ∈ all_tech c /\ cr_zone r ∈ zones c /\
  dict_get year (cr_cells r) = Some v /\ is_nan v = false.
Proof.
  unfold select_costs. destruct (decide (year ∈ ct_columns costs)) as [Hy|Hy].
  - rewrite bool_decide_eq_true_2 by done. rewrite list_elem_of_omap. split.
    + intros (r' & Hr & Hsel).
      destruct (String.eqb_spec (cr_name r') key) as [Hn|]; [|discriminate].
      destruct (decide (cr_tech r' ∈ all_tech c)) as [Ht|Ht];
        [rewrite (bool_decide_eq_true_2 _ Ht) in Hsel
        |rewrite (bool_decide_eq_false_2 _ Ht) in Hsel; discriminate].
      destruct (decide (cr_zone r' ∈ zones c)) as [Hz|Hz];
        [rewrite (bool_decide_eq_true_2 _ Hz) in Hsel
        |rewrite (bool_decide_eq_false_2 _ Hz) in Hsel; discriminate].
      simpl in Hsel.
      destruct (dict_get year (cr_cells r')) as [v'|] eqn:Ev; [|discriminate].
      destruct (is_nan v') eqn:En; [discriminate|].
      injection Hsel as <- <-. by repeat split.
    + intros (_ & Hr & Hn & Ht & Hz & Hv & Hnan). exists r.
      split; [exact Hr|].
      rewrite Hn, String.eqb_refl, !bool_decide_eq_true_2 by done.
      simpl. by rewrite Hv, Hnan.
  - rewrite bool_decide_eq_false_2 by done. split.
    + intros Hin. by apply elem_of_nil in Hin.
    + by intros (? & _).
Qed.

(** X13: the rows written for a cost keyword and a year are exactly the
    rows of the table with that name, a configured technology and zone,
    and a value in the column of the year (a row with no value there, or
    with not-a-number there, is dropped); when the table has no column for
    the year nothing is written for any keyword, and with no custom-cost
    file the function returns a line feed only. *)
Theorem custom_costs_rows `{L : Libs} c :
  (forall key year costs r v,
     (r, v) ∈ select_costs c key year costs <->
     year ∈ ct_columns costs /\ r ∈ ct_rows costs /\ cr_name r = key /\
     cr_tech r ∈ all_tech c /\ cr_zone r ∈ zones c /\
     dict_get year (cr_cells r) = Some v /\ is_nan v = false) /\
  (forall year costs kw, year ∉ ct_columns costs ->
     cost_block c year costs kw = EmptyString) /\
  (forall y files, custom_costs c = None ->
     produce_custom_costs c y files = Ok nl) /\
  (forall y files path text costs,
     custom_costs c = Some path -> file_text files path = Ok text ->
     read_csv_costs text = Ok costs -> str_int y ∉ ct_columns costs ->
     produce_custom_costs c y files = Ok nl).
Proof.
  assert (Hblock : forall year costs kw, year ∉ ct_columns costs ->
            cost_block c year costs kw = EmptyString).
  { intros year costs kw Hy. unfold cost_block, select_costs.
    by rewrite bool_decide_eq_false_2. }
  split; [intros; apply select_costs_spec|]. split; [exact Hblock|]. split.
  - intros y files Hn. unfold produce_custom_costs. by rewrite Hn.
  - intros y files path text costs Hp Ht Hc Hy. unfold produce_custom_costs.
    rewrite Hp, Ht, bind_ret, Hc, bind_ret. f_equal.
    simpl. by rewrite !(Hblock _ _ _ Hy).
Qed.

Lemma custom_costs_rows_witness :
  exists c,
    init (L := Demo.libs) (Demo.files_with "plain") "scenario.cfg" "cbc" false
      "/tmp/x/" = Ok c /\
    produce_custom_costs (L := Demo.libs) c 2020 (Demo.files_with "plain")
      = Ok nl /\
    cost_block (L := Demo.libs) c "2020"
      {| ct_columns := ["name"; "tech"; "zone"; "2025"];
         ct_rows := [{| cr_name := "cost_fuel"; cr_tech := 1; cr_zone := 1;
                        cr_cells := [("2025", PyFloat lit_0_5)] |}] |}
      ("cost_fuel", zonetech) = EmptyString.
Proof.
  destruct (init (L := Demo.libs) (Demo.files_with "plain") "scenario.cfg"
              "cbc" false "/tmp/x/") as [c|e] eqn:Hi;
    [|vm_compute in Hi; discriminate].
  exists c. split; [reflexivity|].
  destruct (custom_costs_rows (L := Demo.libs) c) as (_ & Hblock & Hnone & _).
  split.
  - apply Hnone. vm_compute in Hi. injection Hi as <-. reflexivity.
  - apply Hblock. simpl. intros Hin.
    repeat (apply elem_of_cons in Hin as [Hin|Hin]; [discriminate|]).
    by apply elem_of_nil in Hin.
Defined.

(** ** Exogenous capacity, year by year *)

Lemma interval_exists (t : Z) (l : list Z) :
  forall x, x < t ->
    (exists z, last (x :: l) = Some z /\ t <= z) ->
    exists j prev y,
      (x :: l) !! j = Some prev /\ index y (x :: l) = Some (S j) /\
      prev < t <= y.
Proof.
  induction l as [|a l IH]; intros x Hx (z & Hz & Ht).
  - injection Hz as <-. lia.
  - rewrite last_cons_cons in Hz.
    destruct (Z_le_dec t a) as [Hle|Hgt].
    + exists O, x, a. split; [reflexivity|]. split; [|lia].
      simpl. destruct (Z.eqb_spec x a); [lia|]. by rewrite Z.eqb_refl.
    + destruct (IH a) as (j & prev & y & Hj & Hidx & Hint); [lia|by exists z|].
      exists (S j), prev, y. split; [exact Hj|]. split; [|exact Hint].
      change (index y (x :: a :: l))
        with (if Z.eqb x y then Some O else option_map S (index y (a :: l))).
      destruct (Z.eqb_spec x y); [lia|]. by rewrite Hidx.
Qed.

Lemma sorted_lookup_le (l : list Z) (i j : nat) (a b : Z) :
  Sorted Z.le l -> (i <= j)%nat -> l !! i = Some a -> l !! j = Some b ->
  a <= b.
Proof.
  intros Hs. apply (Sorted_StronglySorted Z.le _) in Hs.
  revert i j. induction Hs as [|x l Hs IH Hall]; intros i j Hij Ha Hb;
    [discriminate|].
  destruct i as [|i], j as [|j]; simpl in *; try lia.
  - injection Ha as <-. injection Hb as <-. lia.
  - injection Ha as <-. rewrite Forall_forall in Hall. apply Hall.
    by eapply list_elem_of_lookup_2.
  - apply (IH i j); [lia|done..].
Qed.

Lemma interval_unique (l : list Z) (t y1 y2 p1 p2 : Z) (j1 j2 : nat) :
  Sorted Z.le l ->
  index y1 l = Some (S j1) -> l !! j1 = Some p1 -> p1 < t <= y1 ->
  index y2 l = Some (S j2) -> l !! j2 = Some p2 -> p2 < t <= y2 ->
  y1 = y2.
Proof.
  intros Hs H1 Hp1 Ht1 H2 Hp2 Ht2.
  apply index_Some in H1 as [Hy1 _]. apply index_Some in H2 as [Hy2 _].
  destruct (Z.lt_trichotomy y1 y2) as [Hlt|[Heq|Hgt]]; [|exact Heq|].
  - destruct (le_lt_dec (S j2) (S j1)) as [Hle|Hlt'].
    + pose proof (sorted_lookup_le l _ _ _ _ Hs Hle Hy2 Hy1). lia.
    + assert (Hle : (S j1 <= j2)%nat) by lia.
      pose proof (sorted_lookup_le l _ _ _ _ Hs Hle Hy1 Hp2). lia.
  - destruct (le_lt_dec (S j1) (S j2)) as [Hle|Hlt'].
    + pose proof (sorted_lookup_le l _ _ _ _ Hs Hle Hy1 Hy2). lia.
    + assert (Hle : (S j2 <= j1)%nat) by lia.
      pose proof (sorted_lookup_le l _ _ _ _ Hs Hle Hy2 Hp1). lia.
Qed.

(** X14: a row of the exogenous-capacity table with a configured
    technology and zone is selected for the template of exactly one
    configured year when its year is after the first configured year and
    not after the last; a row dated on or before the first configured year,
    or after the last, is selected for no year.  The previous year is the
    one [produce_exogenous_capacity] computes, the last year for the first
    year included. *)
Theorem exogenous_rows_once c capacity r first final :
  accepted c ->
  head (Years c) = Some first -> last (Years c) = Some final ->
  r ∈ capacity -> er_tech r ∈ all_tech c -> er_zone r ∈ zones c ->
  (first < er_year r <= final ->
   exists year j prev,
     index year (Years c) = Some (S j) /\ year_before c (S j) = Ok prev /\
     r ∈ select_capacity c prev year (er_name r) capacity /\
     forall year' i' prev',
       index year' (Years c) = Some i' -> year_before c i' = Ok prev' ->
       r ∈ select_capacity c prev' year' (er_name r) capacity ->
       year' = year) /\
  (er_year r <= first \/ final < er_year r ->
   forall year i prev key,
     index year (Years c) = Some i -> year_before c i = Ok prev ->
     r ∉ select_capacity c prev year key capacity).
Proof.
  intros Hacc Hhd Hlast Hr Htech Hzone.
  pose proof (acc_sorted c Hacc) as Hs.
  apply head_Some in Hhd as (l & Hl).
  assert (Hfl : first <= final).
  { apply last_Some_elem_of, list_elem_of_lookup in Hlast as (k & Hk).
    apply (sorted_lookup_le (Years c) O k); [done|lia|by rewrite Hl|done]. }
  assert (Hzero : forall year prev,
            index year (Years c) = Some O -> year_before c O = Ok prev ->
            year = first /\ prev = final).
  { intros year prev Hi Hp. apply index_Some in Hi as [Hi _].
    rewrite Hl in Hi. injection Hi as <-.
    unfold year_before in Hp. simpl in Hp. rewrite Hlast in Hp.
    by injection Hp as <-. }
  assert (Hsucc : forall year j prev,
            index year (Years c) = Some (S j) -> year_before c (S j) = Ok prev ->
            Years c !! j = Some prev /\ first <= prev /\ year <= final).
  { intros year j prev Hi Hp. unfold year_before in Hp. simpl in Hp.
    destruct (Years c !! j) as [p|] eqn:Ej; [|discriminate].
    injection Hp as <-. split; [reflexivity|]. split.
    - apply (sorted_lookup_le (Years c) O j); [done|lia|by rewrite Hl|done].
    - apply index_Some in Hi as [Hi _].
      apply last_Some in Hlast as (l' & Hl').
      assert (Hk : Years c !! length l' = Some final)
        by (rewrite Hl'; apply list_lookup_middle; done).
      apply (sorted_lookup_le (Years c) (S j) (length l')); [done| |done..].
      apply lookup_lt_Some in Hi. rewrite Hl' in Hi.
      rewrite List.length_app in Hi. simpl in Hi. lia. }
  split.
  - intros Ht.
    destruct (interval_exists (er_year r) l first) as (j & prev & year & Hj
      & Hidx & Hint);
      [lia|exists final; split; [by rewrite <- Hl|lia]|].
    rewrite <- Hl in Hj, Hidx.
    exists year, j, prev.
    assert (Hprev : year_before c (S j) = Ok prev).
    { unfold year_before. simpl. by rewrite Hj. }
    split; [exact Hidx|]. split; [exact Hprev|]. split.
    + apply select_capacity_spec. by repeat split; try lia.
    + intros year' i' prev' Hidx' Hprev' Hsel.
      apply select_capacity_spec in Hsel as (_ & Hint' & _).
      destruct i' as [|j'].
      * destruct (Hzero _ _ Hidx' Hprev') as [-> ->]. lia.
      * destruct (Hsucc _ _ _ Hidx' Hprev') as (Hj' & _).
        symmetry.
        by apply (interval_unique (Years c) (er_year r) year year' prev prev'
                    j j').
  - intros Hout year i prev key Hidx Hprev Hsel.
    apply select_capacity_spec in Hsel as (_ & Hint & _).
    destruct i as [|j].
    + destruct (Hzero _ _ Hidx Hprev) as [-> ->]. lia.
    + destruct (Hsucc _ _ _ Hidx Hprev) as (_ & Hp & Hy). lia.
Qed.

Lemma exogenous_rows_once_witness :
  exists c year j prev,
    init (L := Demo.libs) (Demo.files_with "two years") "scenario.cfg" "cbc"
      false "/tmp/x/" = Ok c /\
    index year (Years c) = Some (S j) /\ year_before c (S j) = Ok prev /\
    {| er_name := "gen_cap_exo"; er_tech := 2; er_zone := 1; er_year := 2021;
       er_value := PyInt 50 |}
    ∈ select_capacity c prev year "gen_cap_exo" Demo.capacity_rows.
Proof.
  destruct (init (L := Demo.libs) (Demo.files_with "two years")
              "scenario.cfg" "cbc" false "/tmp/x/") as [c|e] eqn:Hi;
    [|vm_compute in Hi; discriminate].
  pose proof (init_accepted _ _ _ _ _ _ Hi) as Hacc.
  assert (Hc : head (Years c) = Some 2020 /\ last (Years c) = Some 2022 /\
               2 ∈ all_tech c /\ 1 ∈ zones c).
  { vm_compute in Hi. injection Hi as <-.
    split; [reflexivity|]. split; [reflexivity|].
    split; [right; left|left]. }
  destruct Hc as (Hhd & Hlast & Htech & Hzone).
  destruct (exogenous_rows_once c Demo.capacity_rows
              {| er_name := "gen_cap_exo"; er_tech := 2; er_zone := 1;
                 er_year := 2021; er_value := PyInt 50 |}
              2020 2022 Hacc Hhd Hlast) as [Honce _];
    [right; left|exact Htech|exact Hzone|].
  destruct Honce as (year & j & prev & Hidx & Hprev & Hsel & _);
    [simpl; lia|].
  by exists c, year, j, prev.
Defined.

(** ** The result of a year *)

(** X15: the result [jsonify] builds has the five keys sets, params, vars,
    duals and objective_value, in this order; the sets are the sixteen
    plain sets then the seven sets of sets, the vars the nineteen
    variables, the duals hold srmc; and the params are the fixed
    parameters followed by exactly those of the six optional policy
    parameters that the instance has, in source order. *)
Theorem jsonify_schema `{L : Libs} (inst : instance) :
  exists sets params vars duals,
    jsonify inst =
      [("sets", JObj sets); ("params", JObj params); ("vars", JObj vars);
       ("duals", JObj duals);
       ("objective_value", objective_less_shadow inst)] /\
    dict_keys sets = (simple_sets ++ complex_sets)%list /\
    dict_keys params =
      (complex_params ++ scalar_key_params ++ scalar_params
       ++ filter (fun n => has_component inst n = true) optional_names)%list /\
    dict_keys vars = variables /\
    dict_keys duals = ["srmc"].
Proof.
  eexists _, _, _, _. split; [reflexivity|].
  split; [reflexivity|]. split; [|split; reflexivity].
  unfold optional_params, optional_names.
  rewrite !filter_cons, filter_nil.
  destruct (has_component inst "nem_year_emit_limit");
    destruct (has_component inst "nem_ret_ratio");
    destruct (has_component inst "nem_ret_gwh");
    destruct (has_component inst "region_ret_ratio");
    destruct (has_component inst "nem_disp_ratio");
    destruct (has_component inst "nem_re_disp_ratio");
    reflexivity.
Qed.

(** ** Dictionaries, the merge and the whole run *)

Lemma dict_set_keys {V} (k : string) (v : V) (d : list (string * V)) :
  dict_keys (dict_set k v d)
  = if decide (k ∈ dict_keys d) then dict_keys d
    else (dict_keys d ++ [k])%list.
Proof.
  induction d as [|[k' v'] d IH]; simpl.
  - destruct (decide (k ∈ @nil string)) as [H|_]; [by apply elem_of_nil in H|done].
  - destruct (String.eqb_spec k' k) as [->|Hne]; simpl.
    + destruct (decide (k ∈ k :: dict_keys d)) as [_|H]; [done|].
      destruct H. left.
    + fold (dict_keys (dict_set k v d)). rewrite IH. fold (dict_keys d).
      destruct (decide (k ∈ dict_keys d)) as [Hin|Hnin].
      * destruct (decide (k ∈ k' :: dict_keys d)) as [_|H]; [done|].
        destruct H. by right.
      * destruct (decide (k ∈ k' :: dict_keys d)) as [H|_]; [|done].
        apply elem_of_cons in H as [->|H]; done.
Qed.

Lemma dict_get_set {V} (k k' : string) (v : V) (d : list (string * V)) :
  dict_get k' (dict_set k v d)
  = if decide (k' = k) then Some v else dict_get k' d.
Proof.
  induction d as [|[k0 v0] d IH]; simpl.
  - destruct (String.eqb_spec k k'); case_decide; congruence.
  - destruct (String.eqb_spec k0 k); simpl.
    + destruct (String.eqb_spec k0 k'); case_decide; congruence.
    + destruct (String.eqb_spec k0 k'); [case_decide; congruence|exact IH].
Qed.

Lemma dict_set_NoDup {V} (k : string) (v : V) (d : list (string * V)) :
  NoDup (dict_keys d) -> NoDup (dict_keys (dict_set k v d)).
Proof.
  intros Hnd. rewrite dict_set_keys.
  destruct (decide (k ∈ dict_keys d)) as [Hin|Hnin]; [done|].
  apply NoDup_app. split; [done|]. split; [|apply NoDup_singleton].
  intros x Hx Hx'. apply list_elem_of_singleton in Hx'. by subst.
Qed.

Lemma dict_set_elem {V} (k k' : string) (v : V) (d : list (string * V)) :
  k' ∈ dict_keys (dict_set k v d) <-> k' = k \/ k' ∈ dict_keys d.
Proof.
  rewrite dict_set_keys.
  destruct (decide (k ∈ dict_keys d)) as [Hin|Hnin].
  - split; [by right|]. intros [->|H]; done.
  - rewrite elem_of_app, list_elem_of_singleton. tauto.
Qed.

Lemma str_int_first (z : Z) :
  exists ch rest, str_int z = String ch rest /\
    (ch = "-"%char \/ exists d, ch = pretty_N_char d).
Proof.
  destruct z as [|p|p].
  - exists "0"%char, EmptyString. split; [done|]. right. by exists 0%N.
  - unfold str_int, pretty, pretty_Z, pretty, pretty_positive, pretty,
      pretty_N.
    destruct (decide (N.pos p = 0)%N); [discriminate|].
    destruct (pretty_N_go_head (N.pos p) EmptyString) as (d & rest & ->);
      [lia|].
    exists (pretty_N_char d), rest. split; [reflexivity|]. right. by exists d.
  - exists "-"%char, (pretty p). split; [done|]. by left.
Qed.

Lemma str_int_not_meta (z : Z) : str_int z <> "meta".
Proof.
  destruct (str_int_first z) as (ch & rest & -> & [->|[d ->]]);
    [discriminate|].
  intros H. injection H as H _. revert H.
  unfold pretty_N_char. repeat case_match; discriminate.
Qed.

Lemma for_each_raises {A S} (body : S -> A -> result S) (l : list A) (st : S)
  (x : A) :
  x ∈ l -> (forall st, raises (body st x)) -> raises (for_each body l st).
Proof.
  revert st. induction l as [|a l IH]; intros st Hin Hx.
  - by apply elem_of_nil in Hin.
  - simpl. apply elem_of_cons in Hin as [->|Hin].
    + specialize (Hx st). by destruct (body st a).
    + destruct (body st a) as [st1|e]; [|done].
      rewrite bind_ret. by apply IH.
Qed.

Section Merge.
Context `{L : Libs}.
Variable c : SolveTemplate.
Variable files : fs.

Lemma merge_loop (l : list Z) :
  forall data data',
    for_each (fun data y =>
                yeardata ← json_load files (year_json_path c y);
                Ok (dict_update data [(str_int y, yeardata)])) l data
    = Ok data' ->
    (forall k, k ∈ dict_keys data' <->
       k ∈ dict_keys data \/ exists y, y ∈ l /\ k = str_int y) /\
    (NoDup (dict_keys data) -> NoDup (dict_keys data')) /\
    (forall k, (forall y, y ∈ l -> k <> str_int y) ->
       dict_get k data' = dict_get k data) /\
    (forall y, y ∈ l -> exists j,
       json_load files (year_json_path c y) = Ok j /\
       dict_get (str_int y) data' = Some j) /\
    (NoDup l -> (forall y, y ∈ l -> str_int y ∉ dict_keys data) ->
     dict_keys data' = (dict_keys data ++ (str_int <$> l))%list).
Proof.
  induction l as [|x l IH]; intros data data' H.
  - injection H as <-. split; [|split; [|split; [|split]]].
    + intros k. split; [by left|]. intros [H|(y & Hy & _)]; [done|].
      by apply elem_of_nil in Hy.
    + done.
    + done.
    + intros y Hy. by apply elem_of_nil in Hy.
    + intros _ _. by rewrite List.app_nil_r.
  - simpl in H. apply bind_Ok in H as (data1 & H1 & H).
    apply bind_Ok in H1 as (j & Hj & H1). injection H1 as <-.
    destruct (IH _ _ H) as (Hk & Hnd & Hget & Hy & Hord).
    unfold dict_update in *. simpl in *.
    split; [|split; [|split; [|split]]].
    + intros k. rewrite Hk, dict_set_elem. split.
      * intros [[->|Hin]|(y & Hin & ->)].
        -- right. exists x. split; [left|done].
        -- by left.
        -- right. exists y. split; [by right|done].
      * intros [Hin|(y & Hin & ->)]; [left; by right|].
        apply elem_of_cons in Hin as [->|Hin]; [left; by left|].
        right. by exists y.
    + intros Hd. by apply Hnd, dict_set_NoDup.
    + intros k Hne. rewrite Hget by (intros y Hin; apply Hne; by right).
      rewrite dict_get_set. rewrite decide_False; [done|]. apply Hne. left.
    + intros y Hin. destruct (decide (y ∈ l)) as [Hl|Hnl]; [by apply Hy|].
      apply elem_of_cons in Hin as [->|Hin]; [|done].
      exists j. split; [done|]. rewrite Hget.
      * rewrite dict_get_set. by rewrite decide_True.
      * intros y Hin Heq. apply (inj pretty) in Heq. by subst.
    + intros Hnd' Hfresh. apply NoDup_cons in Hnd' as [Hx Hnd'].
      rewrite Hord.
      * rewrite dict_set_keys, decide_False by (apply Hfresh; left).
        by rewrite <- List.app_assoc.
      * done.
      * intros y Hin. rewrite dict_set_keys, decide_False by (apply Hfresh; left).
        rewrite elem_of_app, list_elem_of_singleton.
        intros [H'|H']; [by apply (Hfresh y); [right|]|].
        apply (inj pretty) in H'. by subst.
Qed.

End Merge.

Section Report.
Context `{L : Libs}.
Variable c : SolveTemplate.
Hypothesis Hacc : accepted c.
Hypothesis Hout : inputs_outside c.
Hypothesis Hext : externals_succeed c.

Lemma solve_Ok (files : fs) :
  readable c files ->
  exists result report meta,
    solve c files = Ok result /\
    result !! report_path c = Some (FJson (JObj report)) /\
    dict_get "meta" report = Some (JObj meta) /\
    dict_get "Years" meta
    = Some (JArr ((fun y => JNum (PyInt y)) <$> Years c)) /\
    NoDup (dict_keys report) /\
    (forall k, k ∈ dict_keys report <->
       k = "meta" \/ exists y, y ∈ Years c /\ k = str_int y) /\
    (forall y, y ∈ Years c -> exists inst,
       dict_get (str_int y) report = Some (JObj (jsonify inst))) /\
    (NoDup (Years c) ->
     dict_keys report = "meta" :: (str_int <$> Years c)).
Proof.
  intros Hr.
  destruct (solve_years_Ok c Hacc Hout Hext (Years c) files)
    as (after & Hloop & Hframe & Hjson & _); [done|exact Hr|].
  assert (Hr' : readable c after).
  { apply (readable_frame c Hout files); [exact Hr|].
    intros p Hp. apply Hframe. intros y _.
    split; [by apply outside_dcf|]. split; [by apply outside_year_json|].
    intros ->. by destruct (outside_gen_cap_op c _ y Hp). }
  destruct (generate_metadata_Ok c after Hr')
    as (_ & _ & _ & _ & meta & Hmeta & Hyears).
  destruct (merged_report_Ok c after Hr' Hjson) as (report & Hrep).
  exists (<[report_path c := FJson (JObj report)]> after), report, meta.
  split; [unfold solve, mergejsonyears; by rewrite Hloop, bind_ret, Hrep|].
  split; [by rewrite lookup_insert_eq|].
  unfold merged_report in Hrep. rewrite Hmeta, bind_ret in Hrep.
  destruct (merge_loop c after _ _ _ Hrep) as (Hk & Hnd & Hget & Hy & Hord).
  split; [|split; [exact Hyears|split; [|split; [|split]]]].
  - rewrite Hget; [reflexivity|]. intros y _ Heq. symmetry in Heq.
    by destruct (str_int_not_meta y).
  - apply Hnd. apply NoDup_singleton.
  - intros k. rewrite Hk. simpl. rewrite list_elem_of_singleton. tauto.
  - intros y Hin. destruct (Hy y Hin) as (j & Hj & Hg).
    destruct (Hjson y Hin) as (inst & Hinst).
    exists inst. unfold json_load in Hj. rewrite Hinst in Hj.
    injection Hj as <-. exact Hg.
  - intros Hnd'. rewrite Hord; [reflexivity|exact Hnd'|].
    intros y _ Hin. apply list_elem_of_singleton in Hin.
    by destruct (str_int_not_meta y).
Qed.

End Report.

(** [roundup] turns a usable capacity into a number that is not
    negative. *)
Lemma roundup_usable (v : num) :
  usable_capacity v -> exists r, roundup v = Ok r /\ settable r.
Proof.
  assert (Hl : (0 < lit_1e_6)%Q) by (vm_compute; reflexivity).
  destruct v as [z|[q| | |]]; simpl; intros Hv; try done.
  - exists (PyInt z). split.
    + unfold roundup.
      assert (E : num_ltb (PyInt z) (PyInt 0) = false).
      { change (num_ltb (PyInt z) (PyInt 0))
          with (Qltb (inject_Z z) (inject_Z 0)).
        destruct (Qltb _ _) eqn:E; [|reflexivity].
        apply Qltb_lt in E. rewrite <- Zlt_Qlt in E. lia. }
      rewrite E, andb_false_r. reflexivity.
    + unfold settable. simpl. rewrite Zle_Qle in Hv. exact Hv.
  - destruct Hv as [Hlo Hbig]. unfold roundup.
    change (num_ltb (PyFloat (- lit_1e_6)%Q) (PyFloat q))
      with (Qltb (- lit_1e_6) q).
    change (num_ltb (PyFloat q) (PyInt 0)) with (Qltb q 0).
    destruct (Qltb (- lit_1e_6) q && Qltb q 0) eqn:Eband.
    { exists (PyInt 0). split; [reflexivity|]. apply Qle_refl. }
    unfold round2, py_round2.
    assert (Hn0 : 0 <= round_half_even (q * 100)).
    { destruct (Qlt_le_dec q 0) as [Hneg|Hpos].
      - rewrite round_half_even_zero; [lia|]. split; lra.
      - apply round_half_even_nonneg. lra. }
    pose proof (round_half_even_near (q * 100)) as Hnear.
    set (n := round_half_even (q * 100)) in *.
    destruct (Z.eqb_spec n 0) as [Hn|Hn].
    + rewrite bind_ret. destruct (Qltb q 0).
      * exists (PyFloat NegZero). split; [reflexivity|].
        unfold settable. simpl. lra.
      * exists (PyFloat 0%Q). split; [reflexivity|].
        unfold settable. simpl. lra.
    + assert (Hh : (n # 100 == inject_Z n * (1 # 100))%Q) by apply hundredths.
      assert (Hnq : (0 <= inject_Z n)%Q).
      { change 0%Q with (inject_Z 0). by rewrite <- Zle_Qle. }
      assert (H1000 : (pow2 1000 + 1 <= pow2 1023)%Q).
      { assert (H0 : (1 <= pow2 1000)%Q)
          by (change 1%Q with (pow2 0); apply pow2_le; lia).
        assert (H2 : (pow2 1001 == 2 * pow2 1000)%Q).
        { change 1001 with (1 + 1000). rewrite pow2_add. reflexivity. }
        assert (H3 : (pow2 1001 <= pow2 1023)%Q) by (apply pow2_le; lia).
        lra. }
      assert (Hx : (- pow2 1000 < q < pow2 1000)%Q).
      { apply Qabs_Qlt_condition. exact Hbig. }
      assert (Hnb : (Qabs (n # 100) < pow2 1023)%Q).
      { apply Qabs_Qlt_condition. rewrite Hh. split; lra. }
      destruct (nearest_double_spec (n # 100) Hnb)
        as (d & Hnd & Hd0 & _ & _).
      rewrite Hnd, bind_ret. exists (PyFloat d). split; [reflexivity|].
      unfold settable. simpl. apply Hd0. rewrite Hh. lra.
  - exists (PyFloat NegZero). split; [reflexivity|].
    unfold settable. simpl. lra.
Qed.

Lemma for_each_inv {A S} (P : S -> Prop) (body : S -> A -> result S)
  (l : list A) (st : S) :
  P st ->
  (forall st x, x ∈ l -> P st -> exists st', body st x = Ok st' /\ P st') ->
  exists st', for_each body l st = Ok st' /\ P st'.
Proof.
  revert st. induction l as [|x l IH]; intros st Hst Hbody.
  - by exists st.
  - destruct (Hbody st x (list_elem_of_here x l) Hst) as (st1 & E1 & H1).
    simpl. rewrite E1, bind_ret. apply IH; [exact H1|].
    intros st2 y Hy. apply Hbody. by apply list_elem_of_further.
Qed.

Section Capacities.
Context `{L : Libs}.
Variables (inst0 : instance) (data : list (string * num)).
Hypothesis Hset : forall inst var k v, settable v ->
  exists inst', set_var inst var k v = Ok inst' /\
    forall set z, tech_per_zone inst' set z = tech_per_zone inst set z.
Hypothesis Hdata : forall var set z n,
  (var, set) ∈ capacity_variables ->
  z ∈ inst_zones inst0 -> n ∈ tech_per_zone inst0 set z ->
  exists v,
    dict_get (var +:+ "[" +:+ (str_int z +:+ "," +:+ str_int n) +:+ "]") data
      = Some v /\
    usable_capacity v.

Lemma assign_capacities_Ok (var set : string) (z : Z) (inst : instance) :
  (var, set) ∈ capacity_variables -> z ∈ inst_zones inst0 ->
  same_sets inst0 inst ->
  exists inst',
    for_each (assign_capacity data var z) (tech_per_zone inst set z) inst
      = Ok inst' /\
    same_sets inst0 inst'.
Proof.
  intros Hvar Hz Hsame. rewrite (Hsame set z).
  apply for_each_inv; [exact Hsame|].
  intros st n Hn Hst.
  destruct (Hdata var set z n Hvar Hz Hn) as (v & Hv & Hu).
  destruct (roundup_usable v Hu) as (r & Hr & Hs).
  destruct (Hset st var (z, n) r Hs) as (st' & Hst' & Hsets).
  exists st'. unfold assign_capacity. rewrite Hv. simpl.
  rewrite Hr, bind_ret. split; [exact Hst'|].
  intros s z'. by rewrite Hsets.
Qed.

Lemma setinstancecapacity_Ok : succeeds (setinstancecapacity inst0 data).
Proof.
  unfold setinstancecapacity.
  destruct (for_each_inv (same_sets inst0)
    (fun inst z =>
       inst ← for_each (assign_capacity data "gen_cap_new" z)
                (tech_per_zone inst "gen_tech_per_zone" z) inst;
       inst ← for_each (assign_capacity data "stor_cap_new" z)
                (tech_per_zone inst "stor_tech_per_zone" z) inst;
       inst ← for_each (assign_capacity data "hyb_cap_new" z)
                (tech_per_zone inst "hyb_tech_per_zone" z) inst;
       for_each (assign_capacity data "gen_cap_ret" z)
         (tech_per_zone inst "retire_gen_tech_per_zone" z) inst)
    (inst_zones inst0) inst0) as (inst' & E & _).
  - intros set z. reflexivity.
  - intros st z Hz Hst.
    destruct (assign_capacities_Ok "gen_cap_new" "gen_tech_per_zone" z st)
      as (st1 & E1 & H1); [set_solver|done|done|].
    destruct (assign_capacities_Ok "stor_cap_new" "stor_tech_per_zone" z st1)
      as (st2 & E2 & H2); [set_solver|done|done|].
    destruct (assign_capacities_Ok "hyb_cap_new" "hyb_tech_per_zone" z st2)
      as (st3 & E3 & H3); [set_solver|done|done|].
    destruct (assign_capacities_Ok "gen_cap_ret" "retire_gen_tech_per_zone" z
                st3) as (st4 & E4 & H4); [set_solver|done|done|].
    exists st4. by rewrite E1, bind_ret, E2, bind_ret, E3, bind_ret, E4.
  - rewrite E. exact I.
Qed.

End Capacities.

(** What is assumed of the libraries makes [setinstancecapacity]
    return. *)
Lemma libraries_externals `{L : Libs} (c : SolveTemplate) :
  libraries_return c -> externals_succeed c.
Proof.
  intros [Hcreate Hsolve Hset Hcluster]. split; [exact Hcreate|exact Hsolve|].
  intros Hon inst t f.
  destruct (Hcluster Hon inst t f) as (ccap & Hrun & Hdata).
  exists ccap. split; [exact Hrun|].
  apply setinstancecapacity_Ok; [exact (Hset Hon)|exact Hdata].
Qed.

Lemma clustered_readable files cfgfile_ solver_ log_ tmpdir_ c :
  init (L := Clustered.libs) files cfgfile_ solver_ log_ tmpdir_ = Ok c ->
  readable (L := Clustered.libs) c files.
Proof.
  intros Hi. apply init_files in Hi as (Ht & Hc & He).
  assert (Hrd : forall p, is_Some (files !! p) ->
            exists text, file_text (L := Clustered.libs) files p = Ok text).
  { intros p [f Hf]. unfold file_text. rewrite Hf. destruct f; by eexists. }
  split; [exact Ht|..]; intros p Hp.
  - destruct (Hrd p (Hc p Hp)) as [text ->]. by eexists _, _.
  - destruct (Hrd p (He p Hp)) as [text ->]. by eexists _, _.
  - destruct (Hrd p (Hc p Hp)) as [text ->]. by eexists _, _.
  - destruct (Hrd p (He p Hp)) as [text ->]. by eexists _, _.
Qed.

Lemma clustered_libraries (c : SolveTemplate) :
  libraries_return (L := Clustered.libs) c.
Proof.
  split.
  - intros y t f. exact I.
  - intros inst. exact I.
  - intros _ inst var k v Hv. exists (inst ++ [(var, k, v)])%list.
    split; [|reflexivity]. simpl. unfold settable in Hv.
    unfold Clustered.accepts. destruct (num_val v) as [[|q|]|]; try done.
    apply Qle_bool_iff in Hv. by rewrite Hv.
  - intros _ inst t f. exists Clustered.capacities. split; [reflexivity|].
    intros var set z n Hvar Hz Hn.
    apply list_elem_of_In in Hvar, Hz. simpl in Hvar, Hz.
    destruct Hz as [<-|[<-|[]]];
      destruct Hvar as [[= <- <-]|[[= <- <-]|[[= <- <-]|[[= <- <-]|[]]]]];
      apply list_elem_of_In in Hn; simpl in Hn;
      repeat (destruct Hn as [<-|Hn]); try done;
      (eexists; split; [reflexivity|]; simpl; try done;
       split; vm_compute; done).
Qed.

(** The capacities the clustering step reports, as [setinstancecapacity]
    assigns them zone by zone: 1.2345 as 1.23, -5e-7 as the integer 0,
    -1e-5 as minus zero and 3 as it is. *)
Example clustered_capacities_assigned :
  setinstancecapacity (L := Clustered.libs) [] Clustered.capacities
  = Ok [("gen_cap_new", (1, 1), PyFloat lit_1_23);
        ("gen_cap_new", (1, 2), PyInt 0);
        ("gen_cap_ret", (1, 1), PyFloat NegZero);
        ("stor_cap_new", (2, 14), PyInt 3)].
Proof. vm_compute. reflexivity. Qed.

(** X16: a scenario the constructor returned solves, whatever the number
    of its years and with or without clustering and policies, when its
    input files can be read and lie outside the working directory, the
    model builder and the solver return and, with clustering on, the
    clustering step reports for every capacity variable, zone and
    technology of the instance a capacity from -0.005 (or minus zero, or
    an integer from 0) and the variables take every finite number that is
    not negative.  The final report is then stored at the report path; it
    holds the metadata under meta, with the configured years, and under
    the text of each configured year the full result of that year; it has
    no other key and no key twice; when no year is configured twice its
    keys are meta followed by the years in order. *)
Theorem constructed_scenario_solves `{L : Libs} (files : fs)
  (cfgfile_ solver_ : string) (log_ : bool) (tmpdir_ : string)
  (c : SolveTemplate) :
  init files cfgfile_ solver_ log_ tmpdir_ = Ok c ->
  readable c files ->
  inputs_outside c ->
  libraries_return c ->
  exists result report meta,
    solve c files = Ok result /\
    result !! report_path c = Some (FJson (JObj report)) /\
    dict_get "meta" report = Some (JObj meta) /\
    dict_get "Years" meta
    = Some (JArr ((fun y => JNum (PyInt y)) <$> Years c)) /\
    NoDup (dict_keys report) /\
    (forall k, k ∈ dict_keys report <->
       k = "meta" \/ exists y, y ∈ Years c /\ k = str_int y) /\
    (forall y, y ∈ Years c -> exists inst,
       dict_get (str_int y) report = Some (JObj (jsonify inst))) /\
    (NoDup (Years c) ->
     dict_keys report = "meta" :: (str_int <$> Years c)).
Proof.
  intros Hi Hr Hout Hlib.
  apply (solve_Ok c (init_accepted _ _ _ _ _ c Hi) Hout
           (libraries_externals c Hlib) files Hr).
Qed.

Lemma constructed_scenario_solves_witness :
  exists c result report,
    init (L := Clustered.libs) (Demo.files_with "clustered") "scenario.cfg"
      "cbc" true "/tmp/x/" = Ok c /\
    cluster c = Some true /\
    solve (L := Clustered.libs) c (Demo.files_with "clustered") = Ok result /\
    result !! "scenario.json" = Some (FJson (JObj report)) /\
    dict_keys report = ["meta"; "2020"; "2022"].
Proof.
  destruct (init (L := Clustered.libs) (Demo.files_with "clustered")
              "scenario.cfg" "cbc" true "/tmp/x/") as [c|e] eqn:Hi;
    [|vm_compute in Hi; discriminate].
  pose proof (clustered_readable _ _ _ _ _ _ Hi) as Hread.
  assert (Hc : Years c = [2020; 2022] /\ inputs_outside c /\
               report_path c = "scenario.json" /\ cluster c = Some true).
  { vm_compute in Hi. injection Hi as <-.
    split; [reflexivity|]. split; [|split; reflexivity].
    split; [intros s H|intros p Hp|intros p Hp]; discriminate. }
  destruct Hc as (Hy & Hout & Hpath & Hcl).
  destruct (constructed_scenario_solves (L := Clustered.libs) _ _ _ _ _ c Hi
              Hread Hout (clustered_libraries c))
    as (result & report & meta & Hsolve & Hreport & _ & _ & _ & _ & _ & Hkeys).
  exists c, result, report. rewrite <- Hpath.
  split; [done|]. split; [done|]. split; [done|]. split; [done|].
  rewrite Hkeys; rewrite Hy; [reflexivity|].
  by apply (bool_decide_unpack _).
Defined.

(** X18: [mergejsonyears] raises when the result file of a configured
    year is missing, so it cannot assemble a report before every year has
    been solved. *)
Theorem merge_needs_results `{L : Libs} (c : SolveTemplate) (files : fs)
  (y : Z) :
  y ∈ Years c ->
  files !! year_json_path c y = None ->
  raises (mergejsonyears c files).
Proof.
  intros Hy Hnone. unfold mergejsonyears, merged_report.
  destruct (generate_metadata c files) as [data|e]; [|exact I].
  rewrite bind_ret.
  match goal with
  | |- raises (mbind _ ?r) =>
      assert (Hr : raises r); [|by destruct r]
  end.
  apply (for_each_raises _ _ _ y Hy). intros st.
  unfold json_load. by rewrite Hnone.
Qed.

Lemma merge_needs_results_witness :
  exists c,
    init (L := Demo.libs) (Demo.files_with "plain") "scenario.cfg" "cbc"
      false "/tmp/x/" = Ok c /\
    raises (mergejsonyears (L := Demo.libs) c (Demo.files_with "plain")).
Proof.
  destruct (init (L := Demo.libs) (Demo.files_with "plain") "scenario.cfg"
              "cbc" false "/tmp/x/") as [c|e] eqn:Hi;
    [|vm_compute in Hi; discriminate].
  exists c. split; [done|].
  apply (merge_needs_results (L := Demo.libs) c _ 2020);
    vm_compute in Hi; injection Hi as <-; [left|reflexivity].
Defined.

Lemma dcfName_inj (c : SolveTemplate) y y' :
  dcfName c y = dcfName c y' -> y = y'.
Proof.
  unfold dcfName. intros H.
  apply (inj (String.app _)) in H. apply (inj (String.app _)) in H.
  apply app_inj_r in H. by apply (inj pretty) in H.
Qed.

(** X19: the three files a year leaves in the working directory have
    paths of their own: the template, the result and the carry-forward
    artifact of a year determine the year, and no path of one kind is a
    path of another kind, whatever the years. *)
Theorem artifact_paths_distinct (c : SolveTemplate) (y y' : Z) :
  (dcfName c y = dcfName c y' <-> y = y') /\
  (year_json_path c y = year_json_path c y' <-> y = y') /\
  (gen_cap_op_path c y = gen_cap_op_path c y' <-> y = y') /\
  dcfName c y <> year_json_path c y' /\
  dcfName c y <> gen_cap_op_path c y' /\
  year_json_path c y <> gen_cap_op_path c y'.
Proof.
  split; [split; [apply dcfName_inj|by intros ->]|].
  split; [split; [apply year_json_path_inj|by intros ->]|].
  split; [split; [apply gen_cap_op_path_inj|by intros ->]|].
  split; [intros H; symmetry in H; by destruct (year_json_not_dcf c _ _ H)|].
  split; [intros H; symmetry in H; by destruct (gen_cap_op_not_dcf c _ _ H)|].
  apply year_json_not_gen_cap_op.
Qed.

(** ** The name of the final report *)

Lemma before_dot_stem (stem rest : string) :
  occurs "." stem = false ->
  before_dot stem = stem /\ before_dot (stem +:+ "." +:+ rest) = stem.
Proof.
  induction stem as [|ch stem IH]; intros H; [done|].
  change (occurs "." (String ch stem))
    with ((if Ascii.eqb "."%char ch then true else false) || occurs "." stem)
    in H.
  rewrite app_cons.
  change (before_dot (String ch stem))
    with (if Ascii.eqb ch "."%char then EmptyString
          else String ch (before_dot stem)).
  change (before_dot (String ch (stem +:+ "." +:+ rest)))
    with (if Ascii.eqb ch "."%char then EmptyString
          else String ch (before_dot (stem +:+ "." +:+ rest))).
  destruct (Ascii.eqb_spec "."%char ch) as [<-|Hne]; [discriminate|].
  destruct (IH H) as [-> ->].
  destruct (Ascii.eqb_spec ch "."%char) as [->|_]; done.
Qed.

(** X20: the final report is named after the text of the configuration
    path before its FIRST dot, followed by .json; a path without a dot
    gives the whole path followed by .json, and a path such as
    ./run/scenario.cfg gives .json. *)
Theorem report_path_stem (c : SolveTemplate) (stem rest : string) :
  occurs "." stem = false ->
  cfgfile c = stem \/ cfgfile c = stem +:+ "." +:+ rest ->
  report_path c = stem +:+ ".json".
Proof.
  intros Hdot Hcfg. unfold report_path.
  destruct (before_dot_stem stem rest Hdot) as [H1 H2].
  destruct Hcfg as [->| ->]; by rewrite ?H1, ?H2.
Qed.

Lemma report_path_stem_witness :
  exists c,
    init (L := Demo.libs)
      (<["./run/scenario.cfg" := FText "plain"]> (Demo.files_with "plain"))
      "./run/scenario.cfg" "cbc" false "/tmp/x/" = Ok c /\
    report_path c = ".json".
Proof.
  destruct (init (L := Demo.libs)
              (<["./run/scenario.cfg" := FText "plain"]>
                 (Demo.files_with "plain"))
              "./run/scenario.cfg" "cbc" false "/tmp/x/") as [c|e] eqn:Hi;
    [|vm_compute in Hi; discriminate].
  exists c. split; [done|].
  apply (report_path_stem c EmptyString "/run/scenario.cfg"); [reflexivity|].
  right. vm_compute in Hi. by injection Hi as <-.
Defined.

(** ** The data that initialises a model *)

Lemma jsoninit_unfold `{L : Libs} (py_int : string -> option Z)
  (inst : instance) :
  jsoninit py_int inst
  = for_each (convert py_int) (dict_keys (init_entries inst))
      (init_entries inst).
Proof.
  unfold jsoninit, jsonify, init_entries, optional_params.
  destruct (has_component inst "nem_year_emit_limit");
    destruct (has_component inst "nem_ret_ratio");
    destruct (has_component inst "nem_ret_gwh");
    destruct (has_component inst "region_ret_ratio");
    destruct (has_component inst "nem_disp_ratio");
    destruct (has_component inst "nem_re_disp_ratio");
    reflexivity.
Qed.

Lemma dict_get_key {V} (k : string) (d : list (string * V)) :
  is_Some (dict_get k d) <-> k ∈ dict_keys d.
Proof.
  induction d as [|[k' v] d IH]; simpl.
  - split; [intros [? ?]; discriminate|intros H; by apply elem_of_nil in H].
  - destruct (String.eqb_spec k' k) as [->|Hne].
    + split; [intros _; left|by eexists].
    + rewrite IH. fold (dict_keys d). rewrite elem_of_cons.
      split; [by right|]. intros [->|H]; done.
Qed.

Section JsonInitFacts.
Context `{L : Libs}.
Variable py_int : string -> option Z.

Lemma records_Ok (d : list (string * json)) :
  forall acc out,
    for_each
      (fun out kv =>
         match py_int kv.1 with
         | Some i => Ok (out ++ [index_record i kv.2])%list
         | None => Raise (ValueError "invalid literal for int() with base 10")
         end) d acc = Ok out ->
    exists items,
      out = (acc ++ items)%list /\
      Forall2 (fun kv item =>
                 exists i, py_int kv.1 = Some i /\
                           item = index_record i kv.2) d items.
Proof.
  induction d as [|kv d IH]; intros acc out H.
  - injection H as <-. exists []. by rewrite List.app_nil_r.
  - simpl in H. destruct (py_int kv.1) as [i|] eqn:Ei; [|discriminate].
    rewrite bind_ret in H. destruct (IH _ _ H) as (items & -> & Hall).
    exists (index_record i kv.2 :: items).
    split; [by rewrite <- List.app_assoc|].
    constructor; [by exists i|exact Hall].
Qed.

Lemma convert_Ok (out out' : list (string * json)) (o : string) :
  convert py_int out o = Ok out' ->
  dict_keys out' = dict_keys out /\
  converted py_int (dict_get o out) (dict_get o out') /\
  (forall d, dict_get o out' <> Some (JObj d)) /\
  (forall k, k <> o -> dict_get k out' = dict_get k out).
Proof.
  unfold convert. intros H.
  destruct (dict_get o out) as [v|] eqn:Eo; [|discriminate].
  assert (Hpass : out' = out -> (forall d, v <> JObj d) ->
            dict_keys out' = dict_keys out /\
            converted py_int (Some v) (dict_get o out') /\
            (forall d, dict_get o out' <> Some (JObj d)) /\
            (forall k, k <> o -> dict_get k out' = dict_get k out)).
  { intros -> Hv. rewrite Eo. split; [done|].
    split; [destruct v as [| | | | |d]; try done; by destruct (Hv d)|].
    split; [|done].
    intros d Hd. injection Hd as ->. by destruct (Hv d). }
  destruct v as [|b|n|t|l|d];
    try (injection H as <-; by apply Hpass).
  apply bind_Ok in H as (v & Hv & H). injection H as <-.
  unfold simple_as_complex in Hv.
  apply bind_Ok in Hv as (items & Hi & Hv). injection Hv as <-.
  apply records_Ok in Hi as (items' & -> & Hall). simpl.
  split; [|split; [|split]].
  - rewrite dict_set_keys, decide_True; [done|].
    apply dict_get_key. by rewrite Eo.
  - exists items'. by rewrite dict_get_set, decide_True.
  - intros d'. by rewrite dict_get_set, decide_True.
  - intros k Hk. by rewrite dict_get_set, decide_False.
Qed.

Lemma convert_loop (l : list string) :
  forall out out',
    for_each (convert py_int) l out = Ok out' ->
    dict_keys out' = dict_keys out /\
    (forall k, k ∉ l -> dict_get k out' = dict_get k out) /\
    (forall k, k ∈ l ->
       converted py_int (dict_get k out) (dict_get k out') /\
       forall d, dict_get k out' <> Some (JObj d)).
Proof.
  induction l as [|x l IH]; intros out out' H.
  - injection H as <-. split; [done|]. split; [done|].
    intros k Hk. by apply elem_of_nil in Hk.
  - simpl in H. apply bind_Ok in H as (out1 & H1 & H).
    destruct (IH _ _ H) as (Hkeys & Hout & Hin).
    destruct (convert_Ok _ _ _ H1) as (Hkeys1 & Hconv & Hnd & Hother).
    assert (Hx : dict_get x out' = dict_get x out1).
    { destruct (decide (x ∈ l)) as [Hl|Hnl]; [|by apply Hout].
      destruct (Hin x Hl) as [Hc _]. unfold converted in Hc.
      destruct (dict_get x out1) as [[| | | | |d]|] eqn:E1; try done.
      by destruct (Hnd d). }
    split; [congruence|]. split.
    + intros k Hk. apply not_elem_of_cons in Hk as [Hne Hk].
      rewrite Hout by done. by apply Hother.
    + intros k Hk. destruct (decide (k = x)) as [->|Hne].
      * rewrite Hx. by split.
      * apply elem_of_cons in Hk as [->|Hk]; [done|].
        rewrite <- (Hother k Hne). by apply Hin.
Qed.

End JsonInitFacts.

(** X21: whenever [jsoninit] returns, its result holds the sixteen plain
    sets and the params of the instance, in the order [jsonify] gives
    them, and none of the seven sets of sets; no value of it is a dict;
    the plain sets and the params with tuple keys are the lists [jsonify]
    gives; every dict-valued param has become the list of the index/value
    records of its items, in order, each index being the integer its key
    denotes. *)
Theorem jsoninit_shape `{L : Libs} (py_int : string -> option Z)
  (inst : instance) (out : list (string * json)) :
  jsoninit py_int inst = Ok out ->
  dict_keys out
  = (simple_sets ++ complex_params ++ scalar_key_params ++ scalar_params
     ++ filter (fun n => has_component inst n = true) optional_names)%list /\
  (forall k d, dict_get k out <> Some (JObj d)) /\
  (forall n, n ∈ simple_sets ->
     dict_get n out = Some (JArr (set_members inst n))) /\
  (forall n, n ∈ complex_params ->
     dict_get n out = Some (fill_complex_param inst n)) /\
  (forall n, n ∈ scalar_key_params ->
     converted py_int (Some (fill_scalar_key_param inst n)) (dict_get n out)) /\
  (forall n, n ∈ scalar_params ->
     converted py_int (Some (param_value inst n)) (dict_get n out)) /\
  (has_component inst "region_ret_ratio" = true ->
   converted py_int (Some (fill_scalar_key_param inst "region_ret_ratio"))
     (dict_get "region_ret_ratio" out)).
Proof.
  rewrite jsoninit_unfold. intros H.
  apply convert_loop in H as (Hkeys & Hout & Hin).
  assert (Hconv : forall k v,
            dict_get k (init_entries inst) = Some v ->
            converted py_int (Some v) (dict_get k out)).
  { intros k v Hv. rewrite <- Hv. apply Hin. apply dict_get_key.
    by rewrite Hv. }
  assert (Hvalue : forall k v,
            dict_get k (init_entries inst) = Some v ->
            (forall d, v <> JObj d) -> dict_get k out = Some v).
  { intros k v Hv Hd. specialize (Hconv k v Hv).
    destruct v as [| | | | |d]; try done. by destruct (Hd d). }
  split; [|split; [|split; [|split; [|split; [|split]]]]].
  - rewrite Hkeys. unfold init_entries, optional_params, optional_names.
    rewrite !filter_cons, filter_nil.
    destruct (has_component inst "nem_year_emit_limit");
      destruct (has_component inst "nem_ret_ratio");
      destruct (has_component inst "nem_ret_gwh");
      destruct (has_component inst "region_ret_ratio");
      destruct (has_component inst "nem_disp_ratio");
      destruct (has_component inst "nem_re_disp_ratio");
      reflexivity.
  - intros k d. destruct (decide (k ∈ dict_keys (init_entries inst)))
      as [Hk|Hk]; [by apply Hin|].
    rewrite (Hout k Hk). intros Hd. apply Hk. apply dict_get_key.
    by rewrite Hd.
  - intros n Hn. unfold simple_sets in Hn.
    repeat (apply elem_of_cons in Hn as [->|Hn]; [by apply Hvalue|]).
    by apply elem_of_nil in Hn.
  - intros n Hn. unfold complex_params in Hn.
    repeat (apply elem_of_cons in Hn as [->|Hn]; [by apply Hvalue|]).
    by apply elem_of_nil in Hn.
  - intros n Hn. unfold scalar_key_params in Hn.
    repeat (apply elem_of_cons in Hn as [->|Hn]; [by apply Hconv|]).
    by apply elem_of_nil in Hn.
  - intros n Hn. unfold scalar_params in Hn.
    repeat (apply elem_of_cons in Hn as [->|Hn]; [by apply Hconv|]).
    by apply elem_of_nil in Hn.
  - intros Hc. apply Hconv. unfold init_entries, optional_params.
    rewrite Hc.
    destruct (has_component inst "nem_year_emit_limit");
      destruct (has_component inst "nem_ret_ratio");
      destruct (has_component inst "nem_ret_gwh"); reflexivity.
Qed.

Lemma jsoninit_shape_witness :
  exists out,
    jsoninit (L := Keyed.libs) Keyed.py_int 2020 = Ok out /\
    last (dict_keys out) = Some "nem_ret_ratio" /\
    dict_get "gen_tech_per_zone" out = None /\
    exists items,
      dict_get "cost_gen_fom" out = Some (JArr items) /\
      length items = 2%nat.
Proof.
  destruct (jsoninit (L := Keyed.libs) Keyed.py_int 2020) as [out|e] eqn:Hj;
    [|vm_compute in Hj; discriminate].
  destruct (jsoninit_shape (L := Keyed.libs) Keyed.py_int 2020 out Hj)
    as (Hkeys & _ & _ & _ & Hkeyed & _).
  exists out. split; [done|]. split; [by rewrite Hkeys|]. split.
  - destruct (dict_get "gen_tech_per_zone" out) as [v|] eqn:Ev; [|done].
    assert (Hin : "gen_tech_per_zone" ∈ dict_keys out).
    { apply dict_get_key. by rewrite Ev. }
    rewrite Hkeys in Hin. vm_compute in Hin.
    apply list_elem_of_In in Hin. simpl in Hin. intuition discriminate.
  - destruct (Hkeyed "cost_gen_fom") as (items & Hget & Hall).
    { apply list_elem_of_In. simpl. tauto. }
    exists items. split; [done|].
    by apply Forall2_length in Hall as <-.
Defined.

Lemma dict_get_In {V} (k : string) (v : V) (d : list (string * V)) :
  dict_get k d = Some v -> (k, v) ∈ d.
Proof.
  induction d as [|[k' v'] d IH]; simpl; [discriminate|].
  destruct (String.eqb_spec k' k) as [->|Hne].
  - intros H. injection H as ->. left.
  - intros H. right. by apply IH.
Qed.

Lemma dict_update_elem {V} (items acc : list (string * V)) (k : string) :
  k ∈ dict_keys (dict_update acc items) ->
  k ∈ dict_keys acc \/ k ∈ items.*1.
Proof.
  unfold dict_update. revert acc.
  induction items as [|[k' v'] items IH]; intros acc; simpl; [by left|].
  intros H. apply IH in H as [H|H]; [|right; by right].
  apply dict_set_elem in H as [->|H]; [right; left|by left].
Qed.

Section JsonInitReturns.
Context `{L : Libs}.
Variable py_int : string -> option Z.

Lemma records_total (d : list (string * json)) :
  Forall (fun kv => is_Some (py_int kv.1)) d ->
  forall acc, exists out,
    for_each
      (fun out kv =>
         match py_int kv.1 with
         | Some i => Ok (out ++ [index_record i kv.2])%list
         | None => Raise (ValueError "invalid literal for int() with base 10")
         end) d acc = Ok out.
Proof.
  induction 1 as [|kv d [i Hi] _ IH]; intros acc; [by eexists|].
  simpl. rewrite Hi, bind_ret. apply IH.
Qed.

Lemma convert_loop_Ok (l : list string) :
  forall out,
    (forall k, k ∈ l -> exists v,
       dict_get k out = Some v /\
       forall d, v = JObj d -> Forall (fun kv => is_Some (py_int kv.1)) d) ->
    exists out', for_each (convert py_int) l out = Ok out'.
Proof.
  induction l as [|x l IH]; intros out Hl; [by eexists|].
  destruct (Hl x) as (v & Hv & Hd); [left|].
  assert (H1 : exists out1, convert py_int out x = Ok out1).
  { unfold convert. rewrite Hv. destruct v as [| | | | |d]; try by eexists.
    unfold simple_as_complex.
    destruct (records_total d (Hd d eq_refl) []) as (items & ->).
    rewrite !bind_ret. by eexists. }
  destruct H1 as (out1 & H1). simpl. rewrite H1, bind_ret.
  apply IH. intros k Hk.
  destruct (convert_Ok py_int _ _ _ H1) as (_ & _ & Hnd & Hother).
  destruct (decide (k = x)) as [->|Hne].
  - destruct (dict_get x out1) as [v1|] eqn:E1.
    + exists v1. split; [done|]. intros d ->. by destruct (Hnd d).
    + unfold convert in H1. rewrite Hv in H1.
      destruct v as [| | | | |d];
        try (injection H1 as <-; congruence).
      apply bind_Ok in H1 as (v1 & _ & H1). injection H1 as <-.
      simpl in E1. rewrite dict_get_set, decide_True in E1; done.
  - rewrite (Hother k Hne). apply Hl. by right.
Qed.

End JsonInitReturns.

(** X22: [jsoninit] returns when the index texts of the params keyed by
    one index (those with scalar keys and region_ret_ratio) denote
    integers and no scalar param has a dict for value. *)
Theorem jsoninit_returns `{L : Libs} (py_int : string -> option Z)
  (inst : instance) :
  (forall n kv, n ∈ ("region_ret_ratio" :: scalar_key_params) ->
     kv ∈ param_items inst n -> is_Some (py_int (str_index kv.1))) ->
  (forall n d, param_value inst n <> JObj d) ->
  succeeds (jsoninit py_int inst).
Proof.
  intros Hparse Hscalar. rewrite jsoninit_unfold.
  assert (Hkeyed : forall n d,
            n ∈ ("region_ret_ratio" :: scalar_key_params) ->
            fill_scalar_key_param inst n = JObj d ->
            Forall (fun kv => is_Some (py_int kv.1)) d).
  { intros n d Hn Hd. unfold fill_scalar_key_param in Hd.
    injection Hd as <-. apply Forall_forall. intros [k v] Hkv.
    assert (Hk : k ∈ dict_keys
                   (dict_of ((fun kv => (str_index kv.1, kv.2))
                               <$> param_items inst n))).
    { apply list_elem_of_fmap. by exists (k, v). }
    apply dict_update_elem in Hk as [Hk|Hk]; [by apply elem_of_nil in Hk|].
    apply list_elem_of_fmap in Hk as ([k' v'] & -> & Hk).
    apply list_elem_of_fmap in Hk as (kv & Heq & Hk).
    injection Heq as -> ->. simpl. exact (Hparse n kv Hn Hk). }
  destruct (convert_loop_Ok py_int (dict_keys (init_entries inst))
              (init_entries inst)) as (out & ->); [|exact I].
  intros k Hk. apply dict_get_key in Hk as [v Hv]. exists v.
  split; [exact Hv|]. intros d ->. apply dict_get_In in Hv.
  unfold init_entries, optional_params in Hv.
  repeat (apply elem_of_app in Hv as [Hv|Hv]).
  - apply list_elem_of_fmap in Hv as (n & Heq & _). discriminate.
  - apply list_elem_of_fmap in Hv as (n & Heq & _). discriminate.
  - apply list_elem_of_fmap in Hv as (n & Heq & Hn). injection Heq as -> Heq.
    symmetry in Heq.
    subst d. apply (Hkeyed n); [by right|done].
  - apply list_elem_of_fmap in Hv as (n & Heq & Hn). injection Heq as -> Heq.
    symmetry in Heq.
    by destruct (Hscalar n d).
  - destruct (has_component inst "nem_year_emit_limit");
      [|by apply elem_of_nil in Hv].
    apply list_elem_of_singleton in Hv. injection Hv as -> Hv.
    symmetry in Hv.
    by destruct (Hscalar "nem_year_emit_limit" d).
  - destruct (has_component inst "nem_ret_ratio");
      [|by apply elem_of_nil in Hv].
    apply list_elem_of_singleton in Hv. injection Hv as -> Hv.
    symmetry in Hv.
    by destruct (Hscalar "nem_ret_ratio" d).
  - destruct (has_component inst "nem_ret_gwh");
      [|by apply elem_of_nil in Hv].
    apply list_elem_of_singleton in Hv. injection Hv as -> Hv.
    symmetry in Hv.
    by destruct (Hscalar "nem_ret_gwh" d).
  - destruct (has_component inst "region_ret_ratio");
      [|by apply elem_of_nil in Hv].
    apply list_elem_of_singleton in Hv. injection Hv as -> Hv.
    subst d. apply (Hkeyed "region_ret_ratio"); [left|done].
  - destruct (has_component inst "nem_disp_ratio");
      [|by apply elem_of_nil in Hv].
    apply list_elem_of_singleton in Hv. injection Hv as -> Hv.
    symmetry in Hv.
    by destruct (Hscalar "nem_disp_ratio" d).
  - destruct (has_component inst "nem_re_disp_ratio");
      [|by apply elem_of_nil in Hv].
    apply list_elem_of_singleton in Hv. injection Hv as -> Hv.
    symmetry in Hv.
    by destruct (Hscalar "nem_re_disp_ratio" d).
Qed.

Lemma jsoninit_returns_witness :
  succeeds (jsoninit (L := Keyed.libs) Keyed.py_int 2020).
Proof.
  apply (jsoninit_returns (L := Keyed.libs)).
  - intros n kv _ Hkv. simpl in Hkv.
    destruct (String.eqb n "cost_gen_fom"); [|by apply elem_of_nil in Hkv].
    apply elem_of_cons in Hkv as [->|Hkv]; [by eexists|].
    apply list_elem_of_singleton in Hkv as ->. by eexists.
  - intros n d. discriminate.
Defined.

(** ** What the constructor reads *)

(** X23: an object the constructor returned was read from the scenario
    file at the path given: the file could be read and parsed; the keys
    Name, Years, discountrate, Template, cluster_sets and all_tech_per_zone
    were present, and the object holds their values; the description, the
    two override tables and the cluster flag are the optional values of
    the file; regions, zones and technologies default to the constants of
    the package; the template and each override table named exist; and
    the path of the scenario file, the working directory, the solver and
    the log flag are the arguments given. *)
Theorem constructor_reads_scenario `{L : Libs} (files : fs)
  (cfgfile_ solver_ : string) (log_ : bool) (tmpdir_ : string)
  (c : SolveTemplate) :
  init files cfgfile_ solver_ log_ tmpdir_ = Ok c ->
  exists text config,
    read_text files cfgfile_ = Ok text /\
    parse_config text = Ok config /\
    (f_Name config = Some (Name c) /\
     is_Some (f_Years config) /\
     f_discountrate config = Some (discountrate c) /\
     f_Template config = Some (Template c) /\
     f_cluster_sets config = Some (cluster_max_d c) /\
     is_Some (f_all_tech_per_zone config)) /\
    (description c = f_Description config /\
     custom_costs c = f_custom_costs config /\
     exogenous_capacity c = f_exogenous_capacity config /\
     cluster c = f_cluster config /\
     regions c = default (REGION const) (f_regions config) /\
     zones c = default (ZONE const) (f_zones config) /\
     all_tech c = default (TECH_TYPE const) (f_all_tech config)) /\
    (is_Some (files !! Template c) /\
     (forall p, custom_costs c = Some p -> is_Some (files !! p)) /\
     (forall p, exogenous_capacity c = Some p -> is_Some (files !! p))) /\
    cfgfile c = cfgfile_ /\ tmpdir c = tmpdir_ /\ solver c = solver_ /\
    log c = log_.
Proof.
  unfold init. intros H.
  destruct (files !! cfgfile_) as [f|] eqn:Ef; [|discriminate].
  bind_inv H. injection H as <-. simpl.
  repeat match goal with
    | H : required _ _ = Ok _ |- _ => apply required_Ok in H
    | H : set_Template _ _ = Ok _ |- _ =>
        apply set_Template_Ok in H as [-> ?]
    | H : set_custom_costs _ _ = Ok _ |- _ =>
        apply set_custom_costs_Ok in H as [-> ?]
    | H : set_exogenous_capacity _ _ = Ok _ |- _ =>
        apply set_exogenous_capacity_Ok in H as [-> ?]
    | H : set_discountrate _ = Ok _ |- _ =>
        apply set_discountrate_same in H as ->
    end.
  eexists _, _. split; [eassumption|]. split; [eassumption|].
  repeat split; try eassumption; try reflexivity; by eexists.
Qed.

Lemma constructor_reads_scenario_witness :
  exists c,
    init (L := Demo.libs) (Demo.files_with "two years") "scenario.cfg" "cbc"
      false "/tmp/x/" = Ok c /\
    Template c = "template.dat" /\
    custom_costs c = None /\
    is_Some (Demo.files_with "two years" !! "template.dat").
Proof.
  destruct (init (L := Demo.libs) (Demo.files_with "two years") "scenario.cfg"
              "cbc" false "/tmp/x/") as [c|e] eqn:Hi;
    [|vm_compute in Hi; discriminate].
  destruct (constructor_reads_scenario (L := Demo.libs) _ _ _ _ _ c Hi)
    as (text & config & Ht & Hc & (_ & _ & _ & Htpl & _)
        & (_ & Hcosts & _) & (Hfile & _) & _).
  assert (Hcfg : config = Demo.two_years).
  { vm_compute in Ht. injection Ht as <-. vm_compute in Hc.
    by injection Hc as <-. }
  subst config. simpl in Htpl, Hcosts. injection Htpl as Htpl.
  exists c. rewrite <- Htpl in Hfile. by rewrite <- Htpl.
Defined.
